(** * SmartDemand: per-item forecasting pipeline

    A shallow embedding of the algorithmic core of the SmartDemand
    repository (anomaly_analyzer.py, external_factor_detector.py,
    model_trainer.py, advanced_models.py, parallel_processor.py and the
    column mapping of column_mapper.py) together with the properties its
    specification states about it and further properties of the code.

    Conventions of the embedding.

    - A Python [float] is a real number ([R]); the missing value [NaN] is
      written [None] in an [option R].  Rounding is not modelled: a
      statement "within floating tolerance" is proved exactly.
    - A test [x == 0] on a computed float is decided on the exact value.
      The code decides it on the rounded value, and the two differ where
      [x] is what rounding leaves of a cancelling sum (the standard
      deviation of a constant series, a total of weights of both signs).
      The properties of such tests are stated for inputs on which exact
      and rounded value agree; the module [binary64] runs the detector's
      z-score in double precision where they do not.
    - A Python [dict] with string keys is an association list in insertion
      order (the order in which Python iterates it).
    - A raised exception is the [Raise] case of [outcome]; [try]/[except]
      is [catch].
    - Calls into the learning libraries (Prophet, XGBoost, LightGBM, Keras)
      are parameters of the trainers that embed them.
    - A table is the list of its column names and the list of its rows; a
      row has a typed field for each column the core reads by name. *)

From Stdlib Require Import Reals Lra Lia String Ascii ZArith Bool Arith
  PeanoNat List Permutation.
From Stdlib Require Floats Uint63.
Import ListNotations.

(* ===================================================================== *)
(** * Part I: definitions *)
(* ===================================================================== *)

(** ** Python values, dictionaries, slices and exceptions *)

Module Py.

Local Open Scope R_scope.

(** [sum(xs)]: left-to-right accumulation from 0. *)
Definition sum (xs : list R) : R := fold_left Rplus xs 0.

(** A [dict] keyed by strings, in insertion order. *)
Definition dict (V : Type) : Type := list (string * V).

Definition keys {V} (d : dict V) : list string := map fst d.
Definition values {V} (d : dict V) : list V := map snd d.

(** [d.get(k)] *)
Fixpoint get {V} (d : dict V) (k : string) : option V :=
  match d with
  | [] => None
  | (k', v) :: d' => if String.eqb k' k then Some v else get d' k
  end.

(** [k in d] *)
Definition contains {V} (d : dict V) (k : string) : bool :=
  match get d k with Some _ => true | None => false end.

(** [d.get(k, default)] *)
Definition get_default {V} (d : dict V) (k : string) (default : V) : V :=
  match get d k with Some v => v | None => default end.

(** [xs[-k:]]: the last [k] elements when [k > 0], the whole list when
    [k = 0] (Python reads [-0] as [0]) or when [k] exceeds the length. *)
Definition slice_from_neg {A} (k : nat) (xs : list A) : list A :=
  match k with
  | O => xs
  | _ => skipn (length xs - k) xs
  end.

(** [xs[:-k]]: everything but the last [k] elements when [k > 0]; the
    empty list when [k = 0]. *)
Definition slice_until_neg {A} (k : nat) (xs : list A) : list A :=
  match k with
  | O => []
  | _ => firstn (length xs - k) xs
  end.

(** [int(n * 0.2)] for a length [n]: the double nearest to [0.2] lies just
    above one fifth, so the truncated product is the integer quotient. *)
Definition int_mul_02 (n : nat) : nat := n / 5.

(** The same product in binary64 arithmetic, for comparison: [n] as a
    double, times the double nearest to 0.2 (the correctly rounded quotient
    of 1 by 5), truncated toward zero. *)
Definition float_trunc (f : PrimFloat.float) : Z :=
  match FloatOps.Prim2SF f with
  | SpecFloat.S754_finite s m e =>
    let v := if (0 <=? e)%Z then Z.shiftl (Zpos m) e
             else Z.shiftr (Zpos m) (- e) in
    if s then (- v)%Z else v
  | _ => 0%Z
  end.

Definition float_of_nat (n : nat) : PrimFloat.float :=
  PrimFloat.of_uint63 (Uint63.of_Z (Z.of_nat n)).

Definition int_mul_02_float (n : nat) : Z :=
  float_trunc
    (PrimFloat.mul (float_of_nat n)
                   (PrimFloat.div (float_of_nat 1) (float_of_nat 5))).

(** Exceptions raised on the paths that are modelled. *)
Inductive exn : Type :=
| KeyError (key : string)
| ValueError (msg : string)
| TypeError
| IndexError.

Inductive outcome (A : Type) : Type :=
| Return (a : A)
| Raise (e : exn).

Arguments Return {A} a.
Arguments Raise {A} e.

Definition bind {A B} (c : outcome A) (k : A -> outcome B) : outcome B :=
  match c with
  | Return a => k a
  | Raise e => Raise e
  end.

(** [try: c  except Exception: handler] *)
Definition catch {A} (c : outcome A) (handler : exn -> A) : A :=
  match c with
  | Return a => a
  | Raise e => handler e
  end.

End Py.

Import Py.

Declare Scope py_scope.
Delimit Scope py_scope with py.
Notation "x <- c ;; k" := (bind c (fun x => k))
  (at level 61, c at next level, right associativity) : py_scope.
Notation "' pat <- c ;; k" := (bind c (fun x => match x with pat => k end))
  (at level 61, pat pattern, c at next level, right associativity) : py_scope.

(** ** The tabular data the core consumes (pandas) *)

Module pandas.

Local Open Scope R_scope.
Local Open Scope string_scope.

(** A value read from an object column or through [row.get]. *)
Inductive cell : Type :=
| PyNone
| NaN
| Str (s : string)
| Num (x : R).

(** [pd.isna] / [pd.notna] on a scalar. *)
Definition isna (c : cell) : bool :=
  match c with PyNone | NaN => true | _ => false end.
Definition notna (c : cell) : bool := negb (isna c).

(** One row of the input table. [date] is the parsed calendar day ([None]
    is [NaT]), [quantity] the sales quantity ([None] is [NaN]); the four
    covariates hold whatever the optional columns hold. *)
Record Row : Type := {
  date : option Z;
  item : option string;
  quantity : option R;
  event : cell;
  promotion : cell;
  weather : cell;
  temperature : cell
}.

(** A table: the names of the columns it has, and its rows. A field of
    [Row] whose column is not listed in [columns] is never read. *)
Record DataFrame : Type := {
  columns : list string;
  rows : list Row
}.

Definition col_date := "날짜".
Definition col_item := "품목명".
Definition col_quantity := "판매량".
Definition col_event := "이벤트".
Definition col_promotion := "프로모션".
Definition col_weather := "날씨".
Definition col_temperature := "기온".

(** [col in df.columns] *)
Definition has_column (cols : list string) (col : string) : bool :=
  existsb (String.eqb col) cols.

(** [df[col]] as a guard: [KeyError] when the column is absent. *)
Definition require_column (cols : list string) (col : string) : outcome unit :=
  if has_column cols col then Return tt else Raise (KeyError col).

(** [row.get(col, default)] *)
Definition row_get (cols : list string) (col : string) (value default : cell)
  : cell :=
  if has_column cols col then value else default.

(** NaN-propagating arithmetic on floats. A quotient by zero is an
    infinity or NaN in numpy; no modelled path divides by zero, and the
    model gives such a quotient no value. *)
Definition fsub (a b : option R) : option R :=
  match a, b with Some x, Some y => Some (x - y) | _, _ => None end.
Definition fdiv (a b : option R) : option R :=
  match a, b with
  | Some x, Some y => if Req_dec_T y 0 then None else Some (x / y)
  | _, _ => None
  end.

(** The values of a series that are not NaN. *)
Fixpoint dropna (s : list (option R)) : list R :=
  match s with
  | [] => []
  | Some x :: s' => x :: dropna s'
  | None :: s' => dropna s'
  end.

(** [Series.mean()]: skips NaN; NaN when nothing is left. *)
Definition series_mean (s : list (option R)) : option R :=
  match dropna s with
  | [] => None
  | v => Some (sum v / INR (length v))
  end.

(** [Series.std()]: sample standard deviation (ddof = 1) of the values
    that are not NaN; NaN with fewer than two of them. The value is the
    exact one: 0 for every constant series, where the library can return a
    float of rounding size (see [binary64.series_std]). *)
Definition series_std (s : list (option R)) : option R :=
  let v := dropna s in
  if (length v <=? 1)%nat then None
  else
    let m := sum v / INR (length v) in
    Some (sqrt (sum (map (fun x => (x - m) * (x - m)) v)
                / INR (length v - 1))).

(** Order of [sort_values]: ascending, missing keys last. *)
Definition option_leb {A} (leb : A -> A -> bool) (a b : option A) : bool :=
  match a, b with
  | Some x, Some y => leb x y
  | Some _, None => true
  | None, Some _ => false
  | None, None => true
  end.

Definition option_eqb {A} (eqb : A -> A -> bool) (a b : option A) : bool :=
  match a, b with
  | Some x, Some y => eqb x y
  | None, None => true
  | _, _ => false
  end.

(** Stable insertion sort, the order in which [sort_values] and [groupby]
    deliver rows and keys. *)
Fixpoint insert_sorted {A} (leb : A -> A -> bool) (x : A) (l : list A)
  : list A :=
  match l with
  | [] => [x]
  | y :: l' => if leb x y then x :: l else y :: insert_sorted leb x l'
  end.

Definition sort_by {A} (leb : A -> A -> bool) (l : list A) : list A :=
  fold_right (insert_sorted leb) [] l.

(** [df.sort_values(by=['품목명', '날짜'])] *)
Definition item_date_leb (r1 r2 : Row) : bool :=
  if option_eqb String.eqb (item r1) (item r2)
  then option_leb Z.leb (date r1) (date r2)
  else option_leb String.leb (item r1) (item r2).

Definition sort_values_item_date (rs : list Row) : list Row :=
  sort_by item_date_leb rs.

(** The distinct values of a list, first occurrences kept. *)
Fixpoint unique (l : list string) : list string :=
  match l with
  | [] => []
  | x :: l' => x :: filter (fun y => negb (String.eqb x y)) (unique l')
  end.

Definition item_names (rs : list Row) : list string :=
  sort_by String.leb
    (unique (flat_map (fun r => match item r with
                                | Some n => [n]
                                | None => []
                                end) rs)).

(** [df[df['품목명'] == name]] *)
Definition select_item (name : string) (rs : list Row) : list Row :=
  filter (fun r => option_eqb String.eqb (item r) (Some name)) rs.

(** The pair [(날짜, 품목명)] of a row: the key on which the anomaly log is
    joined back onto the table. *)
Definition row_key (r : Row) : option Z * option string := (date r, item r).

(** [df.groupby('품목명')]: one group per item name, in sorted key order;
    rows without an item name belong to no group. *)
Definition groupby_item (rs : list Row) : list (string * list Row) :=
  map (fun name => (name, select_item name rs)) (item_names rs).

(** [needle in hay] on strings. *)
Definition str_in (needle hay : string) : bool :=
  match index 0 needle hay with Some _ => true | None => false end.

(** Sequencing of a row-wise [apply]: the first exception aborts it. *)
Fixpoint mapM {A B} (f : A -> outcome B) (l : list A) : outcome (list B) :=
  match l with
  | [] => Return []
  | x :: l' =>
    match f x with
    | Raise e => Raise e
    | Return y =>
      match mapM f l' with
      | Raise e => Raise e
      | Return ys => Return (y :: ys)
      end
    end
  end.

End pandas.

(** ** numpy and scikit-learn helpers *)

Module numpy.

Import pandas.
Local Open Scope R_scope.

(** The values of an array, when none of them is NaN. *)
Fixpoint all_values (a : list (option R)) : option (list R) :=
  match a with
  | [] => Some []
  | None :: _ => None
  | Some x :: a' =>
    match all_values a' with
    | Some v => Some (x :: v)
    | None => None
    end
  end.

(** [np.mean]: NaN on an empty array or when a value is NaN. *)
Definition mean (a : list (option R)) : option R :=
  match all_values a with
  | Some (x :: v) => Some (sum (x :: v) / INR (length (x :: v)))
  | _ => None
  end.

(** [np.std]: population standard deviation (ddof = 0), NaN as [mean]. *)
Definition std (a : list (option R)) : option R :=
  match all_values a with
  | Some (x :: v) =>
    let m := sum (x :: v) / INR (length (x :: v)) in
    Some (sqrt (sum (map (fun y => (y - m) * (y - m)) (x :: v))
                / INR (length (x :: v))))
  | _ => None
  end.

(** [np.maximum(a, 0)] on predictions. *)
Definition clip_negative (a : list R) : list R := map (fun x => Rmax x 0) a.

(** [df.tail(n)] / [values[-n:]] on a frame: the last [n] rows. *)
Definition tail {A} (n : nat) (l : list A) : list A :=
  skipn (length l - n) l.

(** [np.mean(np.abs((y_true - y_pred) / np.maximum(y_true, 1))) * 100] on
    arrays of one length without NaN. *)
Definition mape (y_true y_pred : list R) : R :=
  sum (map (fun yp => Rabs ((fst yp - snd yp) / Rmax (fst yp) 1))
           (combine y_true y_pred))
  / INR (length y_true) * 100.

End numpy.

Module sklearn.

Import pandas.
Local Open Scope R_scope.
Local Open Scope string_scope.

(** [mean_absolute_error]: the arrays must have one length, no NaN and at
    least one sample. *)
Definition mean_absolute_error (y_true y_pred : list (option R))
  : outcome R :=
  if negb (length y_true =? length y_pred)%nat
  then Raise (ValueError "Found input variables with inconsistent numbers of samples")
  else
    match numpy.all_values y_true, numpy.all_values y_pred with
    | Some [], Some _ => Raise (ValueError "Found array with 0 sample(s)")
    | Some t, Some p =>
      Return (sum (map (fun yp => Rabs (fst yp - snd yp)) (combine t p))
              / INR (length t))
    | _, _ => Raise (ValueError "Input contains NaN")
    end.

(** The record [{'Accuracy(%)': ..., 'MAE': ...}]. *)
Definition performance_record (accuracy mae : R) : dict R :=
  [("Accuracy(%)", accuracy); ("MAE", mae)].

(** The evaluation every trainer repeats: [mae] from
    [mean_absolute_error], then [100 - mape]. *)
Definition evaluate (y_true y_pred : list (option R)) : outcome (dict R) :=
  match mean_absolute_error y_true y_pred with
  | Raise e => Raise e
  | Return mae =>
    match numpy.all_values y_true, numpy.all_values y_pred with
    | Some t, Some p =>
      Return (performance_record (100 - numpy.mape t p) mae)
    | _, _ => Raise (ValueError "Input contains NaN")
    end
  end.

(** A fitted [MinMaxScaler] on one feature: [scale_] and [min_]; both are
    NaN when the column holds no number. *)
Definition MinMaxScaler : Type := option (R * R).

Definition list_min (x : R) (l : list R) : R := fold_left Rmin l x.
Definition list_max (x : R) (l : list R) : R := fold_left Rmax l x.

(** [fit]: NaN is disregarded; a zero range scales by 1. *)
Definition MinMaxScaler_fit (data : list (option R)) : MinMaxScaler :=
  match dropna data with
  | [] => None
  | x :: v =>
    let data_min := list_min x v in
    let data_max := list_max x v in
    let data_range := data_max - data_min in
    let scale := 1 / (if Req_dec_T data_range 0 then 1 else data_range) in
    Some (scale, 0 - data_min * scale)
  end.

(** [transform]: [X * scale_ + min_]; NaN is kept. *)
Definition MinMaxScaler_transform (scaler : MinMaxScaler)
    (data : list (option R)) : list (option R) :=
  map (fun x => match scaler, x with
                | Some (scale, min_), Some x => Some (x * scale + min_)
                | _, _ => None
                end) data.

(** [inverse_transform]: [(X - min_) / scale_]. *)
Definition MinMaxScaler_inverse (scaler : MinMaxScaler)
    (data : list (option R)) : list (option R) :=
  map (fun x => match scaler, x with
                | Some (scale, min_), Some x => Some ((x - min_) / scale)
                | _, _ => None
                end) data.

End sklearn.

(** ** anomaly_analyzer.py: anomaly detection and cause attribution *)

Module anomaly_analyzer.

Import pandas.
Local Open Scope R_scope.
Local Open Scope string_scope.

(** A row of the anomaly log (the columns of [log_columns]). *)
Record LogRow : Type := {
  log_date : option Z;
  log_item : option string;
  log_quantity : option R;
  log_type : string;        (* 이상_유형 *)
  log_event : cell;         (* 이벤트_정보 *)
  log_reason : string;      (* 추정_원인 *)
  z_score : option R
}.

(** A row of the augmented table: the input row and the four joined
    columns, each of which can hold a null before it is filled. *)
Record AugRow : Type := {
  base : Row;
  is_anomaly : option bool;
  anomaly_type : option string;
  anomaly_reason : option string;
  anomaly_score : option R
}.

Record AugFrame : Type := {
  aug_columns : list string;
  aug_rows : list AugRow
}.

(** The object state: the threshold and [self.anomaly_log]. *)
Record SmartDemandPreprocessor : Type := {
  z_score_threshold : R;
  anomaly_log : option (list LogRow)
}.

(** [__init__(z_score_threshold=2.5)] *)
Definition SmartDemandPreprocessor_init (z_score_threshold : R)
  : SmartDemandPreprocessor :=
  {| z_score_threshold := z_score_threshold; anomaly_log := None |}.

Definition MISSING := "결측".
Definition SURGE := "급등".
Definition DROP := "급감".
Definition NORMAL := "정상".

Definition REASON_MISSING := "품절 또는 집계 누락".
Definition REASON_PROMOTION := "프로모션 영향".
Definition REASON_BAD_WEATHER := "기상 악화 영향".
Definition REASON_HOT_WEATHER := "더운 날씨 특수".
Definition REASON_SPECIAL_EVENT := "특별 이벤트 특수".
Definition REASON_UNKNOWN := "통계적 이상치 (원인 불명)".
Definition NO_EVENT := "없음".

(** [_calculate_z_score]. The guard [std == 0] is decided on the exact
    standard deviation; [binary64._calculate_z_score] decides it on the
    rounded one. *)
Definition _calculate_z_score (series : list (option R)) : list (option R) :=
  let mean := series_mean series in
  let std := series_std series in
  if match std with
     | Some s => if Req_dec_T s 0 then true else false
     | None => false
     end
  then map (fun _ => Some 0) series
  else map (fun x => fdiv (fsub x mean) std) series.

(** [z_score.abs() > threshold]: false on NaN. *)
Definition exceeds_threshold (threshold : R) (z : option R) : bool :=
  match z with
  | Some z => if Rgt_dec (Rabs z) threshold then true else false
  | None => false
  end.

(** [판매량.isna()] *)
Definition quantity_isna (r : Row) : bool :=
  match quantity r with None => true | Some _ => false end.

(** One entry of [anomaly_mask]. *)
Definition anomaly_mask (threshold : R) (r : Row) (z : option R) : bool :=
  exceeds_threshold threshold z || quantity_isna r.

(** [_define_anomaly_type] *)
Definition _define_anomaly_type (self : SmartDemandPreprocessor)
    (r : Row) (z : option R) : string :=
  if quantity_isna r then MISSING
  else if match z with
          | Some z => if Rgt_dec z (z_score_threshold self) then true else false
          | None => false
          end then SURGE
  else if match z with
          | Some z => if Rlt_dec z (- z_score_threshold self) then true else false
          | None => false
          end then DROP
  else NORMAL.

(** [any(w in text for w in words)] *)
Definition any_in (words : list string) (text : string) : bool :=
  existsb (fun w => str_in w text) words.

(** [row.get('기온', 15) > 25]: a comparison of a string or of [None] with
    a number raises. *)
Definition temperature_above_25 (cols : list string) (r : Row) : outcome bool :=
  match row_get cols col_temperature (temperature r) (Num 15) with
  | Num t => Return (if Rgt_dec t 25 then true else false)
  | NaN => Return false
  | Str _ | PyNone => Raise TypeError
  end.

(** [_infer_reason] *)
Definition _infer_reason (cols : list string) (r : Row) (anomaly_type : string)
  : outcome string :=
  let event := row_get cols col_event (event r) PyNone in
  let promotion := row_get cols col_promotion (promotion r) PyNone in
  let weather := row_get cols col_weather (weather r) PyNone in
  if String.eqb anomaly_type MISSING then Return REASON_MISSING
  else if ((match promotion with
            | Num p => if Req_dec_T p 1 then true else false
            | _ => false
            end)
           || (match event with Str e => str_in "할인" e | _ => false end))
          && String.eqb anomaly_type SURGE
  then Return REASON_PROMOTION
  else
    (* the rules that follow the weather block *)
    let event_rules : outcome string :=
      if notna event
         && negb (match event with Str e => String.eqb e NO_EVENT | _ => false end)
      then
        match event with
        | Str e =>
          if any_in ["명절"; "연휴"; "월드컵"] e && String.eqb anomaly_type SURGE
          then Return REASON_SPECIAL_EVENT
          else Return ("'" ++ e ++ "' 이벤트 영향")
        | _ => Raise TypeError
        end
      else Return REASON_UNKNOWN in
    match weather with
    | Str w =>
      if any_in ["비"; "눈"; "폭우"; "폭설"] w && String.eqb anomaly_type DROP
      then Return REASON_BAD_WEATHER
      else if any_in ["맑음"; "화창"] w
      then
        match temperature_above_25 cols r with
        | Raise e => Raise e
        | Return hot =>
          if hot && String.eqb anomaly_type SURGE
          then Return REASON_HOT_WEATHER
          else event_rules
        end
      else event_rules
    | _ => event_rules
    end.

(** [anomalies_df]: the rows of the group selected by [anomaly_mask], each
    with its z-score. *)
Definition anomalies_df (self : SmartDemandPreprocessor) (group_df : list Row)
  : list (Row * option R) :=
  filter (fun rz => anomaly_mask (z_score_threshold self) (fst rz) (snd rz))
         (combine group_df (_calculate_z_score (map quantity group_df))).

(** [anomalies_df.get('이벤트', ...).fillna('없음')] for one row. *)
Definition event_info (cols : list string) (r : Row) : cell :=
  if has_column cols col_event
  then (if isna (event r) then Str NO_EVENT else event r)
  else Str NO_EVENT.

(** [_detect_anomalies_and_missing]: the log of one item group (the empty
    list is the empty frame). *)
Definition _detect_anomalies_and_missing (self : SmartDemandPreprocessor)
    (cols : list string) (group_df : list Row) : outcome (list LogRow) :=
  mapM (fun rz : Row * option R =>
          let (r, z) := rz in
          let anomaly_type := _define_anomaly_type self r z in
          match _infer_reason cols r anomaly_type with
          | Raise e => Raise e
          | Return reason =>
            Return {| log_date := date r;
                      log_item := item r;
                      log_quantity := quantity r;
                      log_type := anomaly_type;
                      log_event := event_info cols r;
                      log_reason := reason;
                      z_score := z |}
          end)
       (anomalies_df self group_df).

(** The key of the join: [on=['날짜', '품목명']]; null keys match null keys. *)
Definition same_key (r : Row) (l : LogRow) : bool :=
  option_eqb Z.eqb (date r) (log_date l)
  && option_eqb String.eqb (item r) (log_item l).

(** The same pair of a log row. *)
Definition log_key (l : LogRow) : option Z * option string :=
  (log_date l, log_item l).

(** [pd.merge(df, anomaly_features, on=[...], how='left')] for one row of
    [df]: one output row per matching log row, or one row of nulls. *)
Definition merge_left_row (log : list LogRow) (r : Row) : list AugRow :=
  match filter (same_key r) log with
  | [] => [ {| base := r; is_anomaly := None; anomaly_type := None;
               anomaly_reason := None; anomaly_score := None |} ]
  | matches =>
    map (fun l => {| base := r;
                     is_anomaly := Some true;
                     anomaly_type := Some (log_type l);
                     anomaly_reason := Some (log_reason l);
                     anomaly_score := z_score l |})
        matches
  end.

(** [column.fillna(value)] *)
Definition fillna {A} (value : A) (x : option A) : option A :=
  match x with Some _ => x | None => Some value end.

Definition fill_anomaly_columns (a : AugRow) : AugRow :=
  {| base := base a;
     is_anomaly := fillna false (is_anomaly a);
     anomaly_type := fillna NORMAL (anomaly_type a);
     anomaly_reason := fillna NORMAL (anomaly_reason a);
     anomaly_score := fillna 0 (anomaly_score a) |}.

(** [_create_features_from_log]. The four [fillna(..., inplace=True)] calls
    go through the column accessor of [merged_df]; they are modelled as
    updating the table, which is what they do in pandas without
    copy-on-write. *)
Definition _create_features_from_log (self : SmartDemandPreprocessor)
    (df : DataFrame) : AugFrame :=
  match anomaly_log self with
  | None | Some [] =>
    {| aug_columns := columns df ++
         ["is_anomaly"; "anomaly_type"; "anomaly_reason"; "anomaly_score"];
       aug_rows :=
         map (fun r => {| base := r;
                          is_anomaly := Some false;
                          anomaly_type := Some NORMAL;
                          anomaly_reason := Some NORMAL;
                          anomaly_score := Some 0 |})
             (rows df) |}
  | Some log =>
    let merged_df := flat_map (merge_left_row log) (rows df) in
    {| aug_columns := columns df ++
         ["anomaly_type"; "anomaly_reason"; "anomaly_score"; "is_anomaly"];
       aug_rows := map fill_anomaly_columns merged_df |}
  end.

(** [process]: the augmented table, the anomaly log, and the object after
    the call. The tables of the model hold parsed dates ([date] of [Row]),
    as the tables [get_data] hands to the run do; on them [pd.to_datetime]
    (line 39) has nothing left to do. On a date column that holds text
    which does not parse, that line raises in the code; such a table has
    no counterpart here, and nothing below is stated about it. *)
Definition process (self : SmartDemandPreprocessor) (df : DataFrame)
  : outcome (AugFrame * list LogRow * SmartDemandPreprocessor) :=
  if negb (forallb (has_column (columns df))
                   [col_date; col_item; col_quantity])
  then Raise (ValueError
    "데이터에 '날짜', '품목명', '판매량' 컬럼이 반드시 포함되어야 합니다.")
  else
    let df := {| columns := columns df;
                 rows := sort_values_item_date (rows df) |} in
    match mapM (fun g => _detect_anomalies_and_missing self (columns df) (snd g))
               (groupby_item (rows df)) with
    | Raise e => Raise e
    | Return all_anomalies =>
      let log := concat all_anomalies in
      let self := {| z_score_threshold := z_score_threshold self;
                     anomaly_log := Some log |} in
      Return (_create_features_from_log self df, log, self)
    end.

End anomaly_analyzer.

(** ** anomaly_analyzer.py: the z-score in double precision *)

Module binary64.

(** The z-score of the detector with every operation rounded to binary64,
    in the order in which the library performs them on fewer than eight
    values (numpy adds those from left to right): the mean is the sum
    divided by the count, the variance the sum of the squared distances
    from that mean, divided by the count less one. A missing value is the
    float NaN. *)

Definition float : Set := PrimFloat.float.

Definition of_nat (n : nat) : float := Py.float_of_nat n.


Definition fsum (v : list float) : float :=
  fold_left PrimFloat.add v (of_nat 0).

Definition dropna (s : list float) : list float :=
  filter (fun x => negb (PrimFloat.is_nan x)) s.

(** [Series.mean()] *)
Definition series_mean (s : list float) : float :=
  let v := dropna s in
  PrimFloat.div (fsum v) (of_nat (length v)).

(** [Series.std()] *)
Definition series_std (s : list float) : float :=
  let v := dropna s in
  if (length v <=? 1)%nat then PrimFloat.nan
  else
    let avg := PrimFloat.div (fsum v) (of_nat (length v)) in
    PrimFloat.sqrt
      (PrimFloat.div
         (fsum (map (fun x => PrimFloat.mul (PrimFloat.sub avg x)
                                            (PrimFloat.sub avg x)) v))
         (of_nat (length v - 1))).

(** [_calculate_z_score]: [std == 0] is the IEEE comparison, false on
    NaN. *)
Definition _calculate_z_score (series : list float) : list float :=
  let mean := series_mean series in
  let std := series_std series in
  if PrimFloat.eqb std (of_nat 0)
  then map (fun _ => of_nat 0) series
  else map (fun x => PrimFloat.div (PrimFloat.sub x mean) std) series.

(** [z_score.abs() > threshold] *)
Definition exceeds_threshold (threshold z : float) : bool :=
  PrimFloat.ltb threshold (PrimFloat.abs z).

End binary64.

(** ** external_factor_detector.py: the factor synthesizer *)

Module external_factor_detector.

Import pandas.
Local Open Scope R_scope.
Local Open Scope string_scope.

(** The volatility record. Its two rolling-deviation summaries feed no
    later step and are left out. *)
Record VolatilityInfo : Type := { cv : R; level : string }.

(** The coefficient of variation of [_analyze_volatility]:
    [np.std(sales) / np.mean(sales) if np.mean(sales) > 0 else 0]. *)
Definition coefficient_of_variation (sales : list (option R)) : R :=
  match numpy.mean sales, numpy.std sales with
  | Some m, Some s => if Rgt_dec m 0 then s / m else 0
  | _, _ => 0
  end.

(** [_analyze_volatility] *)
Definition _analyze_volatility (df : DataFrame) : outcome VolatilityInfo :=
  (_ <- require_column (columns df) col_quantity ;;
   let sales := map quantity (rows df) in
   let cv := coefficient_of_variation sales in
   let volatility_level :=
     if Rlt_dec cv 0.2 then "매우 안정"
     else if Rlt_dec cv 0.5 then "안정"
     else if Rlt_dec cv 1.0 then "변동성 있음"
     else "매우 변동적" in
   Return {| cv := cv; level := volatility_level |})%py.

(** The calendar columns the derived signals read, in the order in which
    the steps of [detect_and_create_factors] first touch them. *)
Definition calendar_columns : list string := ["월"; "주차"; "일"; "요일"].

(** The columns the steps add. *)
Definition derived_columns : list string :=
  [ "월별_편차"; "주차별_편차"; "여름_특수"; "겨울_특수";
    "일간_변화율"; "급등_신호"; "급락_신호"; "변화_강도";
    "주간_사이클"; "주간_사이클_cos"; "격주_사이클"; "월간_사이클";
    "MA7"; "MA14"; "트렌드_방향"; "트렌드_강도"; "트렌드_전환";
    "요일_효과_비율"; "주말_효과"; "월요일_효과"; "금요일_효과";
    "예측_신뢰도"; "데이터_품질_점수" ].

(** [detect_and_create_factors]: the item's rows with the derived columns
    added, and the volatility record stored in [detected_factors]. The
    values of the derived columns are not represented (they only feed the
    feature builder); what is kept of the steps that compute them is the
    columns they read and add. *)
Definition detect_and_create_factors (df : DataFrame) (product_name : string)
  : outcome (DataFrame * VolatilityInfo) :=
  (_ <- require_column (columns df) col_item ;;
   let product_df := {| columns := columns df;
                        rows := select_item product_name (rows df) |} in
   volatility_info <- _analyze_volatility product_df ;;
   _ <- mapM (require_column (columns df)) calendar_columns ;;
   Return ({| columns := columns df ++ derived_columns;
              rows := rows product_df |},
           volatility_info))%py.

End external_factor_detector.

(** ** feature_engineer.py: the feature builder *)

Module feature_engineer.

Import pandas anomaly_analyzer.

Section Features.

(** The feature vector of the row at a position of an item's augmented
    history (lags, rolling statistics, encodings). *)
Variable F : Type.
Variable feature_row : list AugRow -> nat -> F.

(** [create_xgboost_features]: one feature vector per row of the item, and
    the quantity column as target. *)
Definition create_xgboost_features (df : AugFrame) (product_name : string)
  : outcome (list F * list (option R)) :=
  (_ <- require_column (aug_columns df) col_item ;;
   let product_df :=
     filter (fun a => option_eqb String.eqb (item (base a)) (Some product_name))
            (aug_rows df) in
   _ <- require_column (aug_columns df) col_quantity ;;
   _ <- require_column (aug_columns df) "요일"%string ;;
   Return (map (feature_row product_df) (seq 0 (length product_df)),
           map (fun a => quantity (base a)) product_df))%py.

End Features.

End feature_engineer.

(** ** model_trainer.py: the decomposition and primary tree trainers *)

Module model_trainer.

Import pandas.
Local Open Scope R_scope.
Local Open Scope string_scope.

Definition MIN_DATA_DAYS : nat := 30.

(** The train/test partition of [train_prophet_model]. *)
Definition prophet_split {A} (prophet_data : list A) : list A * list A :=
  let test_days := Nat.min 30 (int_mul_02 (length prophet_data)) in
  (slice_until_neg test_days prophet_data,
   slice_from_neg test_days prophet_data).

(** The train/test partition of [train_xgboost_model]. *)
Definition xgboost_split {F} (features : list F) (target : list (option R))
  : (list F * list (option R)) * (list F * list (option R)) :=
  let test_days := 30%nat in
  ((slice_until_neg test_days features, slice_until_neg test_days target),
   (slice_from_neg test_days features, slice_from_neg test_days target)).

Section Trainers.

(** The Prophet library: a fitted model, fitting on the training rows (with
    the holiday rows, if any), and forecasting the history extended by
    [periods] days, as [(ds, yhat)] rows. *)
Variable Prophet : Type.
Variable Prophet_fit :
  option (list (option Z * cell)) -> list (option Z * option R) ->
  outcome Prophet.
Variable Prophet_predict : Prophet -> nat -> outcome (list (option Z * R)).

(** The XGBoost library behind [optimize_xgboost] and [XGBRegressor]:
    search and fit on the training rows, and prediction. *)
Variable F : Type.
Variable XGBRegressor : Type.
Variable XGBRegressor_fit :
  list F -> list (option R) -> outcome XGBRegressor.
Variable XGBRegressor_predict : XGBRegressor -> list F -> outcome (list R).

(** The body of the [try] block of [train_prophet_model]. *)
Definition prophet_try (cols : list string) (product_df_full : list Row)
    (train_data test_data : list (option Z * option R)) (test_days : nat)
  : outcome (option Prophet * option (list (option Z * R)) *
             option (list R) * dict R) :=
  let holidays :=
    if has_column cols col_event then
      match filter (fun r => notna (event r)) product_df_full with
      | [] => None
      | hs => Some (map (fun r => (date r, event r)) hs)
      end
    else None in
  (model <- Prophet_fit holidays train_data ;;
   forecast <- Prophet_predict model test_days ;;
   let y_true := map snd test_data in
   let y_pred_test := numpy.clip_negative
                        (map snd (numpy.tail test_days forecast)) in
   performance <- sklearn.evaluate y_true (map Some y_pred_test) ;;
   final_forecast <- Prophet_predict model 7 ;;
   let final_forecast := map (fun dy => (fst dy, Rmax (snd dy) 0))
                             final_forecast in
   Return (Some model, Some final_forecast, Some y_pred_test, performance))%py.

(** [train_prophet_model]: model, final forecast, held-out predictions and
    performance. The selection of the item's rows lies outside the [try]. *)
Definition train_prophet_model (df : DataFrame) (product_name : string)
  : outcome (option Prophet * option (list (option Z * R)) *
             option (list R) * dict R) :=
  (_ <- require_column (columns df) col_item ;;
   let product_df_full := select_item product_name (rows df) in
   _ <- require_column (columns df) col_date ;;
   _ <- require_column (columns df) col_quantity ;;
   let prophet_data := map (fun r => (date r, quantity r)) product_df_full in
   if (length prophet_data <? MIN_DATA_DAYS)%nat
   then Return (None, None, None, sklearn.performance_record (-1) (-1))
   else
     let test_days := Nat.min 30 (int_mul_02 (length prophet_data)) in
     let '(train_data, test_data) := prophet_split prophet_data in
     Return (catch (prophet_try (columns df) product_df_full
                                train_data test_data test_days)
                   (fun _ => (None, None, None,
                              sklearn.performance_record (-1) (-1)))))%py.

(** [train_xgboost_model]: model, held-out predictions and performance. *)
Definition train_xgboost_model (features : list F) (target : list (option R))
  : option XGBRegressor * option (list R) * dict R :=
  if (length features <? MIN_DATA_DAYS + 30)%nat
  then (None, None, sklearn.performance_record (-1) (-1))
  else
    catch
      (let '((X_train, y_train), (X_test, y_test)) :=
         xgboost_split features target in
       final_model <- XGBRegressor_fit X_train y_train ;;
       prediction <- XGBRegressor_predict final_model X_test ;;
       let y_pred_test := numpy.clip_negative prediction in
       performance <- sklearn.evaluate y_test (map Some y_pred_test) ;;
       Return (Some final_model, Some y_pred_test, performance))%py
      (fun _ => (None, None, sklearn.performance_record (-1) (-1))).

End Trainers.

End model_trainer.

(** ** advanced_models.py: the sequence and fast tree trainers, and the
       volatility-aware ensemble *)

Module advanced_models.

Import pandas.
Local Open Scope R_scope.
Local Open Scope string_scope.

(** The dictionary returned by [LSTMPredictor.train] and
    [LightGBMPredictor.train]; an absent key is [None]. The keys that only
    carry library output for display ('history', 'best_iteration',
    'feature_importance') are left out. *)
Record TrainResult : Type := {
  trained : bool;
  message : option string;
  performance : option (dict R);
  predictions : option (list R)
}.

(** [{'trained': False, 'message': '데이터 부족'}] *)
Definition not_enough_data : TrainResult :=
  {| trained := false; message := Some "데이터 부족";
     performance := None; predictions := None |}.

(** [data[i:j]] for [0 <= i <= j]. *)
Definition slice {A} (i j : nat) (data : list A) : list A :=
  firstn (j - i) (skipn i data).

(** [LSTMPredictor.prepare_sequences] *)
Definition prepare_sequences (lookback_days forecast_days : nat)
    (data : list (option R))
  : list (list (option R)) * list (list (option R)) :=
  let indices := seq lookback_days
                     (length data + 1 - forecast_days - lookback_days) in
  (map (fun i => slice (i - lookback_days) i data) indices,
   map (fun i => slice i (i + forecast_days) data) indices).

(** The train/test partition of [LSTMPredictor.train], on sequences. *)
Definition lstm_split {A B} (X : list A) (y : list B)
  : (list A * list B) * (list A * list B) :=
  let test_size := Nat.min 30 (int_mul_02 (length X)) in
  ((slice_until_neg test_size X, slice_until_neg test_size y),
   (slice_from_neg test_size X, slice_from_neg test_size y)).

(** The train/test partition of [LightGBMPredictor.train]. *)
Definition lightgbm_split {A} (features : list A) (target : list (option R))
  : (list A * list (option R)) * (list A * list (option R)) :=
  let test_size := Nat.min 30 (int_mul_02 (length features)) in
  ((slice_until_neg test_size features, slice_until_neg test_size target),
   (slice_from_neg test_size features, slice_from_neg test_size target)).

Section Predictors.

(** Keras: fitting the network on the training sequences, and predicting
    one forecast window per test sequence. *)
Variable Sequential : Type.
Variable Sequential_fit :
  list (list (option R)) -> list (list (option R)) -> outcome Sequential.
Variable Sequential_predict :
  Sequential -> list (list (option R)) -> outcome (list (list R)).

(** LightGBM: training with the held-out rows as validation set, and
    prediction at the best iteration. *)
Variable F : Type.
Variable Booster : Type.
Variable lgb_train :
  list F -> list (option R) -> list F -> list (option R) -> outcome Booster.
Variable Booster_predict : Booster -> list F -> outcome (list R).

(** The object state of [LSTMPredictor]. *)
Record LSTMPredictor : Type := {
  lookback_days : nat;
  forecast_days : nat;
  lstm_model : option Sequential;
  scaler : option sklearn.MinMaxScaler
}.

(** [LSTMPredictor(lookback_days=14, forecast_days=7)] *)
Definition LSTMPredictor_init (lookback_days forecast_days : nat)
  : LSTMPredictor :=
  {| lookback_days := lookback_days; forecast_days := forecast_days;
     lstm_model := None; scaler := None |}.

(** [LSTMPredictor.train] *)
Definition LSTMPredictor_train (self : LSTMPredictor) (df : DataFrame)
    (product_name : string) : outcome (TrainResult * LSTMPredictor) :=
  (_ <- require_column (columns df) col_item ;;
   let product_df := select_item product_name (rows df) in
   if (length product_df <? lookback_days self + forecast_days self + 30)%nat
   then Return (not_enough_data, self)
   else
     _ <- require_column (columns df) col_quantity ;;
     let sales_data := map quantity product_df in
     let fitted := sklearn.MinMaxScaler_fit sales_data in
     let scaled_data := sklearn.MinMaxScaler_transform fitted sales_data in
     let '(X, y) := prepare_sequences (lookback_days self)
                      (forecast_days self) scaled_data in
     let '((X_train, y_train), (X_test, y_test)) := lstm_split X y in
     model <- Sequential_fit X_train y_train ;;
     y_pred <- Sequential_predict model X_test ;;
     let y_test_original :=
       sklearn.MinMaxScaler_inverse fitted (concat y_test) in
     let y_pred_original :=
       sklearn.MinMaxScaler_inverse fitted (map Some (concat y_pred)) in
     perf <- sklearn.evaluate y_test_original y_pred_original ;;
     Return ({| trained := true; message := None;
                performance := Some perf;
                predictions := numpy.all_values y_pred_original |},
             {| lookback_days := lookback_days self;
                forecast_days := forecast_days self;
                lstm_model := Some model;
                scaler := Some fitted |}))%py.

(** The object state of [LightGBMPredictor]. *)
Record LightGBMPredictor : Type := { lgb_model : option Booster }.

Definition LightGBMPredictor_init : LightGBMPredictor :=
  {| lgb_model := None |}.

(** [LightGBMPredictor.train] *)
Definition LightGBMPredictor_train (self : LightGBMPredictor)
    (features : list F) (target : list (option R))
  : outcome (TrainResult * LightGBMPredictor) :=
  if (length features <? 60)%nat
  then Return (not_enough_data, self)
  else
    (let '((X_train, y_train), (X_test, y_test)) :=
       lightgbm_split features target in
     model <- lgb_train X_train y_train X_test y_test ;;
     prediction <- Booster_predict model X_test ;;
     let y_pred := numpy.clip_negative prediction in
     perf <- sklearn.evaluate y_test (map Some y_pred) ;;
     Return ({| trained := true; message := None;
                performance := Some perf;
                predictions := Some y_pred |},
             {| lgb_model := Some model |}))%py.

End Predictors.

Arguments lookback_days {Sequential} _.
Arguments forecast_days {Sequential} _.
Arguments lstm_model {Sequential} _.
Arguments scaler {Sequential} _.
Arguments lgb_model {Booster} _.

(** The object state of [VolatilityAwareEnsemble]: [self.weights]. *)
Record VolatilityAwareEnsemble : Type := { weights : dict R }.

(** [__init__] *)
Definition VolatilityAwareEnsemble_init : VolatilityAwareEnsemble :=
  {| weights := [] |}.

(** [{model: perf / total_performance for model, perf in ...items()}] *)
Definition base_weights (model_performances : dict R) : dict R :=
  let total_performance := sum (values model_performances) in
  map (fun '(model, perf) => (model, perf / total_performance))
      model_performances.

Definition volatility_adjustment (volatility_score : R) : dict R :=
  [ ("prophet", 1 - volatility_score * 0.3);
    ("xgboost", 1 - volatility_score * 0.2);
    ("lightgbm", 1 + volatility_score * 0.2);
    ("lstm", 1 + volatility_score * 0.3) ].

(** The loop that fills [adjusted_weights]. *)
Definition adjusted_weights (volatility_score : R) (base_weights : dict R)
  : dict R :=
  map (fun '(model, w) =>
         match get (volatility_adjustment volatility_score) model with
         | Some adj => (model, w * adj)
         | None => (model, w)
         end)
      base_weights.

(** [calculate_dynamic_weights]: the returned mapping and the object after
    the call ([self.weights] is assigned on the last path only). The two
    tests [== 0] are decided on the exact totals. They agree with the
    code's where the total is a sum of terms of one sign or of exact
    zeros; a total of adjusted weights of both signs can cancel, and what
    the code then divides by is a rounding residue. *)
Definition calculate_dynamic_weights (self : VolatilityAwareEnsemble)
    (volatility_score : R) (model_performances : dict R)
  : dict R * VolatilityAwareEnsemble :=
  match model_performances with
  | [] => ([], self)
  | _ :: _ =>
    let total_performance := sum (values model_performances) in
    if Req_dec_T total_performance 0 then
      let num_models := length model_performances in
      (map (fun '(model, _) => (model, 1 / INR num_models)) model_performances,
       self)
    else
      let adjusted := adjusted_weights volatility_score
                        (base_weights model_performances) in
      let total_weight := sum (values adjusted) in
      if Req_dec_T total_weight 0 then
        let num_models := length adjusted in
        (map (fun '(model, _) => (model, 1 / INR num_models)) adjusted, self)
      else
        let normalized_weights :=
          map (fun '(model, weight) => (model, weight / total_weight))
              adjusted in
        (normalized_weights, {| weights := normalized_weights |})
  end.

(** [ensemble_pred += pred * weight] on numpy arrays: equal lengths add
    elementwise, a one-element right operand is broadcast, anything else
    raises. *)
Definition iadd_array (acc term : list R) : outcome (list R) :=
  if (length term =? length acc)%nat
  then Return (map (fun ab => fst ab + snd ab) (combine acc term))
  else
    match term with
    | [t] => Return (map (fun a => a + t) acc)
    | _ => Raise (ValueError "operands could not be broadcast together")
    end.

(** [ensemble_predict] *)
Definition ensemble_predict (self : VolatilityAwareEnsemble)
    (predictions : dict (list R)) (volatility_score : R)
    (model_performances : dict R)
  : outcome (list R * VolatilityAwareEnsemble) :=
  let '(weights, self) :=
    calculate_dynamic_weights self volatility_score model_performances in
  match predictions with
  | [] => Raise IndexError
  | (_, first) :: _ =>
    match
      fold_left
        (fun acc (mp : string * list R) =>
           match acc with
           | Raise e => Raise e
           | Return ensemble_pred =>
             match get weights (fst mp) with
             | Some w =>
               iadd_array ensemble_pred (map (fun x => x * w) (snd mp))
             | None => Return ensemble_pred
             end
           end)
        predictions (Return (map (fun _ => 0) first))
    with
    | Raise e => Raise e
    | Return ensemble_pred => Return (ensemble_pred, self)
    end
  end.

End advanced_models.

(** ** parallel_processor.py: the pipeline orchestrator *)

Module parallel_processor.

Import pandas anomaly_analyzer external_factor_detector feature_engineer
  model_trainer advanced_models.
Local Open Scope R_scope.
Local Open Scope string_scope.

(** [ensemble_perf] *)
Record EnsemblePerformance : Type := {
  ensemble_accuracy : R;       (* 'Accuracy(%)' *)
  ensemble_mae : R;            (* 'MAE' *)
  ensemble_weights : dict R    (* 'weights' *)
}.

(** The dictionary [process_product] returns for an item on success. *)
Record ProductResult : Type := {
  prophet_performance : dict R;
  xgboost_performance : dict R;
  lstm_performance : dict R;
  lightgbm_performance : dict R;
  ensemble_performance : EnsemblePerformance;
  ensemble_forecast : option (list (option Z * R));
  product_anomaly_log : list LogRow
}.

(** What [run_parallel_processing] returns: the per-item entries of
    [models_data] and its ['total_anomaly_log'] entry. *)
Record RunResult : Type := {
  models_data : dict ProductResult;
  total_anomaly_log : list LogRow
}.

(** The table the trainers read: the augmented table without the joined
    columns' values. *)
Definition base_frame (df : AugFrame) : DataFrame :=
  {| columns := aug_columns df; rows := map base (aug_rows df) |}.

(** [result.get('performance', {})] *)
Definition performance_or_empty (result : TrainResult) : dict R :=
  match performance result with Some perf => perf | None => [] end.

(** [x if x is not None else np.array([])] and
    [result.get('predictions', np.array([]))] *)
Definition predictions_or_empty (pred : option (list R)) : list R :=
  match pred with Some p => p | None => [] end.

(** [min(len(pred) for pred in valid_preds.values())] on a non-empty
    collection. *)
Definition min_length (first : list R) (others : list (list R)) : nat :=
  fold_left Nat.min (map (@length R) others) (length first).

(** The learning libraries and the two forecast helpers the orchestrator
    calls, as one interface. *)
Record Libraries : Type := {
  Prophet : Type;
  Prophet_fit :
    option (list (option Z * cell)) -> list (option Z * option R) ->
    outcome Prophet;
  Prophet_predict : Prophet -> nat -> outcome (list (option Z * R));
  F : Type;
  feature_row : list AugRow -> nat -> F;
  XGBRegressor : Type;
  XGBRegressor_fit : list F -> list (option R) -> outcome XGBRegressor;
  XGBRegressor_predict : XGBRegressor -> list F -> outcome (list R);
  Sequential : Type;
  Sequential_fit :
    list (list (option R)) -> list (list (option R)) -> outcome Sequential;
  Sequential_predict :
    Sequential -> list (list (option R)) -> outcome (list (list R));
  Booster : Type;
  lgb_train :
    list F -> list (option R) -> list F -> list (option R) -> outcome Booster;
  Booster_predict : Booster -> list F -> outcome (list R);
  (** [predict_xgboost_future]: the seven recursive one-step forecasts;
      the empty frame without a model or when a step fails. *)
  predict_xgboost_future :
    AugFrame -> string -> option XGBRegressor -> list (option Z * R);
  (** The blend of the two future forecasts (date join, fill with 0,
      weighted sum) with the weights taken from [ensemble.weights]. *)
  blend_future :
    list (option Z * R) -> list (option Z * R) -> dict R ->
    outcome (list (option Z * R))
}.

Section Pipeline.

Variable lib : Libraries.

(** The [try] block of [process_product]. *)
Definition process_product_try (product_name : string)
    (df_product_orig : DataFrame) : outcome ProductResult :=
  ('(df_enhanced, volatility_info) <-
     detect_and_create_factors df_product_orig product_name ;;
   '(df_processed, anomaly_log, _) <-
     process (SmartDemandPreprocessor_init 2.5) df_enhanced ;;
   '(features, target) <-
     create_xgboost_features (F lib) (feature_row lib) df_processed product_name ;;
   '(prophet_model, prophet_fc, prophet_test_pred, prophet_perf) <-
     train_prophet_model (Prophet lib) (Prophet_fit lib) (Prophet_predict lib)
       (base_frame df_processed) product_name ;;
   let '(xgb_model, xgb_test_pred, xgb_perf) :=
     train_xgboost_model (F lib) (XGBRegressor lib) (XGBRegressor_fit lib)
       (XGBRegressor_predict lib) features target in
   '(lstm_result, _) <-
     LSTMPredictor_train (Sequential lib) (Sequential_fit lib)
       (Sequential_predict lib) (LSTMPredictor_init (Sequential lib) 14 7)
       (base_frame df_processed) product_name ;;
   '(lgbm_result, _) <-
     LightGBMPredictor_train (F lib) (Booster lib) (lgb_train lib)
       (Booster_predict lib) (LightGBMPredictor_init (Booster lib))
       features target ;;
   let all_performances : dict R :=
     [ ("prophet", get_default prophet_perf "Accuracy(%)" 0);
       ("xgboost", get_default xgb_perf "Accuracy(%)" 0);
       ("lstm",
        get_default (performance_or_empty lstm_result) "Accuracy(%)" 0);
       ("lightgbm",
        get_default (performance_or_empty lgbm_result) "Accuracy(%)" 0) ] in
   let all_test_preds : dict (list R) :=
     [ ("prophet", predictions_or_empty prophet_test_pred);
       ("xgboost", predictions_or_empty xgb_test_pred);
       ("lstm", predictions_or_empty (predictions lstm_result));
       ("lightgbm", predictions_or_empty (predictions lgbm_result)) ] in
   let valid_preds :=
     filter (fun np => (0 <? length (snd np))%nat) all_test_preds in
   match valid_preds with
   | [] => Raise (ValueError "예측 가능한 모델이 없습니다.")
   | (_, first) :: others =>
     let min_len := min_length first (values others) in
     let all_predictions : dict (list R) :=
       map (fun np => (fst np, slice_from_neg min_len (snd np)))
           valid_preds in
     let performance_for_ensemble :=
       filter (fun mp => contains all_predictions (fst mp))
              all_performances in
     let y_true_test := slice_from_neg min_len target in
     '(ensemble_test_pred, ensemble) <-
       ensemble_predict VolatilityAwareEnsemble_init all_predictions
         (cv volatility_info) performance_for_ensemble ;;
     ens <- sklearn.evaluate y_true_test (map Some ensemble_test_pred) ;;
     let ensemble_perf :=
       {| ensemble_accuracy := get_default ens "Accuracy(%)" 0;
          ensemble_mae := get_default ens "MAE" 0;
          ensemble_weights := weights ensemble |} in
     let xgb_future_pred_df :=
       predict_xgboost_future lib df_processed product_name xgb_model in
     let prophet_future_pred := option_map (numpy.tail 7) prophet_fc in
     ensemble_forecast <-
       match prophet_future_pred, xgb_future_pred_df with
       | Some prophet_future, _ :: _ =>
         blended <- blend_future lib prophet_future xgb_future_pred_df
                      (weights ensemble) ;;
         Return (Some blended)
       | _, _ => Return None
       end ;;
     Return {| prophet_performance := prophet_perf;
               xgboost_performance := xgb_perf;
               lstm_performance := performance_or_empty lstm_result;
               lightgbm_performance := performance_or_empty lgbm_result;
               ensemble_performance := ensemble_perf;
               ensemble_forecast := ensemble_forecast;
               product_anomaly_log := anomaly_log |}
   end)%py.

(** [process_product]: every exception of the [try] block is caught and
    turned into the empty dictionary ([None]). *)
Definition process_product (args : string * DataFrame)
  : string * option ProductResult :=
  let '(product_name, df_product_orig) := args in
  catch (result <- process_product_try product_name df_product_orig ;;
         Return (product_name, Some result))%py
        (fun _ => (product_name, None)).

(** The loop of [run_parallel_processing] over the tasks. *)
Definition collect (tasks : list (string * DataFrame))
  : dict ProductResult * list (list LogRow) :=
  fold_left
    (fun (acc : dict ProductResult * list (list LogRow)) task =>
       let '(models_data, all_anomaly_logs) := acc in
       match process_product task with
       | (name, Some data) =>
         ((models_data ++ [(name, data)])%list,
          match product_anomaly_log data with
          | [] => all_anomaly_logs
          | log => (all_anomaly_logs ++ [log])%list
          end)
       | (_, None) => acc
       end)
    tasks ([], []).

(** [run_parallel_processing]: the items whose pipeline was entered (the
    tasks handed to [process_product], each of which announces its start),
    and the result of the run. Grouping by the item column comes first and
    is not guarded. *)
Definition run_parallel_processing (_df : DataFrame)
  : list string * outcome RunResult :=
  match require_column (columns _df) col_item with
  | Raise e => ([], Raise e)
  | Return _ =>
    let tasks :=
      map (fun g => (fst g, {| columns := columns _df; rows := snd g |}))
          (groupby_item (rows _df)) in
    let '(models_data, all_anomaly_logs) := collect tasks in
    (map fst tasks,
     Return {| models_data := models_data;
               total_anomaly_log := concat all_anomaly_logs |})
  end.

End Pipeline.

End parallel_processor.

(** ** app.py: the dashboard's entry to the pipeline *)

Module app.

Import pandas parallel_processor.
Local Open Scope string_scope.

(** The columns [create_date_features] adds. *)
Definition date_feature_columns : list string :=
  ["년도"; "월"; "일"; "요일"; "주차"; "분기"].

(** [get_data] from the column-mapped table on: a table without one of the
    three required columns is refused ([None] is the [return None] after
    the error message); rows whose date did not parse are dropped and the
    calendar columns are added. *)
Definition get_data (mapped_df : DataFrame) : option DataFrame :=
  if negb (has_column (columns mapped_df) col_date)
     || negb (has_column (columns mapped_df) col_item)
     || negb (has_column (columns mapped_df) col_quantity)
  then None
  else
    Some {| columns := (columns mapped_df ++ date_feature_columns)%list;
            rows := filter (fun r => match date r with
                                     | Some _ => true
                                     | None => false
                                     end) (rows mapped_df) |}.

(** The main logic: [load_models_and_ensemble] runs only on a table that
    [get_data] returned ([if df is not None]). *)
Definition main (lib : Libraries) (mapped_df : DataFrame)
  : option (list string * outcome RunResult) :=
  match get_data mapped_df with
  | None => None
  | Some df => Some (run_parallel_processing lib df)
  end.

End app.

(** ** The input contract of the optional columns *)

Module input_contract.

Import pandas.

(** The rule chain of [_infer_reason] applies [in] to the event cell and
    [>] to the temperature cell, which raise on a number and on text
    respectively. This predicate names the rows on which they cannot: the
    event is text or null, the temperature a number or NaN. *)
Definition typed_covariates (r : Row) : Prop :=
  match event r with Num _ => False | _ => True end /\
  match temperature r with Num _ | NaN => True | _ => False end.

End input_contract.

(** ** Inputs used in the runs below *)

Module sample_data.

Import pandas.
Local Open Scope R_scope.
Local Open Scope string_scope.

(** A row of a table that has only the three required columns. *)
Definition plain_row (d : Z) (name : string) (q : option R) : Row :=
  {| date := Some d; item := Some name; quantity := q;
     event := NaN; promotion := NaN; weather := NaN; temperature := NaN |}.

Definition required_columns : list string :=
  [col_date; col_item; col_quantity].


(** One counted day and one day without a count. *)
Definition one_gap : DataFrame :=
  {| columns := required_columns;
     rows := [ plain_row 1 "A" (Some 5); plain_row 2 "A" None ] |}.

(** Sixty-five days of one item: nothing sold on the first sixty-four,
    sixty-five units on the last. *)
Definition single_spike : DataFrame :=
  {| columns := required_columns ++ external_factor_detector.calendar_columns;
     rows := map (fun d => plain_row (Z.of_nat d) "A" (Some 0)) (seq 1 64)
             ++ [plain_row 65 "A" (Some 65)] |}.

(** A table without the date column (item, quantity and the calendar
    columns are there). *)
Definition no_date_column : DataFrame :=
  {| columns := [col_item; col_quantity]
                ++ external_factor_detector.calendar_columns;
     rows := [ plain_row 1 "A" (Some 5); plain_row 2 "A" (Some 7) ] |}.

(** A table without the item column. *)
Definition no_item_column : DataFrame :=
  {| columns := [col_date; col_quantity];
     rows := [ plain_row 1 "A" (Some 5) ] |}.

(** Libraries whose every call fails. *)
Definition failing_libraries : parallel_processor.Libraries :=
  {| parallel_processor.Prophet := unit;
     parallel_processor.Prophet_fit := fun _ _ => Raise TypeError;
     parallel_processor.Prophet_predict := fun _ _ => Raise TypeError;
     parallel_processor.F := unit;
     parallel_processor.feature_row := fun _ _ => tt;
     parallel_processor.XGBRegressor := unit;
     parallel_processor.XGBRegressor_fit := fun _ _ => Raise TypeError;
     parallel_processor.XGBRegressor_predict := fun _ _ => Raise TypeError;
     parallel_processor.Sequential := unit;
     parallel_processor.Sequential_fit := fun _ _ => Raise TypeError;
     parallel_processor.Sequential_predict := fun _ _ => Raise TypeError;
     parallel_processor.Booster := unit;
     parallel_processor.lgb_train := fun _ _ _ _ => Raise TypeError;
     parallel_processor.Booster_predict := fun _ _ => Raise TypeError;
     parallel_processor.predict_xgboost_future := fun _ _ _ => [];
     parallel_processor.blend_future := fun _ _ _ => Raise TypeError |}.

(** Libraries whose every call answers: each model fits, the decomposition
    and tree models predict one unit for every day asked, the network
    predicts a window of seven scaled zeros for every sequence, and the
    recursive future forecast is empty. *)
Definition answering_libraries : parallel_processor.Libraries :=
  {| parallel_processor.Prophet := unit;
     parallel_processor.Prophet_fit := fun _ _ => Return tt;
     parallel_processor.Prophet_predict := fun _ periods =>
       Return (map (fun d => (Some (Z.of_nat d), 1)) (seq 1 periods));
     parallel_processor.F := unit;
     parallel_processor.feature_row := fun _ _ => tt;
     parallel_processor.XGBRegressor := unit;
     parallel_processor.XGBRegressor_fit := fun _ _ => Return tt;
     parallel_processor.XGBRegressor_predict := fun _ X =>
       Return (map (fun _ => 1) X);
     parallel_processor.Sequential := unit;
     parallel_processor.Sequential_fit := fun _ _ => Return tt;
     parallel_processor.Sequential_predict := fun _ X =>
       Return (map (fun _ => repeat 0 7) X);
     parallel_processor.Booster := unit;
     parallel_processor.lgb_train := fun _ _ _ _ => Return tt;
     parallel_processor.Booster_predict := fun _ X =>
       Return (map (fun _ => 1) X);
     parallel_processor.predict_xgboost_future := fun _ _ _ => [];
     parallel_processor.blend_future := fun _ _ _ => Return [] |}.

End sample_data.

(** ** The loops of the combiner and of the run, step by step *)

Module loops.

Import pandas anomaly_analyzer advanced_models parallel_processor.
Local Open Scope R_scope.

(** One turn of the loop of [ensemble_predict]:
    [if model in weights: ensemble_pred += pred * weights[model]]. *)
Definition weighted_step (weights : dict R) (acc : outcome (list R))
    (mp : string * list R) : outcome (list R) :=
  match acc with
  | Raise e => Raise e
  | Return ensemble_pred =>
    match get weights (fst mp) with
    | Some w => iadd_array ensemble_pred (map (fun x => x * w) (snd mp))
    | None => Return ensemble_pred
    end
  end.

(** What one task adds to [models_data] in the loop of
    [run_parallel_processing]: its entry when [process_product] returned
    data, nothing otherwise. *)
Definition item_entry (lib : Libraries) (task : string * DataFrame)
  : list (string * ProductResult) :=
  match process_product lib task with
  | (name, Some data) => [(name, data)]
  | (_, None) => []
  end.

End loops.

(** ** external_factor_detector.py: the confidence columns *)

Module volatility_weights.

Import external_factor_detector.
Local Open Scope R_scope.

(** [base_confidence = 1.0 - min(volatility_info['cv'], 1.0)] *)
Definition base_confidence (volatility_info : VolatilityInfo) : R :=
  1 - Rmin (cv volatility_info) 1.

(** [x.fillna(0).clip(0, 1)] on one value. *)
Definition fillna_clip (x : option R) : R :=
  Rmin (Rmax (match x with Some v => v | None => 0 end) 0) 1.

(** [x.clip(0, 1)] on one value: NaN stays NaN. *)
Definition clip (x : option R) : option R :=
  match x with Some v => Some (Rmin (Rmax v 0) 1) | None => None end.

(** One row of [df['예측_신뢰도']] in [_create_volatility_weights], from
    the value the rolling coefficient of variation has at that row. *)
Definition prediction_confidence (volatility_info : VolatilityInfo)
    (rolling_cv : option R) : R :=
  base_confidence volatility_info * (1 - fillna_clip rolling_cv).

(** One row of [df['데이터_품질_점수']], from the change strength
    [df['변화_강도']] at that row. *)
Definition data_quality_score (volatility_info : VolatilityInfo)
    (rolling_cv change_strength : option R) : option R :=
  match clip change_strength with
  | Some s => Some (prediction_confidence volatility_info rolling_cv * (1 - s))
  | None => None
  end.

End volatility_weights.

(** ** column_mapper.py: the automatic column mapping *)

Module column_mapper.

Import pandas.
Local Open Scope string_scope.

(** [REQUIRED_MAP]: each standard column name with the keywords that
    announce it, in the order of the dictionary. *)
Definition REQUIRED_MAP : dict (list string) :=
  [("날짜", ["date"; "day"; "일자"; "날짜"; "시간"; "time"; "연월일"; "조사일"]);
   ("품목명", ["item"; "product"; "품목"; "상품"; "이름"; "name"; "품목명"]);
   ("판매량", ["sales"; "quantity"; "qty"; "수량"; "판매"; "개수"; "volume";
              "가격"; "price"]);
   ("이벤트", ["event"; "이벤트"; "행사"]);
   ("프로모션", ["promotion"; "프로모션"; "할인"]);
   ("기온", ["temp"; "temperature"; "기온"]);
   ("날씨", ["weather"; "날씨"])].

Section Mapper.

(** [str.lower] *)
Variable lower : string -> string.

(** [any(keyword in col.lower() for keyword in keywords)] *)
Definition announces (keywords : list string) (col : string) : bool :=
  existsb (fun keyword => str_in keyword (lower col)) keywords.

(** The inner loops: the first column, in table order, that is not a key
    of [rename_dict] yet and whose lowered name contains a keyword. *)
Definition first_candidate (original_columns : list string)
    (rename_dict : dict string) (keywords : list string) : option string :=
  find (fun col => negb (contains rename_dict col) && announces keywords col)
       original_columns.

(** One turn of the loop over [REQUIRED_MAP.items()]. *)
Definition map_standard (original_columns : list string)
    (rename_dict : dict string) (entry : string * list string)
  : dict string :=
  let '(standard_col, keywords) := entry in
  if has_column original_columns standard_col then rename_dict
  else
    match first_candidate original_columns rename_dict keywords with
    | Some col => (rename_dict ++ [(col, standard_col)])%list
    | None => rename_dict
    end.

(** [rename_dict] when the loop over a table of standard names is over. *)
Definition build_rename_dict (table : dict (list string))
    (original_columns : list string) : dict string :=
  fold_left (map_standard original_columns) table [].

(** [df.rename(columns=rename_dict)] on the labels. *)
Definition rename (rename_dict : dict string) (cols : list string)
  : list string :=
  map (fun col => get_default rename_dict col col) cols.

(** [auto_map_columns], on the column labels of the table. *)
Definition auto_map_columns (original_columns : list string) : list string :=
  let rename_dict := build_rename_dict REQUIRED_MAP original_columns in
  match rename_dict with
  | [] => original_columns
  | _ => rename rename_dict original_columns
  end.

(** What the loop maintains: [rename_dict] after the standard names of
    [done] have had their turn. *)
Record mapped_so_far (original_columns : list string)
    (done : dict (list string)) (rename_dict : dict string) : Prop :=
  { renamed_once : NoDup (keys rename_dict);
    standard_once : NoDup (values rename_dict);
    renamed_known : forall col standard_col,
        In (col, standard_col) rename_dict ->
        In col original_columns /\ In standard_col (keys done) /\
        ~ In standard_col original_columns;
    renamed_announced : forall col standard_col,
        In (col, standard_col) rename_dict ->
        exists keywords, In (standard_col, keywords) done /\
                         announces keywords col = true;
    tried_all : forall standard_col keywords,
        In (standard_col, keywords) done ->
        In standard_col original_columns \/
        In standard_col (values rename_dict) \/
        forall col, In col original_columns ->
                    contains rename_dict col = false ->
                    announces keywords col = false }.

End Mapper.

End column_mapper.

(** ** More inputs *)

Module more_sample_data.

Import pandas sample_data.
Local Open Scope R_scope.
Local Open Scope string_scope.

(** Thirty days of two units each. *)
Definition steady_month : DataFrame :=
  {| columns := required_columns;
     rows := map (fun d => plain_row (Z.of_nat d) "A" (Some 2)) (seq 1 30) |}.

(** Thirty days, the last without a count. *)
Definition month_with_gap : DataFrame :=
  {| columns := required_columns;
     rows := map (fun d => plain_row (Z.of_nat d) "A" (Some 2)) (seq 1 29)
             ++ [plain_row 30 "A" None] |}.

(** Sixty days, the last without a count. *)
Definition recent_gap : DataFrame :=
  {| columns := required_columns ++ external_factor_detector.calendar_columns;
     rows := map (fun d => plain_row (Z.of_nat d) "A" (Some 2)) (seq 1 59)
             ++ [plain_row 60 "A" None] |}.

(** A promoted day with four units sold, clear weather and a temperature
    cell that holds a text. *)
Definition promoted_day : Row :=
  {| date := Some 4%Z; item := Some "A"; quantity := Some 4;
     event := NaN; promotion := Num 1; weather := Str "맑음";
     temperature := Str "hot" |}.

(** A day with four units sold whose event cell holds a number. *)
Definition numbered_event_day : Row :=
  {| date := Some 4%Z; item := Some "A"; quantity := Some 4;
     event := Num 3; promotion := NaN; weather := NaN;
     temperature := NaN |}.

(** Three days without sales, then the given day. *)
Definition quiet_days_then (last : Row) : list Row :=
  [ plain_row 1 "A" (Some 0); plain_row 2 "A" (Some 0);
    plain_row 3 "A" (Some 0); last ].

End more_sample_data.

(* ===================================================================== *)
(** * Part II: properties *)
(* ===================================================================== *)

(** ** Tactics for running the model on concrete inputs *)

(** Reduce the list, string and dictionary structure and leave the
    arithmetic on reals to [lra]. *)
Ltac py_eval :=
  cbn -[Rplus Rmult Rminus Rdiv Rinv Ropp IZR INR sqrt Rabs
        Req_dec_T Rlt_dec Rgt_dec Rle_dec Py.sum].

(** Settle the tests on concrete reals. *)
Ltac r_decide :=
  repeat match goal with
         | |- context [Req_dec_T ?a ?b] =>
             destruct (Req_dec_T a b); [try (exfalso; lra) | try (exfalso; lra)]
         | |- context [Rlt_dec ?a ?b] =>
             destruct (Rlt_dec a b); [try (exfalso; lra) | try (exfalso; lra)]
         | |- context [Rgt_dec ?a ?b] =>
             destruct (Rgt_dec a b); [try (exfalso; lra) | try (exfalso; lra)]
         end.

(** ** Sums and dictionaries *)

Section PyFacts.

Local Open Scope R_scope.

Lemma sum_acc (xs : list R) (a : R) : fold_left Rplus xs a = a + sum xs.
Proof.
  unfold sum. revert a.
  induction xs as [|x xs IH]; intros a; simpl.
  - lra.
  - rewrite (IH (a + x)), (IH (0 + x)). lra.
Qed.

Lemma sum_nil : sum [] = 0.
Proof. reflexivity. Qed.

Lemma sum_cons (x : R) (xs : list R) : sum (x :: xs) = x + sum xs.
Proof. unfold sum at 1. simpl. rewrite sum_acc. lra. Qed.

Lemma sum_map_div (A : Type) (f : A -> R) (t : R) (xs : list A) :
  sum (map (fun x => f x / t) xs) = sum (map f xs) / t.
Proof.
  induction xs as [|x xs IH]; simpl.
  - rewrite sum_nil. unfold Rdiv. lra.
  - rewrite !sum_cons, IH. unfold Rdiv. lra.
Qed.

Lemma sum_map_const (A : Type) (c : R) (xs : list A) :
  sum (map (fun _ => c) xs) = INR (length xs) * c.
Proof.
  induction xs as [|x xs IH].
  - simpl. rewrite sum_nil. lra.
  - change (sum (c :: map (fun _ => c) xs) = INR (S (length xs)) * c).
    rewrite sum_cons, IH, S_INR. lra.
Qed.

Lemma sum_nonneg (xs : list R) : Forall (fun x => 0 <= x) xs -> 0 <= sum xs.
Proof.
  induction 1 as [|x xs Hx _ IH].
  - rewrite sum_nil. lra.
  - rewrite sum_cons. lra.
Qed.

Lemma sum_pos (xs : list R) :
  xs <> [] -> Forall (fun x => 0 < x) xs -> 0 < sum xs.
Proof.
  intros Hne H. induction H as [|x xs Hx Hxs IH].
  - contradiction.
  - rewrite sum_cons. destruct xs as [|y ys].
    + rewrite sum_nil. lra.
    + assert (0 < sum (y :: ys)) by (apply IH; discriminate). lra.
Qed.

Lemma sum_all_zero (xs : list R) : Forall (fun x => x = 0) xs -> sum xs = 0.
Proof.
  induction 1 as [|x xs Hx _ IH].
  - apply sum_nil.
  - rewrite sum_cons, Hx, IH. lra.
Qed.

(** On every length up to 3000 the truncated double product [int(n * 0.2)]
    is the integer quotient used by the model. *)
Lemma int_mul_02_agrees_with_float :
  forallb (fun n => Z.eqb (int_mul_02_float n) (Z.of_nat (int_mul_02 n)))
          (seq 0 3001) = true.
Proof. vm_compute. reflexivity. Qed.

End PyFacts.

(** ** The ensemble combiner (advanced_models.py) *)

Section EnsembleFacts.

Import advanced_models.
Local Open Scope R_scope.
Local Open Scope string_scope.

Lemma keys_base_weights (p : dict R) : keys (base_weights p) = keys p.
Proof.
  unfold base_weights, keys. rewrite map_map.
  apply map_ext. intros [m x]. reflexivity.
Qed.

Lemma values_base_weights (p : dict R) :
  values (base_weights p) = map (fun x => x / sum (values p)) (values p).
Proof.
  unfold base_weights, values. rewrite !map_map.
  apply map_ext. intros [m x]. reflexivity.
Qed.

Lemma keys_adjusted_weights (v : R) (b : dict R) :
  keys (adjusted_weights v b) = keys b.
Proof.
  unfold adjusted_weights, keys. rewrite map_map.
  apply map_ext. intros [m w].
  destruct (get (volatility_adjustment v) m); reflexivity.
Qed.

Lemma length_adjusted_weights (v : R) (b : dict R) :
  length (adjusted_weights v b) = length b.
Proof. unfold adjusted_weights. apply length_map. Qed.

Lemma sum_base_weights (p : dict R) :
  sum (values p) <> 0 -> sum (values (base_weights p)) = 1.
Proof.
  intros Ht. rewrite values_base_weights.
  rewrite (sum_map_div _ (fun x => x)), map_id. now field.
Qed.

(** No multiplier of the table is negative while the volatility score
    stays between -10/3 and 10/3; the documented range [0,1] lies inside. *)
Lemma volatility_adjustment_nonneg (v : R) (m : string) (adj : R) :
  -10/3 <= v <= 10/3 -> get (volatility_adjustment v) m = Some adj -> 0 <= adj.
Proof.
  intros Hv. unfold volatility_adjustment. cbn [get].
  repeat match goal with
         | |- context [String.eqb ?a m] => destruct (String.eqb a m)
         end; intros H; try discriminate H;
    injection H as <-; lra.
Qed.

Lemma adjusted_weights_nonneg (v : R) (b : dict R) :
  -10/3 <= v <= 10/3 ->
  Forall (fun x => 0 <= x) (values b) ->
  Forall (fun x => 0 <= x) (values (adjusted_weights v b)).
Proof.
  intros Hv. unfold values, adjusted_weights.
  induction b as [|[m w] b IH]; cbn [map]; intros H.
  - constructor.
  - inversion H as [|? ? Hw Hb]; subst. cbn [snd] in Hw. constructor.
    + destruct (get (volatility_adjustment v) m) as [adj|] eqn:E; cbn [snd].
      * apply Rmult_le_pos; [assumption|].
        eapply volatility_adjustment_nonneg; eassumption.
      * assumption.
    + apply IH. assumption.
Qed.

Lemma base_weights_pos (p : dict R) :
  p <> [] ->
  Forall (fun x => 0 < x) (values p) ->
  Forall (fun x => 0 < x) (values (base_weights p)).
Proof.
  intros Hne Hp.
  assert (Ht : 0 < sum (values p)).
  { apply sum_pos; [|assumption]. destruct p; [contradiction|discriminate]. }
  rewrite values_base_weights. apply Forall_map.
  eapply Forall_impl; [|exact Hp]. simpl. intros x Hx.
  apply Rdiv_lt_0_compat; assumption.
Qed.

Lemma values_nonempty (V : Type) (d : dict V) : d <> [] -> values d <> [].
Proof. destruct d; [contradiction|discriminate]. Qed.

Lemma normalized_sum (d : dict R) (t : R) :
  t = sum (values d) -> t <> 0 ->
  sum (values (map (fun '(model, weight) => (model, weight / t)) d)) = 1.
Proof.
  intros -> Ht. unfold values at 1. rewrite map_map.
  rewrite (map_ext _ (fun x => snd x / sum (values d)))
    by (intros [m w]; reflexivity).
  rewrite (sum_map_div _ snd). fold (values d). now field.
Qed.

Lemma equal_weights_sum (d : dict R) :
  d <> [] ->
  sum (values (map (fun '(model, _) => (model, 1 / INR (length d))) d)) = 1.
Proof.
  intros Hne. unfold values. rewrite map_map.
  rewrite (map_ext _ (fun _ => 1 / INR (length d)))
    by (intros [m w]; reflexivity).
  rewrite sum_map_const. field.
  apply not_0_INR. destruct d; [contradiction|discriminate].
Qed.

(** In exact arithmetic the returned weights sum to one on every path
    that returns weights. *)
Lemma calculate_dynamic_weights_sum (self : VolatilityAwareEnsemble)
    (v : R) (p : dict R) :
  p <> [] -> sum (values (fst (calculate_dynamic_weights self v p))) = 1.
Proof.
  intros Hne. unfold calculate_dynamic_weights.
  destruct p as [|e p']; [contradiction|].
  set (q := e :: p') in *.
  destruct (Req_dec_T (sum (values q)) 0) as [Ht|Ht]; cbn [fst].
  - apply equal_weights_sum. assumption.
  - destruct (Req_dec_T (sum (values (adjusted_weights v (base_weights q)))) 0)
      as [Hw|Hw]; cbn [fst].
    + apply equal_weights_sum. intros E.
      apply (f_equal (@length _)) in E.
      rewrite length_adjusted_weights in E. unfold base_weights in E.
      rewrite length_map in E. subst q. discriminate.
    + apply normalized_sum; [reflexivity|assumption].
Qed.

Lemma calculate_dynamic_weights_keys (self : VolatilityAwareEnsemble)
    (v : R) (p : dict R) :
  keys (fst (calculate_dynamic_weights self v p)) = keys p.
Proof.
  unfold calculate_dynamic_weights.
  destruct p as [|e p']; [reflexivity|].
  set (q := e :: p') in *.
  assert (Hk : forall (f : R -> R) (d : dict R),
             keys (map (fun '(model, w) => (model, f w)) d) = keys d).
  { intros f d. unfold keys. rewrite map_map. apply map_ext.
    intros [m w]. reflexivity. }
  destruct (Req_dec_T (sum (values q)) 0) as [Ht|Ht]; cbn [fst].
  - apply (Hk (fun _ => 1 / INR (length q))).
  - destruct (Req_dec_T (sum (values (adjusted_weights v (base_weights q)))) 0)
      as [Hw|Hw]; cbn [fst].
    + rewrite (Hk (fun _ => 1 / INR (length (adjusted_weights v (base_weights q))))).
      rewrite keys_adjusted_weights. apply keys_base_weights.
    + rewrite (Hk (fun w => w / sum (values (adjusted_weights v (base_weights q))))).
      rewrite keys_adjusted_weights. apply keys_base_weights.
Qed.

(** Outside the range of the volatility score in which no multiplier is
    negative the adjusted weights can cancel: with the accuracies 60, 30
    and 10 of the decomposition, primary tree and sequence models their
    total is 1 - 0.21 v, which is 0 at v = 100/21. *)
Lemma adjusted_total_cancels (v : R) :
  sum (values (adjusted_weights v
                 (base_weights [("prophet", 60); ("xgboost", 30);
                                ("lstm", 10)])))
  = 1 - 21/100 * v.
Proof.
  unfold adjusted_weights, base_weights, volatility_adjustment, sum, values.
  py_eval. lra.
Qed.

(** C1, as the code has it. For a non-empty performance mapping whose
    accuracies are all strictly positive and a volatility score between
    -10/3 and 10/3, which includes its documented range [0,1],
    [calculate_dynamic_weights] returns one weight per input model (same
    model names, same order); no adjusted weight is negative, so that the
    total the weights are divided by is a sum without cancellation; every
    weight is non-negative and the weights sum to 1. *)
Theorem calculate_dynamic_weights_normalized
    (self : VolatilityAwareEnsemble) (volatility_score : R)
    (model_performances : dict R) :
  model_performances <> [] ->
  Forall (fun perf => 0 < perf) (values model_performances) ->
  -10/3 <= volatility_score <= 10/3 ->
  let w := fst (calculate_dynamic_weights self volatility_score
                  model_performances) in
  keys w = keys model_performances /\
  Forall (fun x => 0 <= x)
         (values (adjusted_weights volatility_score
                    (base_weights model_performances))) /\
  sum (values w) = 1 /\
  Forall (fun x => 0 <= x) (values w).
Proof.
  intros Hne Hpos Hv w. subst w.
  pose proof (base_weights_pos _ Hne Hpos) as Hb.
  assert (Hb0 : Forall (fun x => 0 <= x)
                  (values (base_weights model_performances))).
  { eapply Forall_impl; [|exact Hb]. simpl. intros x Hx. lra. }
  pose proof (adjusted_weights_nonneg _ _ Hv Hb0) as Ha.
  split; [apply calculate_dynamic_weights_keys|].
  split; [exact Ha|].
  split; [apply calculate_dynamic_weights_sum; assumption|].
  unfold calculate_dynamic_weights.
  destruct model_performances as [|e p']; [contradiction|].
  set (q := e :: p') in *.
  assert (Hq : 0 < sum (values q)).
  { apply sum_pos; [apply values_nonempty|]; assumption. }
  destruct (Req_dec_T (sum (values q)) 0) as [Ht|Ht]; [lra|].
  set (adj := adjusted_weights volatility_score (base_weights q)) in *.
  pose proof (sum_nonneg _ Ha) as Hadj.
  assert (Hk : forall (f : R -> R) (d : dict R),
             values (map (fun '(model, x) => (model, f x)) d)
             = map f (values d)).
  { intros f d. unfold values. rewrite !map_map. apply map_ext.
    intros [m x]. reflexivity. }
  destruct (Req_dec_T (sum (values adj)) 0) as [Hw|Hw]; cbn [fst].
  - rewrite (Hk (fun _ => 1 / INR (length adj))).
    apply Forall_map, Forall_forall. intros x _.
    apply Rlt_le, Rdiv_lt_0_compat; [lra|].
    apply lt_0_INR. subst adj. rewrite length_adjusted_weights.
    unfold base_weights. rewrite length_map. subst q. cbn [length]. lia.
  - assert (Hpos' : 0 < sum (values adj)).
    { destruct Hadj as [Hlt|Heq]; [exact Hlt|]. symmetry in Heq.
      contradiction. }
    rewrite (Hk (fun x => x / sum (values adj))).
    apply Forall_map. eapply Forall_impl; [|exact Ha]. simpl. intros x Hx.
    apply Rle_mult_inv_pos; assumption.
Qed.

(** A run of the amended C1: accuracies 80 and 20 for two trained models
    at volatility one half. *)
Lemma calculate_dynamic_weights_normalized_witness :
  let w := fst (calculate_dynamic_weights VolatilityAwareEnsemble_init (1/2)
                  [("prophet", 80); ("lstm", 20)]) in
  keys w = ["prophet"; "lstm"] /\
  sum (values w) = 1 /\
  Forall (fun x => 0 <= x) (values w).
Proof.
  destruct (@calculate_dynamic_weights_normalized VolatilityAwareEnsemble_init
              (1/2) [("prophet", 80); ("lstm", 20)]) as [Hk [_ [Hs Hn]]].
  - discriminate.
  - simpl. repeat constructor; lra.
  - lra.
  - split; [exact Hk|]. split; [exact Hs|exact Hn].
Defined.

(** C1 as stated ("for every volatility score") fails: at volatility 8
    the multiplier of the decomposition model is negative, and with the
    accuracies 50 and 50 its weight is -7/10. The adjusted weights are
    -1 and 1.7 there: their total 0.7 is far from 0. *)
Lemma calculate_dynamic_weights_negative_counterexample :
  let w := fst (calculate_dynamic_weights VolatilityAwareEnsemble_init 8
                  [("prophet", 50); ("lstm", 50)]) in
  Forall (fun perf => 0 < perf) (values [("prophet", 50); ("lstm", 50)]) /\
  get w "prophet" = Some (- (7 / 10)) /\
  ~ Forall (fun x => 0 <= x) (values w).
Proof.
  assert (E : fst (calculate_dynamic_weights VolatilityAwareEnsemble_init 8
                     [("prophet", 50); ("lstm", 50)])
              = [("prophet", - (7 / 10)); ("lstm", 17 / 10)]).
  { unfold calculate_dynamic_weights, adjusted_weights, base_weights,
      volatility_adjustment, sum.
    py_eval. r_decide. py_eval.
    apply f_equal2; [apply f_equal; lra|].
    apply f_equal2; [apply f_equal; lra|reflexivity]. }
  cbv zeta. rewrite E. split; [|split].
  - simpl. repeat constructor; lra.
  - reflexivity.
  - intros H. inversion H as [|? ? H1 _]. lra.
Qed.

(** C5. When every accuracy of a non-empty performance mapping is 0, the
    combiner returns the weight 1/n for each of the n models, whatever the
    volatility score. *)
Theorem calculate_dynamic_weights_all_zero
    (self : VolatilityAwareEnsemble) (volatility_score : R)
    (model_performances : dict R) :
  model_performances <> [] ->
  Forall (fun perf => perf = 0) (values model_performances) ->
  fst (calculate_dynamic_weights self volatility_score model_performances)
  = map (fun '(model, _) => (model, 1 / INR (length model_performances)))
        model_performances.
Proof.
  intros Hne Hz. unfold calculate_dynamic_weights.
  destruct model_performances as [|e p']; [contradiction|].
  destruct (Req_dec_T (sum (values (e :: p'))) 0) as [Ht|Ht].
  - reflexivity.
  - exfalso. apply Ht. apply sum_all_zero. assumption.
Qed.

(** A run of C5: four untrained-looking models at volatility 0.9. *)
Lemma calculate_dynamic_weights_all_zero_witness :
  fst (calculate_dynamic_weights VolatilityAwareEnsemble_init 0.9
         [("prophet", 0); ("xgboost", 0); ("lstm", 0); ("lightgbm", 0)])
  = [("prophet", 1 / INR 4); ("xgboost", 1 / INR 4);
     ("lstm", 1 / INR 4); ("lightgbm", 1 / INR 4)].
Proof.
  apply (@calculate_dynamic_weights_all_zero VolatilityAwareEnsemble_init 0.9
           [("prophet", 0); ("xgboost", 0); ("lstm", 0); ("lightgbm", 0)]).
  - discriminate.
  - repeat constructor.
Defined.

Lemma get_adjusted_weights (v : R) (b : dict R) (m : string) :
  get (adjusted_weights v b) m
  = match get b m with
    | Some w => match get (volatility_adjustment v) m with
                | Some adj => Some (w * adj)
                | None => Some w
                end
    | None => None
    end.
Proof.
  unfold adjusted_weights.
  induction b as [|[k w] b IH]; cbn [map get].
  - reflexivity.
  - destruct (get (volatility_adjustment v) k) as [adj|] eqn:Ek; cbn [get];
      destruct (String.eqb k m) eqn:Ekm; try apply IH;
      apply String.eqb_eq in Ekm; subst k; rewrite Ek; reflexivity.
Qed.

(** C6, as the code has it. For fixed base weights and volatility scores
    [v1 < v2]: when the base weight of the sequence model ("lstm") is
    strictly positive, its adjusted (pre-normalisation) weight is strictly
    greater at [v2] than at [v1]; when the base weight of the decomposition
    model ("prophet") is strictly positive, its adjusted weight is strictly
    smaller at [v2] than at [v1]. *)
Theorem adjusted_weights_volatility_monotone
    (base : dict R) (v1 v2 : R) :
  v1 < v2 ->
  (forall w, get base "lstm" = Some w -> 0 < w ->
     exists a1 a2,
       get (adjusted_weights v1 base) "lstm" = Some a1 /\
       get (adjusted_weights v2 base) "lstm" = Some a2 /\
       a1 < a2) /\
  (forall w, get base "prophet" = Some w -> 0 < w ->
     exists a1 a2,
       get (adjusted_weights v1 base) "prophet" = Some a1 /\
       get (adjusted_weights v2 base) "prophet" = Some a2 /\
       a2 < a1).
Proof.
  intros Hv. split; intros w Hw Hpos.
  - exists (w * (1 + v1 * 0.3)), (w * (1 + v2 * 0.3)).
    rewrite !get_adjusted_weights, Hw.
    repeat split; try reflexivity. nra.
  - exists (w * (1 - v1 * 0.3)), (w * (1 - v2 * 0.3)).
    rewrite !get_adjusted_weights, Hw.
    repeat split; try reflexivity. nra.
Qed.

(** A run of the amended C6 on the base weights 0.8 and 0.2, between
    volatility 0 and volatility 1. *)
Lemma adjusted_weights_volatility_monotone_witness :
  (exists a1 a2,
     get (adjusted_weights 0 [("prophet", 0.8); ("lstm", 0.2)]) "lstm"
       = Some a1 /\
     get (adjusted_weights 1 [("prophet", 0.8); ("lstm", 0.2)]) "lstm"
       = Some a2 /\
     a1 < a2) /\
  (exists a1 a2,
     get (adjusted_weights 0 [("prophet", 0.8); ("lstm", 0.2)]) "prophet"
       = Some a1 /\
     get (adjusted_weights 1 [("prophet", 0.8); ("lstm", 0.2)]) "prophet"
       = Some a2 /\
     a2 < a1).
Proof.
  destruct (@adjusted_weights_volatility_monotone
              [("prophet", 0.8); ("lstm", 0.2)] 0 1) as [Hl Hp].
  - lra.
  - split.
    + apply (Hl 0.2); [reflexivity | lra].
    + apply (Hp 0.8); [reflexivity | lra].
Defined.

(** C6 as stated fails when a base weight is not positive: a sequence
    model of accuracy 0 next to a decomposition model of accuracy 50 has
    base weight 0, and its adjusted weight is 0 at every volatility. *)
Lemma adjusted_weights_not_strict_counterexample :
  exists a1 a2,
    get (adjusted_weights 0 (base_weights [("prophet", 50); ("lstm", 0)]))
        "lstm" = Some a1 /\
    get (adjusted_weights 1 (base_weights [("prophet", 50); ("lstm", 0)]))
        "lstm" = Some a2 /\
    (0 < 1) /\ ~ a1 < a2.
Proof.
  exists 0, 0.
  unfold adjusted_weights, base_weights, volatility_adjustment, sum.
  py_eval. repeat split; try (f_equal; lra); lra.
Qed.

End EnsembleFacts.

(** ** Sorting, grouping and row-wise application (pandas) *)

Section PandasFacts.

Import pandas.

Lemma in_insert_sorted (A : Type) (leb : A -> A -> bool) (x y : A)
    (l : list A) :
  In y (insert_sorted leb x l) <-> y = x \/ In y l.
Proof.
  induction l as [|z l IH]; simpl.
  - intuition congruence.
  - destruct (leb x z); simpl; [intuition congruence|].
    rewrite IH. intuition congruence.
Qed.

Lemma in_sort_by (A : Type) (leb : A -> A -> bool) (y : A) (l : list A) :
  In y (sort_by leb l) <-> In y l.
Proof.
  unfold sort_by. induction l as [|x l IH]; simpl.
  - tauto.
  - rewrite in_insert_sorted, IH. intuition congruence.
Qed.

Lemma insert_sorted_perm (A : Type) (leb : A -> A -> bool) (x : A)
    (l : list A) :
  Permutation (x :: l) (insert_sorted leb x l).
Proof.
  induction l as [|z l IH]; simpl.
  - apply Permutation_refl.
  - destruct (leb x z).
    + apply Permutation_refl.
    + eapply Permutation_trans; [apply perm_swap|].
      apply perm_skip. exact IH.
Qed.

(** Sorting only reorders the rows. *)
Lemma sort_by_perm (A : Type) (leb : A -> A -> bool) (l : list A) :
  Permutation l (sort_by leb l).
Proof.
  unfold sort_by. induction l as [|x l IH]; simpl.
  - apply perm_nil.
  - eapply Permutation_trans; [apply perm_skip; exact IH|].
    apply insert_sorted_perm.
Qed.

Lemma in_unique (x : string) (l : list string) : In x (unique l) <-> In x l.
Proof.
  induction l as [|y l IH]; simpl.
  - tauto.
  - rewrite filter_In, IH.
    destruct (String.eqb y x) eqn:E.
    + apply String.eqb_eq in E. subst. simpl. tauto.
    + apply String.eqb_neq in E. simpl. intuition congruence.
Qed.

Lemma in_item_names (n : string) (rs : list Row) :
  In n (item_names rs) <-> exists r, In r rs /\ item r = Some n.
Proof.
  unfold item_names. rewrite in_sort_by, in_unique, in_flat_map.
  split.
  - intros [r [Hr Hn]]. exists r. split; [assumption|].
    destruct (item r); simpl in Hn; [|contradiction].
    destruct Hn as [->|[]]. reflexivity.
  - intros [r [Hr Hn]]. exists r. split; [assumption|].
    rewrite Hn. simpl. auto.
Qed.

Lemma option_eqb_string_refl (o : option string) :
  option_eqb String.eqb o o = true.
Proof. destruct o; simpl; [apply String.eqb_refl|reflexivity]. Qed.

Lemma option_eqb_Z_refl (o : option Z) : option_eqb Z.eqb o o = true.
Proof. destruct o; simpl; [apply Z.eqb_refl|reflexivity]. Qed.

Lemma in_select_item (n : string) (r : Row) (rs : list Row) :
  In r rs -> item r = Some n -> In r (select_item n rs).
Proof.
  intros Hr Hn. unfold select_item. apply filter_In. split; [assumption|].
  rewrite Hn. simpl. apply String.eqb_refl.
Qed.

(** A row with an item name lies in the group of that name. *)
Lemma in_groupby_item (n : string) (r : Row) (rs : list Row) :
  In r rs -> item r = Some n ->
  exists g, In (n, g) (groupby_item rs) /\ In r g.
Proof.
  intros Hr Hn. exists (select_item n rs). split.
  - unfold groupby_item. apply in_map_iff. exists n. split; [reflexivity|].
    apply in_item_names. exists r. auto.
  - apply in_select_item; assumption.
Qed.

Lemma mapM_in (A B : Type) (f : A -> outcome B) (l : list A) (ys : list B)
    (x : A) :
  mapM f l = Return ys -> In x l -> exists y, f x = Return y /\ In y ys.
Proof.
  revert ys. induction l as [|a l IH]; intros ys H Hx; [contradiction|].
  simpl in H. destruct (f a) as [b|e] eqn:Ea; [|discriminate].
  destruct (mapM f l) as [bs|e] eqn:El; [|discriminate].
  injection H as <-. destruct Hx as [->|Hx].
  - exists b. simpl. auto.
  - destruct (IH bs eq_refl Hx) as [y [Hy Hin]]. exists y. simpl. auto.
Qed.

Lemma mapM_out (A B : Type) (f : A -> outcome B) (l : list A) (ys : list B)
    (y : B) :
  mapM f l = Return ys -> In y ys -> exists x, In x l /\ f x = Return y.
Proof.
  revert ys. induction l as [|a l IH]; intros ys H Hy.
  - injection H as <-. contradiction.
  - simpl in H. destruct (f a) as [b|e] eqn:Ea; [|discriminate].
    destruct (mapM f l) as [bs|e] eqn:El; [|discriminate].
    injection H as <-. destruct Hy as [<-|Hy].
    + exists a. simpl. auto.
    + destruct (IH bs eq_refl Hy) as [x [Hx Hf]]. exists x. simpl. auto.
Qed.

(** When no element raises, the whole application returns. *)
Lemma mapM_total (A B : Type) (f : A -> outcome B) (l : list A) :
  (forall x, In x l -> exists y, f x = Return y) ->
  exists ys, mapM f l = Return ys.
Proof.
  induction l as [|a l IH]; intros H; simpl.
  - eexists. reflexivity.
  - destruct (H a (or_introl eq_refl)) as [b ->].
    destruct IH as [bs ->]; [intros x Hx; apply H; right; exact Hx|].
    eexists. reflexivity.
Qed.

Lemma in_combine_map (A B : Type) (g : A -> B) (l : list A) (x : A) (y : B) :
  In (x, y) (combine l (map g l)) -> y = g x.
Proof.
  induction l as [|a l IH]; simpl; [contradiction|].
  intros [H|H]; [injection H as <- <-; reflexivity | auto].
Qed.

Lemma in_combine_map_l (A B : Type) (g : A -> B) (l : list A) (x : A) :
  In x l -> In (x, g x) (combine l (map g l)).
Proof.
  induction l as [|a l IH]; simpl; [contradiction|].
  intros [->|H]; auto.
Qed.

(** Results of a row-wise [apply] correspond to the rows one by one. *)
Lemma mapM_map (A B C : Type) (f : A -> outcome B) (h : B -> C) (k : A -> C)
    (l : list A) (ys : list B) :
  (forall x y, f x = Return y -> h y = k x) ->
  mapM f l = Return ys -> map h ys = map k l.
Proof.
  intros Hf. revert ys. induction l as [|a l IH]; intros ys H; simpl in H.
  - injection H as <-. reflexivity.
  - destruct (f a) as [b|e] eqn:Ea; [|discriminate].
    destruct (mapM f l) as [bs|e]; [|discriminate].
    injection H as <-. simpl. rewrite (Hf a b Ea), (IH bs eq_refl).
    reflexivity.
Qed.

(** The rows of one item have distinct keys when the table has. *)
Lemma select_item_keys (name : string) (rs : list Row) :
  NoDup (map row_key rs) -> NoDup (map row_key (select_item name rs)).
Proof.
  unfold select_item. induction rs as [|r rs IH]; intros H;
    cbn [filter map]; [constructor|].
  cbn [map] in H. apply NoDup_cons_iff in H. destruct H as [Hr Hrs].
  destruct (option_eqb String.eqb (item r) (Some name)); [|auto].
  cbn [map]. apply NoDup_cons; [|auto].
  intros Hin. apply Hr. apply in_map_iff in Hin.
  destruct Hin as [r' [E Hr']]. apply filter_In in Hr'.
  apply in_map_iff. exists r'. tauto.
Qed.

(** So have the rows an anomaly mask selects. *)
Lemma NoDup_map_flagged (A B C : Type) (f : A -> C) (p : A * B -> bool)
    (l : list A) (l' : list B) :
  NoDup (map f l) -> NoDup (map f (map fst (filter p (combine l l')))).
Proof.
  revert l'. induction l as [|x l IH]; intros [|y l'] H; simpl;
    try constructor.
  inversion H as [|? ? Hx Hl]; subst.
  destruct (p (x, y)); simpl; [|auto].
  constructor; [|auto].
  intros Hin. apply Hx. apply in_map_iff in Hin.
  destruct Hin as [a [E Ha]]. apply in_map_iff in Ha.
  destruct Ha as [[a' b] [E' Hab]]. simpl in E'. subst a'.
  apply filter_In in Hab. destruct Hab as [Hab _].
  apply in_combine_l in Hab. apply in_map_iff. exists a. tauto.
Qed.

Lemma NoDup_unique (l : list string) : NoDup (unique l).
Proof.
  induction l as [|x l IH]; simpl; constructor.
  - intros H. apply filter_In in H. destruct H as [_ H].
    rewrite String.eqb_refl in H. discriminate.
  - apply NoDup_filter. exact IH.
Qed.

(** The group keys are distinct. *)
Lemma NoDup_item_names (rs : list Row) : NoDup (item_names rs).
Proof.
  unfold item_names. eapply Permutation_NoDup; [apply sort_by_perm|].
  apply NoDup_unique.
Qed.

Lemma select_item_item (n : string) (rs : list Row) (r : Row) :
  In r (select_item n rs) -> item r = Some n.
Proof.
  unfold select_item. intros H. apply filter_In in H. destruct H as [_ H].
  destruct (item r) as [m|]; cbn in H; [|discriminate].
  apply String.eqb_eq in H. congruence.
Qed.

(** A selection that every row passes selects the whole list. *)
Lemma filter_forallb (A : Type) (f : A -> bool) (l : list A) :
  forallb f l = true -> filter f l = l.
Proof.
  induction l as [|x l IH]; cbn; [reflexivity|].
  intros H. apply andb_true_iff in H. destruct H as [-> H].
  rewrite IH by exact H. reflexivity.
Qed.

Lemma forallb_comp (A B : Type) (f : A -> B) (p : B -> bool) (l : list A) :
  forallb (fun x => p (f x)) l = forallb p (map f l).
Proof. induction l as [|x l IH]; cbn; [|rewrite IH]; reflexivity. Qed.

End PandasFacts.

(** ** The anomaly detector (anomaly_analyzer.py) *)

Section AnomalyFacts.

Import pandas anomaly_analyzer.
Local Open Scope R_scope.
Local Open Scope string_scope.

(** The two paths of [_calculate_z_score]. *)
Lemma calculate_z_score_cases (series : list (option R)) :
  (series_std series = Some 0 /\
   _calculate_z_score series = map (fun _ => Some 0) series)
  \/
  (series_std series <> Some 0 /\
   _calculate_z_score series
   = map (fun x => fdiv (fsub x (series_mean series)) (series_std series))
         series).
Proof.
  unfold _calculate_z_score.
  destruct (series_std series) as [s|].
  - destruct (Req_dec_T s 0) as [->|Hs].
    + left. split; reflexivity.
    + right. split; [congruence|reflexivity].
  - right. split; [discriminate|reflexivity].
Qed.

(** A row without quantity has the z-score 0 on the constant path and no
    z-score otherwise. *)
Lemma z_score_of_missing (group_df : list Row) (r : Row) (z : option R) :
  In (r, z) (combine group_df (_calculate_z_score (map quantity group_df))) ->
  quantity r = None ->
  z = Some 0 \/ z = None.
Proof.
  intros Hin Hq.
  destruct (calculate_z_score_cases (map quantity group_df))
    as [[_ E]|[_ E]]; rewrite E, map_map in Hin;
    apply in_combine_map in Hin; subst z.
  - left. reflexivity.
  - right. rewrite Hq. reflexivity.
Qed.

Lemma define_anomaly_type_missing (self : SmartDemandPreprocessor)
    (r : Row) (z : option R) :
  _define_anomaly_type self r z = MISSING <-> quantity r = None.
Proof.
  unfold _define_anomaly_type, quantity_isna.
  destruct (quantity r) as [q|]; [|split; reflexivity].
  split; [|discriminate].
  repeat match goal with
         | |- context [if ?b then _ else _] => destruct b
         end; intros H; vm_compute in H; discriminate H.
Qed.


(** The condition on the threshold is needed: below 0 the z-score 0
    itself passes the test [abs > threshold]. *)
Lemma exceeds_negative_threshold (threshold : R) :
  threshold < 0 -> exceeds_threshold threshold (Some 0) = true.
Proof.
  intros Ht. unfold exceeds_threshold. rewrite Rabs_R0.
  destruct (Rgt_dec 0 threshold); [reflexivity|lra].
Qed.






(** On the counts of the run of C7 below the computation in double
    precision is exact and takes the constant path too. *)
Lemma constant_counts_binary64 :
  binary64._calculate_z_score
    [binary64.of_nat 5; binary64.of_nat 5; PrimFloat.nan]
  = [binary64.of_nat 0; binary64.of_nat 0; binary64.of_nat 0].
Proof. vm_compute. reflexivity. Qed.

(** C8. A row whose quantity is absent is of kind "결측", and for the kind
    "결측" the inferred cause is the fixed stock-out-or-aggregation-gap
    cause "품절 또는 집계 누락" whatever the table's columns and whatever
    the promotion, event, weather and temperature cells hold: the test
    comes first and returns. *)
Theorem infer_reason_missing_short_circuits
    (self : SmartDemandPreprocessor) (cols : list string) (z : option R)
    (d : option Z) (i : option string) (e p w t : cell) (r : Row) :
  _define_anomaly_type self
    {| date := d; item := i; quantity := None;
       event := e; promotion := p; weather := w; temperature := t |} z
  = "결측" /\
  _infer_reason cols r "결측" = Return "품절 또는 집계 누락".
Proof.
  split; reflexivity.
Qed.

Lemma in_anomalies_df (self : SmartDemandPreprocessor) (group_df : list Row)
    (r : Row) (z : option R) :
  In (r, z) (anomalies_df self group_df) -> In r group_df.
Proof.
  unfold anomalies_df. intros H. apply filter_In in H. destruct H as [H _].
  eapply in_combine_l. exact H.
Qed.

Lemma same_key_eq (r : Row) (l : LogRow) :
  same_key r l = true -> log_date l = date r /\ log_item l = item r.
Proof.
  unfold same_key. intros H. apply andb_true_iff in H. destruct H as [Hd Hi].
  split.
  - destruct (date r) as [d|], (log_date l) as [d'|]; cbn in Hd;
      try discriminate; [|reflexivity].
    apply Z.eqb_eq in Hd. congruence.
  - destruct (item r) as [n|], (log_item l) as [n'|]; cbn in Hi;
      try discriminate; [|reflexivity].
    apply String.eqb_eq in Hi. congruence.
Qed.

Lemma in_group_in_rows (n : string) (g : list Row) (rs : list Row) (r : Row) :
  In (n, g) (groupby_item (sort_values_item_date rs)) -> In r g -> In r rs.
Proof.
  unfold groupby_item. intros Hg Hr. apply in_map_iff in Hg.
  destruct Hg as [n' [E _]]. injection E as _ <-.
  unfold select_item in Hr. apply filter_In in Hr. destruct Hr as [Hr _].
  unfold sort_values_item_date in Hr. apply in_sort_by in Hr. exact Hr.
Qed.

(** Where a log row comes from. *)
Lemma detect_log_row (self : SmartDemandPreprocessor) (cols : list string)
    (group_df : list Row) (lg : list LogRow) (l : LogRow) :
  _detect_anomalies_and_missing self cols group_df = Return lg ->
  In l lg ->
  exists r z,
    In (r, z) (anomalies_df self group_df) /\
    _infer_reason cols r (_define_anomaly_type self r z)
      = Return (log_reason l) /\
    l = {| log_date := date r; log_item := item r;
           log_quantity := quantity r;
           log_type := _define_anomaly_type self r z;
           log_event := event_info cols r;
           log_reason := log_reason l;
           z_score := z |}.
Proof.
  intros H Hl. unfold _detect_anomalies_and_missing in H.
  destruct (mapM_out _ _ _ _ _ _ H Hl) as [[r z] [Hin Hf]].
  exists r, z. split; [assumption|].
  destruct (_infer_reason cols r (_define_anomaly_type self r z))
    as [reason|e]; [|discriminate].
  injection Hf as <-. split; reflexivity.
Qed.

(** A flagged row without quantity enters the log as a row of kind "결측";
    the rule chain cannot raise on it. *)
Lemma detect_logs_missing (self : SmartDemandPreprocessor) (cols : list string)
    (group_df : list Row) (lg : list LogRow) (r : Row) :
  _detect_anomalies_and_missing self cols group_df = Return lg ->
  In r group_df -> quantity r = None ->
  exists l, In l lg /\ log_date l = date r /\ log_item l = item r /\
            log_type l = MISSING.
Proof.
  intros H Hr Hq. unfold _detect_anomalies_and_missing in H.
  set (zf := _calculate_z_score (map quantity group_df)).
  assert (Hz : exists z, In (r, z) (combine group_df zf)).
  { subst zf. destruct (calculate_z_score_cases (map quantity group_df))
      as [[_ E]|[_ E]]; rewrite E, map_map; eexists;
      apply in_combine_map_l; exact Hr. }
  destruct Hz as [z Hz].
  assert (Hflag : In (r, z) (anomalies_df self group_df)).
  { unfold anomalies_df. apply filter_In. split; [exact Hz|].
    cbn [fst snd]. unfold anomaly_mask, quantity_isna. rewrite Hq.
    apply orb_true_r. }
  destruct (mapM_in _ _ _ _ _ (r, z) H Hflag) as [l [Hf Hl]].
  exists l. split; [assumption|].
  assert (Ht : _define_anomaly_type self r z = MISSING)
    by (apply define_anomaly_type_missing; assumption).
  rewrite Ht in Hf.
  destruct (_infer_reason cols r MISSING); [|discriminate].
  injection Hf as <-. cbn. auto.
Qed.

(** In a log, a row of kind "결측" carries the z-score 0 or none, and the
    fixed cause. *)
Lemma detect_missing_log_row (self : SmartDemandPreprocessor)
    (cols : list string) (group_df : list Row) (lg : list LogRow)
    (l : LogRow) :
  _detect_anomalies_and_missing self cols group_df = Return lg ->
  In l lg -> log_type l = MISSING ->
  log_quantity l = None /\
  (z_score l = Some 0 \/ z_score l = None) /\
  log_reason l = REASON_MISSING.
Proof.
  intros H Hl Ht.
  destruct (detect_log_row _ _ _ _ _ H Hl) as [r [z [Hin [Hreason E]]]].
  rewrite E in Ht |- *. cbn in Ht |- *.
  pose proof (proj1 (define_anomaly_type_missing self r z) Ht) as Hq.
  unfold anomalies_df in Hin. apply filter_In in Hin. destruct Hin as [Hin _].
  split; [assumption|]. split.
  - eapply z_score_of_missing; eassumption.
  - rewrite Ht in Hreason. cbn in Hreason. congruence.
Qed.

Lemma fill_anomaly_columns_filled (a : AugRow) :
  is_anomaly (fill_anomaly_columns a) <> None /\
  anomaly_type (fill_anomaly_columns a) <> None /\
  anomaly_reason (fill_anomaly_columns a) <> None /\
  anomaly_score (fill_anomaly_columns a) <> None.
Proof.
  destruct a as [b [?|] [?|] [?|] [?|]]; cbn; repeat split; discriminate.
Qed.

Lemma some_eq (A : Type) (x y : A) : Some x = Some y -> x = y.
Proof. intros H. injection H as H. exact H. Qed.

Lemma normal_is_not_missing : NORMAL <> MISSING.
Proof. intros H. vm_compute in H. discriminate H. Qed.

Lemma same_key_refl (r : Row) (l : LogRow) :
  log_date l = date r -> log_item l = item r -> same_key r l = true.
Proof.
  intros Hd Hi. unfold same_key. rewrite Hd, Hi.
  rewrite option_eqb_Z_refl, option_eqb_string_refl. reflexivity.
Qed.

(** The joined rows of one input row. *)
Lemma merge_left_row_cases (log : list LogRow) (r : Row) (m : AugRow) :
  In m (merge_left_row log r) ->
  (filter (same_key r) log = [] /\
   m = {| base := r; is_anomaly := None; anomaly_type := None;
          anomaly_reason := None; anomaly_score := None |})
  \/
  (exists l, In l log /\ same_key r l = true /\
     m = {| base := r; is_anomaly := Some true;
            anomaly_type := Some (log_type l);
            anomaly_reason := Some (log_reason l);
            anomaly_score := z_score l |}).
Proof.
  unfold merge_left_row.
  destruct (filter (same_key r) log) as [|l0 ls] eqn:E.
  - intros [<-|[]]. left. split; reflexivity.
  - intros Hm. right. apply in_map_iff in Hm.
    destruct Hm as [l [<- Hl]]. exists l.
    rewrite <- E in Hl. apply filter_In in Hl. tauto.
Qed.

Lemma merge_left_row_match (log : list LogRow) (r : Row) (l : LogRow) :
  In l log -> same_key r l = true ->
  In {| base := r; is_anomaly := Some true;
        anomaly_type := Some (log_type l);
        anomaly_reason := Some (log_reason l);
        anomaly_score := z_score l |}
     (merge_left_row log r).
Proof.
  intros Hl Hk. unfold merge_left_row.
  assert (Hf : In l (filter (same_key r) log)) by (apply filter_In; auto).
  destruct (filter (same_key r) log) as [|l0 ls]; [contradiction|].
  apply in_map_iff. exists l. auto.
Qed.

(** C10. Whenever [process] returns, no row of the augmented table has a
    null in [is_anomaly], [anomaly_type], [anomaly_reason] or
    [anomaly_score]; every row joined with a log row of kind "결측" has
    [is_anomaly = True] and [anomaly_score] exactly 0.0; every input row
    that has an item name and no quantity appears in the augmented table as
    such a row; and when no two input rows share date and item (the
    invariant of the data model), every augmented row of a named item
    without quantity is such a row. *)
Theorem process_fills_joined_columns
    (self : SmartDemandPreprocessor) (df : DataFrame)
    (processed_df : AugFrame) (log : list LogRow)
    (self' : SmartDemandPreprocessor) :
  process self df = Return (processed_df, log, self') ->
  Forall (fun a => is_anomaly a <> None /\ anomaly_type a <> None /\
                   anomaly_reason a <> None /\ anomaly_score a <> None)
         (aug_rows processed_df) /\
  Forall (fun a => anomaly_type a = Some MISSING ->
                   is_anomaly a = Some true /\ anomaly_score a = Some 0)
         (aug_rows processed_df) /\
  (forall r, In r (rows df) -> quantity r = None -> item r <> None ->
     exists a, In a (aug_rows processed_df) /\ base a = r /\
               anomaly_type a = Some MISSING /\
               is_anomaly a = Some true /\ anomaly_score a = Some 0) /\
  ((forall r1 r2, In r1 (rows df) -> In r2 (rows df) ->
      date r1 = date r2 -> item r1 = item r2 -> r1 = r2) ->
   forall a, In a (aug_rows processed_df) ->
     quantity (base a) = None -> item (base a) <> None ->
     anomaly_type a = Some MISSING /\
     is_anomaly a = Some true /\ anomaly_score a = Some 0).
Proof.
  intros H. unfold process in H.
  destruct (negb (forallb (has_column (columns df))
                    [col_date; col_item; col_quantity])); [discriminate|].
  cbn [columns rows] in H.
  set (sorted := sort_values_item_date (rows df)) in *.
  destruct (mapM (fun g => _detect_anomalies_and_missing self (columns df)
                             (snd g)) (groupby_item sorted))
    as [all_anomalies|e] eqn:Hall; [|discriminate].
  injection H as <- <- <-.
  assert (Hsorted : forall r, In r sorted <-> In r (rows df)).
  { intros r. subst sorted. unfold sort_values_item_date. apply in_sort_by. }
  (* every row of the log comes from a flagged row of one group *)
  assert (Horigin : forall l, In l (concat all_anomalies) ->
            exists r z, In r (rows df) /\ log_date l = date r /\
                        log_item l = item r /\
                        log_type l = _define_anomaly_type self r z).
  { intros l Hl. apply in_concat in Hl. destruct Hl as [lg [Hlg Hl]].
    destruct (mapM_out _ _ _ _ _ _ Hall Hlg) as [[n g] [Hg Hdet]].
    cbn [snd] in Hdet.
    destruct (detect_log_row _ _ _ _ _ Hdet Hl) as [r [z [Hin [_ E]]]].
    exists r, z. split.
    - eapply in_group_in_rows; [exact Hg|].
      eapply in_anomalies_df. exact Hin.
    - rewrite E. cbn. auto. }
  assert (Hlog : forall l, In l (concat all_anomalies) ->
            log_type l = MISSING ->
            z_score l = Some 0 \/ z_score l = None).
  { intros l Hl Ht. apply in_concat in Hl. destruct Hl as [lg [Hlg Hl]].
    destruct (mapM_out _ _ _ _ _ _ Hall Hlg) as [g [_ Hg]].
    eapply detect_missing_log_row; eassumption. }
  (* a named row without quantity has its own row in the log *)
  assert (Hown : forall r, In r sorted -> quantity r = None ->
            item r <> None ->
            exists l, In l (concat all_anomalies) /\
                      log_date l = date r /\ log_item l = item r /\
                      log_type l = MISSING).
  { intros r Hrs Hq Hitem.
    destruct (item r) as [n|] eqn:Hn; [clear Hitem|contradiction].
    destruct (in_groupby_item n r sorted Hrs Hn) as [g [Hg Hrg]].
    destruct (mapM_in _ _ _ _ _ (n, g) Hall Hg) as [lg [Hdet Hlg]].
    cbn [snd] in Hdet.
    destruct (detect_logs_missing _ _ _ _ r Hdet Hrg Hq)
      as [l [Hl [Hd [Hi Ht]]]].
    exists l. split; [apply in_concat; exists lg; auto|].
    split; [exact Hd|]. split; [|exact Ht]. rewrite Hi. exact Hn. }
  remember (concat all_anomalies) as full_log eqn:Elog.
  assert (Hrows : forall a,
            In a (aug_rows (_create_features_from_log
                    {| z_score_threshold := z_score_threshold self;
                       anomaly_log := Some full_log |}
                    {| columns := columns df; rows := sorted |})) ->
            exists r, In r sorted /\ base a = r /\
              ((full_log = [] \/ filter (same_key r) full_log = []) /\
               a = {| base := r; is_anomaly := Some false;
                      anomaly_type := Some NORMAL;
                      anomaly_reason := Some NORMAL;
                      anomaly_score := Some 0 |}
               \/
               exists l, In l full_log /\ same_key r l = true /\
                 a = {| base := r; is_anomaly := Some true;
                        anomaly_type := Some (log_type l);
                        anomaly_reason := Some (log_reason l);
                        anomaly_score := fillna 0 (z_score l) |})).
  { unfold _create_features_from_log. cbn [anomaly_log rows columns].
    destruct full_log as [|l0 ls]; cbn [aug_rows]; intros a Ha;
      apply in_map_iff in Ha.
    - destruct Ha as [r [<- Hr]]. exists r. cbn [base].
      split; [exact Hr|]. split; [reflexivity|].
      left. split; [left; reflexivity|reflexivity].
    - destruct Ha as [m [<- Hm]]. apply in_flat_map in Hm.
      destruct Hm as [r [Hr Hm]]. exists r. split; [exact Hr|].
      apply merge_left_row_cases in Hm.
      destruct Hm as [[Hnone ->]|[l [Hl [Hk ->]]]];
        (split; [reflexivity|]).
      + left. split; [right; exact Hnone|reflexivity].
      + right. exists l. split; [exact Hl|]. split; [exact Hk|].
        reflexivity. }
  assert (Hsecond : forall a,
            In a (aug_rows (_create_features_from_log
                    {| z_score_threshold := z_score_threshold self;
                       anomaly_log := Some full_log |}
                    {| columns := columns df; rows := sorted |})) ->
            anomaly_type a = Some MISSING ->
            is_anomaly a = Some true /\ anomaly_score a = Some 0).
  { intros a Ha Ht.
    destruct (Hrows a Ha) as [r [_ [_ [[_ ->]|[l [Hl [_ ->]]]]]]];
      cbn [anomaly_type is_anomaly anomaly_score] in Ht |- *;
      apply some_eq in Ht.
    - destruct (normal_is_not_missing Ht).
    - destruct (Hlog l Hl Ht) as [-> | ->]; cbn; auto. }
  split; [|split; [|split]].
  - apply Forall_forall. intros a Ha.
    destruct (Hrows a Ha) as [r [_ [_ [[_ ->]|[l [_ [_ ->]]]]]]]; cbn;
      repeat split; try discriminate.
    destruct (z_score l); discriminate.
  - apply Forall_forall. exact Hsecond.
  - intros r Hr Hq Hitem. apply Hsorted in Hr.
    destruct (Hown r Hr Hq Hitem) as [l [Hlc [Hd [Hi Ht]]]].
    pose proof (merge_left_row_match _ r l Hlc (same_key_refl r l Hd Hi))
      as Hm.
    set (m := {| base := r; is_anomaly := Some true;
                 anomaly_type := Some (log_type l);
                 anomaly_reason := Some (log_reason l);
                 anomaly_score := z_score l |}) in *.
    assert (Ha : In (fill_anomaly_columns m)
                   (aug_rows (_create_features_from_log
                      {| z_score_threshold := z_score_threshold self;
                         anomaly_log := Some full_log |}
                      {| columns := columns df; rows := sorted |}))).
    { unfold _create_features_from_log. cbn [anomaly_log rows columns].
      destruct full_log as [|l0 ls]; [contradiction|]. cbn [aug_rows].
      apply in_map. apply in_flat_map. exists r. split; [exact Hr|].
      exact Hm. }
    exists (fill_anomaly_columns m).
    assert (Hty : anomaly_type (fill_anomaly_columns m) = Some MISSING).
    { subst m. cbn. rewrite Ht. reflexivity. }
    split; [exact Ha|]. split; [reflexivity|]. split; [exact Hty|].
    apply Hsecond; assumption.
  - intros Huniq a Ha Hq Hitem.
    assert (Hty : anomaly_type a = Some MISSING);
      [|split; [exact Hty|apply Hsecond; assumption]].
    destruct (Hrows a Ha) as [r [Hr [Hb Hcases]]].
    rewrite Hb in Hq, Hitem.
    destruct (Hown r Hr Hq Hitem) as [l' [Hl' [Hd' [Hi' Ht']]]].
    destruct Hcases as [[Hnone _]|[l [Hl [Hk ->]]]].
    + (* the own log row of [r] matches it *)
      exfalso.
      assert (Hf : In l' (filter (same_key r) full_log))
        by (apply filter_In; split;
            [exact Hl'|apply same_key_refl; assumption]).
      destruct Hnone as [E|E]; rewrite E in *; contradiction.
    + (* the matching log row comes from a row with the key of [r] *)
      cbn [anomaly_type]. f_equal.
      destruct (Horigin l Hl) as [r' [z [Hr' [Hd [Hi Ht]]]]].
      destruct (same_key_eq r l Hk) as [Hkd Hki].
      assert (r' = r).
      { apply Huniq; [exact Hr'|apply Hsorted; exact Hr| |]; congruence. }
      subst r'. rewrite Ht. apply define_anomaly_type_missing. exact Hq.
Qed.

(** On a row whose covariates are typed as the input contract says, the
    rule chain returns a cause. *)
Lemma infer_reason_total (cols : list string) (r : Row)
    (anomaly_type : string) :
  input_contract.typed_covariates r ->
  exists reason, _infer_reason cols r anomaly_type = Return reason.
Proof.
  intros [He Ht]. unfold _infer_reason, temperature_above_25, row_get.
  destruct (String.eqb anomaly_type MISSING); [eexists; reflexivity|].
  destruct (has_column cols col_event), (has_column cols col_promotion),
    (has_column cols col_weather), (has_column cols col_temperature),
    (event r), (temperature r); try contradiction;
    cbn [notna isna negb andb];
    repeat match goal with
           | |- context [match ?c with PyNone => _ | _ => _ end] => destruct c
           | |- context [if ?b then _ else _] => destruct b
           end;
    eexists; reflexivity.
Qed.

(** [process] returns on every table that has the three required columns
    and typed covariates. *)
Lemma process_total (self : SmartDemandPreprocessor) (df : DataFrame) :
  forallb (has_column (columns df)) [col_date; col_item; col_quantity] = true ->
  Forall input_contract.typed_covariates (rows df) ->
  exists processed_df log self',
    process self df = Return (processed_df, log, self').
Proof.
  intros Hcols Htyped. unfold process. rewrite Hcols. cbn [negb columns rows].
  destruct (mapM_total _ _
              (fun g => _detect_anomalies_and_missing self (columns df) (snd g))
              (groupby_item (sort_values_item_date (rows df))))
    as [all_anomalies ->].
  - intros [n g] Hg. cbn [snd]. unfold _detect_anomalies_and_missing.
    apply mapM_total. intros [r z] Hrz.
    assert (Hr : In r (rows df)).
    { eapply in_group_in_rows; [exact Hg|].
      eapply in_anomalies_df. exact Hrz. }
    destruct (infer_reason_total (columns df) r
                (_define_anomaly_type self r z)) as [reason ->].
    + eapply Forall_forall in Htyped; eassumption.
    + eexists. reflexivity.
  - do 3 eexists. reflexivity.
Qed.

(** ** Row preservation

    On a table whose (date, item) keys are distinct, the left join adds
    columns and no rows: the augmented table is the sorted input. *)

Lemma detect_log_keys (self : SmartDemandPreprocessor) (cols : list string)
    (g : list Row) (lg : list LogRow) :
  _detect_anomalies_and_missing self cols g = Return lg ->
  map log_key lg = map row_key (map fst (anomalies_df self g)).
Proof.
  unfold _detect_anomalies_and_missing. intros H.
  rewrite map_map.
  eapply mapM_map; [|exact H].
  intros [r z] y Hy. cbn in Hy.
  destruct (_infer_reason cols r (_define_anomaly_type self r z));
    [|discriminate].
  injection Hy as <-. reflexivity.
Qed.

(** The keys of the concatenated log are distinct, and each names the item
    of its group. *)
Lemma group_logs_keys (self : SmartDemandPreprocessor) (cols : list string)
    (rs : list Row) (names : list string) (all : list (list LogRow)) :
  NoDup names ->
  NoDup (map row_key rs) ->
  mapM (fun g : string * list Row =>
          _detect_anomalies_and_missing self cols (snd g))
       (map (fun n => (n, select_item n rs)) names) = Return all ->
  NoDup (map log_key (concat all)) /\
  (forall k, In k (map log_key (concat all)) ->
             exists n, In n names /\ snd k = Some n).
Proof.
  intros Hnames Hrs. revert all.
  induction names as [|n ns IH]; intros all H; cbn [map mapM] in H.
  - injection H as <-. cbn. split; [constructor|tauto].
  - cbn [snd] in H.
    destruct (_detect_anomalies_and_missing self cols (select_item n rs))
      as [lg|e] eqn:Elg; [|discriminate].
    destruct (mapM _ (map _ ns)) as [alls|e] eqn:Eall; [|discriminate].
    injection H as <-.
    inversion Hnames as [|? ? Hn Hns]; subst.
    destruct (IH Hns alls eq_refl) as [IH1 IH2].
    pose proof (detect_log_keys _ _ _ _ Elg) as Hkeys.
    assert (Hlg : forall k, In k (map log_key lg) -> snd k = Some n).
    { intros k Hk. rewrite Hkeys in Hk. apply in_map_iff in Hk.
      destruct Hk as [r [<- Hr]]. apply in_map_iff in Hr.
      destruct Hr as [[r' z] [E Hrz]]. cbn in E. subst r'.
      apply in_anomalies_df in Hrz. apply select_item_item in Hrz.
      exact Hrz. }
    cbn [concat]. rewrite map_app. split.
    + apply NoDup_app.
      * rewrite Hkeys. unfold anomalies_df. apply NoDup_map_flagged.
        apply select_item_keys. exact Hrs.
      * exact IH1.
      * intros k Hk1 Hk2. apply Hlg in Hk1. apply IH2 in Hk2.
        destruct Hk2 as [m [Hm E]]. apply Hn.
        assert (m = n) by congruence. subst. exact Hm.
    + intros k Hk. apply in_app_or in Hk. destruct Hk as [Hk|Hk].
      * exists n. split; [left; reflexivity|auto].
      * apply IH2 in Hk. destruct Hk as [m [Hm E]]. exists m.
        split; [right; exact Hm|exact E].
Qed.

Lemma same_key_log_key (r : Row) (l : LogRow) :
  same_key r l = true -> log_key l = row_key r.
Proof.
  intros H. apply same_key_eq in H. destruct H as [Hd Hi].
  unfold log_key, row_key. congruence.
Qed.

(** With distinct log keys a row matches one log row at most. *)
Lemma filter_same_key_le1 (log : list LogRow) (r : Row) :
  NoDup (map log_key log) -> (length (filter (same_key r) log) <= 1)%nat.
Proof.
  induction log as [|a log IH]; intros H; cbn [filter]; [cbn; lia|].
  cbn [map] in H. inversion H as [|? ? Ha Hl]; subst.
  destruct (same_key r a) eqn:Ea; [|auto].
  assert (E : filter (same_key r) log = []).
  { destruct (filter (same_key r) log) as [|b bs] eqn:Ef; [reflexivity|].
    exfalso. apply Ha.
    assert (Hb : In b (filter (same_key r) log))
      by (rewrite Ef; left; reflexivity).
    apply filter_In in Hb. destruct Hb as [Hb1 Hb2].
    apply same_key_log_key in Ea. apply same_key_log_key in Hb2.
    rewrite Ea, <- Hb2. apply in_map. exact Hb1. }
  rewrite E. cbn. lia.
Qed.

Lemma merge_left_row_base (log : list LogRow) (r : Row) :
  NoDup (map log_key log) -> map base (merge_left_row log r) = [r].
Proof.
  intros H. pose proof (filter_same_key_le1 log r H) as Hle.
  unfold merge_left_row.
  destruct (filter (same_key r) log) as [|l1 [|l2 ls]]; cbn in Hle |- *;
    try reflexivity. lia.
Qed.

(** [process] keeps the rows of a table with distinct keys, in sorted
    order. *)
Lemma process_keeps_rows (self self' : SmartDemandPreprocessor)
    (df : DataFrame) (processed_df : AugFrame) (log : list LogRow) :
  process self df = Return (processed_df, log, self') ->
  NoDup (map row_key (rows df)) ->
  map base (aug_rows processed_df) = sort_values_item_date (rows df).
Proof.
  unfold process. intros H Hkeys.
  destruct (negb _); [discriminate|]. cbn [columns rows] in H.
  destruct (mapM _ _) as [all|e] eqn:Eall; [|discriminate].
  injection H as <- <- <-.
  assert (Hsorted : NoDup (map row_key (sort_values_item_date (rows df)))).
  { eapply Permutation_NoDup; [|exact Hkeys].
    apply Permutation_map. apply sort_by_perm. }
  unfold groupby_item in Eall.
  destruct (group_logs_keys _ _ _ _ _ (NoDup_item_names _) Hsorted Eall)
    as [Hlog _].
  unfold _create_features_from_log. cbn [anomaly_log columns rows].
  remember (concat all) as full_log.
  remember (sort_values_item_date (rows df)) as sorted.
  destruct full_log as [|l0 ls].
  - cbn [aug_rows]. rewrite map_map. cbn [base]. apply map_id.
  - cbn [aug_rows]. rewrite map_map.
    clear - Hlog. induction sorted as [|r rs IH]; [reflexivity|].
    cbn [flat_map]. rewrite map_app, IH.
    change (fun x => base (fill_anomaly_columns x)) with base.
    rewrite merge_left_row_base by exact Hlog. reflexivity.
Qed.

(** [process] appends the four joined columns, in one of two orders. *)
Lemma process_columns (self self' : SmartDemandPreprocessor)
    (df : DataFrame) (processed_df : AugFrame) (log : list LogRow) :
  process self df = Return (processed_df, log, self') ->
  aug_columns processed_df
  = (columns df
     ++ ["is_anomaly"; "anomaly_type"; "anomaly_reason"; "anomaly_score"])%list
  \/
  aug_columns processed_df
  = (columns df
     ++ ["anomaly_type"; "anomaly_reason"; "anomaly_score"; "is_anomaly"])%list.
Proof.
  unfold process. intros H.
  destruct (negb _); [discriminate|]. cbn [columns rows] in H.
  destruct (mapM _ _) as [all|e]; [|discriminate].
  injection H as <- _ _.
  unfold _create_features_from_log. cbn [anomaly_log columns rows].
  destruct (concat all); [left|right]; reflexivity.
Qed.


(** A run of C10 on a table with one counted day and one gap. *)
Lemma process_fills_joined_columns_witness :
  exists processed_df log self',
    process (SmartDemandPreprocessor_init 2.5) sample_data.one_gap
      = Return (processed_df, log, self') /\
    Forall (fun a => is_anomaly a <> None /\ anomaly_type a <> None /\
                     anomaly_reason a <> None /\ anomaly_score a <> None)
           (aug_rows processed_df) /\
    Forall (fun a => anomaly_type a = Some MISSING ->
                     is_anomaly a = Some true /\ anomaly_score a = Some 0)
           (aug_rows processed_df) /\
    (exists a, In a (aug_rows processed_df) /\
               base a = sample_data.plain_row 2 "A" None /\
               anomaly_type a = Some MISSING /\
               is_anomaly a = Some true /\ anomaly_score a = Some 0) /\
    (forall a, In a (aug_rows processed_df) ->
       quantity (base a) = None -> item (base a) <> None ->
       anomaly_type a = Some MISSING /\
       is_anomaly a = Some true /\ anomaly_score a = Some 0).
Proof.
  do 3 eexists. split.
  - py_eval. reflexivity.
  - edestruct (process_fills_joined_columns
                 (SmartDemandPreprocessor_init 2.5) sample_data.one_gap)
      as [H1 [H2 [H3 H4]]].
    + py_eval. reflexivity.
    + split; [exact H1|]. split; [exact H2|]. split.
      * apply H3; [right; left; reflexivity|reflexivity|discriminate].
      * apply H4. intros r1 r2 Hr1 Hr2 Hd _.
        destruct Hr1 as [<-|[<-|[]]]; destruct Hr2 as [<-|[<-|[]]];
          try reflexivity; discriminate Hd.
Defined.

End AnomalyFacts.

(** ** The trainers (model_trainer.py, advanced_models.py) *)

Section TrainerFacts.

Import pandas model_trainer advanced_models.
Local Open Scope string_scope.
Local Open Scope list_scope.

Lemma slice_from_neg_tail (A : Type) (k : nat) (l : list A) :
  0 < k -> slice_from_neg k l = numpy.tail k l.
Proof. intros Hk. destruct k; [lia|reflexivity]. Qed.

Lemma slice_until_from (A : Type) (k : nat) (l : list A) :
  0 < k -> slice_until_neg k l ++ slice_from_neg k l = l.
Proof. intros Hk. destruct k; [lia|]. apply firstn_skipn. Qed.

Lemma length_tail (A : Type) (k : nat) (l : list A) :
  k <= length l -> length (numpy.tail k l) = k.
Proof. intros Hk. unfold numpy.tail. rewrite length_skipn. lia. Qed.

(** The three facts that make a test part the trailing [k] rows. *)
Lemma trailing_split (A : Type) (k : nat) (l : list A) :
  0 < k -> k <= length l ->
  slice_from_neg k l = numpy.tail k l /\
  length (slice_from_neg k l) = k /\
  slice_until_neg k l ++ slice_from_neg k l = l.
Proof.
  intros H0 Hk. split; [|split].
  - apply slice_from_neg_tail. assumption.
  - rewrite slice_from_neg_tail by assumption. apply length_tail. assumption.
  - apply slice_until_from. assumption.
Qed.

Lemma holdout_size_bounds (n : nat) :
  5 <= n -> 0 < Nat.min 30 (int_mul_02 n) <= n.
Proof.
  intros Hn. unfold int_mul_02.
  pose proof (Nat.Div0.div_le_upper_bound n 5 n) as Hup.
  assert (1 <= n / 5) by (apply Nat.div_le_lower_bound; lia).
  assert (n / 5 <= n) by (apply Hup; lia).
  lia.
Qed.

Lemma length_prepare_sequences (lookback forecast : nat)
    (data : list (option R)) :
  length (fst (prepare_sequences lookback forecast data))
    = length data + 1 - forecast - lookback /\
  length (snd (prepare_sequences lookback forecast data))
    = length data + 1 - forecast - lookback.
Proof.
  unfold prepare_sequences. cbn [fst snd].
  rewrite !length_map, length_seq. split; reflexivity.
Qed.

(** C2, as the code has it. For a series that passes the trainer's
    minimum-history gate: the decomposition trainer (Prophet) and the fast
    tree trainer (LightGBM) hold out exactly the trailing
    [min(30, floor(0.2 * length))] rows; the primary tree trainer (XGBoost)
    holds out exactly the trailing 30 rows; the sequence trainer (LSTM)
    holds out the trailing [min(30, floor(0.2 * S))] of its
    [S = length + 1 - forecast - lookback] training sequences. In each case
    the training part followed by the held-out part is the input in its
    order. *)
Theorem holdout_windows :
  (forall (A : Type) (prophet_data : list A),
     MIN_DATA_DAYS <= length prophet_data ->
     let k := Nat.min 30 (length prophet_data / 5) in
     snd (prophet_split prophet_data) = numpy.tail k prophet_data /\
     length (snd (prophet_split prophet_data)) = k /\
     fst (prophet_split prophet_data) ++ snd (prophet_split prophet_data)
       = prophet_data) /\
  (forall (A : Type) (features : list A) (target : list (option R)),
     60 <= length features ->
     let k := Nat.min 30 (length features / 5) in
     let X_test := fst (snd (lightgbm_split features target)) in
     let X_train := fst (fst (lightgbm_split features target)) in
     X_test = numpy.tail k features /\
     length X_test = k /\
     X_train ++ X_test = features) /\
  (forall (A : Type) (features : list A) (target : list (option R)),
     MIN_DATA_DAYS + 30 <= length features ->
     let X_test := fst (snd (xgboost_split features target)) in
     let X_train := fst (fst (xgboost_split features target)) in
     X_test = numpy.tail 30 features /\
     length X_test = 30 /\
     X_train ++ X_test = features) /\
  (forall (lookback forecast : nat) (data : list (option R)),
     lookback + forecast + 30 <= length data ->
     let X := fst (prepare_sequences lookback forecast data) in
     let y := snd (prepare_sequences lookback forecast data) in
     let k := Nat.min 30 (length X / 5) in
     length X = length data + 1 - forecast - lookback /\
     snd (snd (lstm_split X y)) = numpy.tail k y /\
     length (snd (snd (lstm_split X y))) = k /\
     snd (fst (lstm_split X y)) ++ snd (snd (lstm_split X y)) = y).
Proof.
  split; [|split; [|split]].
  - intros A prophet_data Hn k. unfold prophet_split. cbn [fst snd].
    unfold MIN_DATA_DAYS in Hn.
    destruct (holdout_size_bounds (length prophet_data)) as [H0 Hk]; [lia|].
    apply trailing_split; assumption.
  - intros A features target Hn k X_test X_train.
    subst X_test X_train. unfold lightgbm_split. cbn [fst snd].
    destruct (holdout_size_bounds (length features)) as [H0 Hk]; [lia|].
    apply trailing_split; assumption.
  - intros A features target Hn X_test X_train.
    subst X_test X_train. unfold xgboost_split. cbn [fst snd].
    unfold MIN_DATA_DAYS in Hn. apply trailing_split; lia.
  - intros lookback forecast data Hn X y k.
    destruct (length_prepare_sequences lookback forecast data) as [HX Hy].
    fold X in HX. fold y in Hy.
    split; [exact HX|].
    unfold lstm_split. cbn [fst snd]. fold (int_mul_02 (length X)) in k.
    destruct (holdout_size_bounds (length X)) as [H0 Hk]; [lia|].
    apply trailing_split; [assumption|]. fold k in Hk. lia.
Qed.

(** A run of the amended C2: 40 days through the decomposition trainer's
    partition, 100 rows through both tree trainers' partitions, 60 days
    through the sequence trainer's. *)
Lemma holdout_windows_witness :
  (snd (prophet_split (seq 0 40)) = seq 32 8) /\
  (fst (snd (lightgbm_split (seq 0 100) (repeat None 100))) = seq 80 20) /\
  (fst (snd (xgboost_split (seq 0 100) (repeat None 100))) = seq 70 30) /\
  (length (snd (snd (lstm_split
             (fst (prepare_sequences 14 7 (repeat None 60)))
             (snd (prepare_sequences 14 7 (repeat None 60)))))) = 8).
Proof.
  destruct holdout_windows as [Hp [Hl [Hx Hs]]].
  split; [|split; [|split]].
  - destruct (Hp nat (seq 0 40)) as [E _]; [vm_compute; lia|].
    rewrite E. reflexivity.
  - destruct (Hl nat (seq 0 100) (repeat None 100)) as [E _];
      [vm_compute; lia|].
    rewrite E. reflexivity.
  - destruct (Hx nat (seq 0 100) (repeat None 100)) as [E _];
      [vm_compute; lia|].
    rewrite E. reflexivity.
  - destruct (Hs 14 7 (repeat None 60)) as [_ [_ [E _]]];
      [rewrite repeat_length; lia|].
    rewrite E.
    destruct (length_prepare_sequences 14 7 (repeat None 60)) as [-> _].
    rewrite repeat_length. reflexivity.
Defined.

(** C2 as stated fails for the primary tree trainer: with 60 rows, which
    pass its gate, it holds out the trailing 30 rows, while
    [min(30, 20% of 60)] is 12. *)
Lemma xgboost_holdout_counterexample :
  let features := seq 0 60 in
  let target : list (option R) := repeat None 60 in
  (length features <? MIN_DATA_DAYS + 30)%nat = false /\
  Nat.min 30 (int_mul_02 (length features)) = 12 /\
  length (fst (snd (xgboost_split features target))) = 30 /\
  fst (snd (xgboost_split features target))
    <> numpy.tail (Nat.min 30 (int_mul_02 (length features))) features.
Proof.
  repeat split; try reflexivity.
  intros H. apply (f_equal (@length nat)) in H. vm_compute in H.
  discriminate H.
Qed.

(** The accuracy the orchestrator reads from a trainer's result:
    [result.get('performance', {}).get('Accuracy(%)', 0)]. *)
Lemma not_enough_data_reads_zero :
  trained not_enough_data = false /\
  performance not_enough_data = None /\
  get_default (parallel_processor.performance_or_empty not_enough_data)
              "Accuracy(%)" 0%R = 0%R.
Proof. repeat split. Qed.

(** C3, as the code has it. Below its minimum-history gate no trainer
    raises (the table having the columns the trainer selects on). The
    decomposition and primary tree trainers return no model, no
    predictions, and the performance record with accuracy -1 and MAE -1.
    The sequence and fast tree trainers return the record
    [{'trained': False, 'message': '데이터 부족'}], which has no performance
    entry, and leave the predictor unchanged. *)
Theorem short_series_not_trained :
  (forall (Prophet : Type) Prophet_fit Prophet_predict
          (df : DataFrame) (product_name : string),
     has_column (columns df) col_item = true ->
     has_column (columns df) col_date = true ->
     has_column (columns df) col_quantity = true ->
     length (select_item product_name (rows df)) < MIN_DATA_DAYS ->
     train_prophet_model Prophet Prophet_fit Prophet_predict df product_name
     = Return (None, None, None, [("Accuracy(%)", (-1)%R); ("MAE", (-1)%R)]))
  /\
  (forall (F XGBRegressor : Type) XGBRegressor_fit XGBRegressor_predict
          (features : list F) (target : list (option R)),
     length features < MIN_DATA_DAYS + 30 ->
     train_xgboost_model F XGBRegressor XGBRegressor_fit XGBRegressor_predict
       features target
     = (None, None, [("Accuracy(%)", (-1)%R); ("MAE", (-1)%R)]))
  /\
  (forall (Sequential : Type) Sequential_fit Sequential_predict
          (self : LSTMPredictor Sequential) (df : DataFrame)
          (product_name : string),
     has_column (columns df) col_item = true ->
     length (select_item product_name (rows df))
       < lookback_days self + forecast_days self + 30 ->
     LSTMPredictor_train Sequential Sequential_fit Sequential_predict
       self df product_name
     = Return ({| trained := false; message := Some "데이터 부족";
                  performance := None; predictions := None |}, self))
  /\
  (forall (F Booster : Type) lgb_train Booster_predict
          (self : LightGBMPredictor Booster)
          (features : list F) (target : list (option R)),
     length features < 60 ->
     LightGBMPredictor_train F Booster lgb_train Booster_predict
       self features target
     = Return ({| trained := false; message := Some "데이터 부족";
                  performance := None; predictions := None |}, self)).
Proof.
  split; [|split; [|split]].
  - intros Prophet fit predict df name Hi Hd Hq Hn.
    unfold train_prophet_model, require_column. rewrite Hi, Hd, Hq.
    cbn [bind]. rewrite length_map.
    destruct (Nat.ltb_spec (length (select_item name (rows df)))
                MIN_DATA_DAYS) as [_|Hge]; [reflexivity|lia].
  - intros F X fit predict features target Hn.
    unfold train_xgboost_model.
    destruct (Nat.ltb_spec (length features) (MIN_DATA_DAYS + 30))
      as [_|Hge]; [reflexivity|lia].
  - intros S fit predict self df name Hi Hn.
    unfold LSTMPredictor_train, require_column. rewrite Hi. cbn [bind].
    destruct (Nat.ltb_spec (length (select_item name (rows df)))
                (lookback_days self + forecast_days self + 30))
      as [_|Hge]; [reflexivity|lia].
  - intros F B train predict self features target Hn.
    unfold LightGBMPredictor_train.
    destruct (Nat.ltb_spec (length features) 60) as [_|Hge];
      [reflexivity|lia].
Qed.

(** A run of the amended C3: an item with two days of history, with
    libraries that could only fail. *)
Lemma short_series_not_trained_witness :
  train_prophet_model unit (fun _ _ => Raise TypeError)
    (fun _ _ => Raise TypeError) sample_data.one_gap "A"
  = Return (None, None, None, [("Accuracy(%)", (-1)%R); ("MAE", (-1)%R)])
  /\
  train_xgboost_model nat unit (fun _ _ => Raise TypeError)
    (fun _ _ => Raise TypeError) [1; 2] [Some 5%R; None]
  = (None, None, [("Accuracy(%)", (-1)%R); ("MAE", (-1)%R)])
  /\
  LSTMPredictor_train unit (fun _ _ => Raise TypeError)
    (fun _ _ => Raise TypeError) (LSTMPredictor_init unit 14 7)
    sample_data.one_gap "A"
  = Return (not_enough_data, LSTMPredictor_init unit 14 7)
  /\
  LightGBMPredictor_train nat unit (fun _ _ _ _ => Raise TypeError)
    (fun _ _ => Raise TypeError) (LightGBMPredictor_init unit)
    [1; 2] [Some 5%R; None]
  = Return (not_enough_data, LightGBMPredictor_init unit).
Proof.
  destruct short_series_not_trained as [Hp [Hx [Hs Hl]]].
  split; [|split; [|split]].
  - apply Hp; try reflexivity. vm_compute. lia.
  - apply Hx. vm_compute. lia.
  - apply Hs; try reflexivity. vm_compute. lia.
  - apply Hl. vm_compute. lia.
Defined.

(** C3 as stated fails for the fast tree trainer (and in the same way for
    the sequence trainer): below the gate its result has [trained = False]
    but no accuracy and no MAE, so neither is -1; the orchestrator reads
    the accuracy as 0. *)
Lemma lightgbm_short_series_counterexample :
  exists result self',
    LightGBMPredictor_train nat unit (fun _ _ _ _ => Raise TypeError)
      (fun _ _ => Raise TypeError) (LightGBMPredictor_init unit)
      [1; 2] [Some 5%R; None]
    = Return (result, self') /\
    (length [1; 2] <? 60)%nat = true /\
    trained result = false /\
    get (parallel_processor.performance_or_empty result) "Accuracy(%)"
      <> Some (-1)%R /\
    get (parallel_processor.performance_or_empty result) "MAE"
      <> Some (-1)%R /\
    get_default (parallel_processor.performance_or_empty result)
      "Accuracy(%)" 0%R = 0%R.
Proof.
  do 2 eexists. split; [reflexivity|].
  repeat split; try reflexivity; cbn; discriminate.
Qed.

End TrainerFacts.

(** ** The volatility score (external_factor_detector.py) *)

Section VolatilityFacts.

Import pandas external_factor_detector.
Local Open Scope R_scope.
Local Open Scope string_scope.

Lemma sum_squares_nonneg (m : R) (v : list R) :
  0 <= sum (map (fun y => (y - m) * (y - m)) v).
Proof.
  apply sum_nonneg. apply Forall_forall. intros x Hx.
  apply in_map_iff in Hx. destruct Hx as [y [<- _]].
  fold (Rsqr (y - m)). apply Rle_0_sqr.
Qed.

(** The score is never negative. *)
Lemma coefficient_of_variation_nonneg (sales : list (option R)) :
  0 <= coefficient_of_variation sales.
Proof.
  unfold coefficient_of_variation.
  destruct (numpy.mean sales) as [m|]; [|lra].
  destruct (numpy.std sales) as [s|] eqn:Es; [|lra].
  destruct (Rgt_dec m 0) as [Hm|_]; [|lra].
  assert (0 <= s).
  { unfold numpy.std in Es. destruct (numpy.all_values sales) as [[|x v]|];
      try discriminate. injection Es as <-. apply sqrt_pos. }
  apply Rle_mult_inv_pos; lra.
Qed.

(** Sixty-four days without sales and one day with sixty-five units have
    mean 1 and population standard deviation 8. *)
Lemma single_spike_coefficient_of_variation :
  coefficient_of_variation
    (map quantity (select_item "A" (rows sample_data.single_spike))) = 8.
Proof.
  unfold coefficient_of_variation, numpy.mean, numpy.std, sum.
  py_eval. cbn [INR].
  match goal with
  | |- context [sqrt ?a] => replace a with (8 * 8) by lra
  end.
  rewrite sqrt_square by lra.
  r_decide. lra.
Qed.

(** What the factor synthesizer returns for that item: the volatility
    record holds the coefficient of variation 8, in the top level. *)
Lemma single_spike_factors :
  detect_and_create_factors sample_data.single_spike "A"
  = Return ({| columns := (columns sample_data.single_spike
                           ++ derived_columns)%list;
               rows := rows sample_data.single_spike |},
            {| cv := 8; level := "매우 변동적" |}).
Proof.
  unfold detect_and_create_factors, _analyze_volatility.
  cbn -[coefficient_of_variation Rlt_dec select_item derived_columns].
  match goal with
  | |- context [coefficient_of_variation ?sales] =>
      replace (coefficient_of_variation sales) with 8
        by (symmetry; exact single_spike_coefficient_of_variation)
  end.
  r_decide. reflexivity.
Qed.

End VolatilityFacts.

(** ** The orchestrator (parallel_processor.py) *)

Section PipelineFacts.

Import pandas anomaly_analyzer external_factor_detector parallel_processor.
Local Open Scope string_scope.
Local Open Scope list_scope.

Variable lib : Libraries.

Lemma has_column_app (cols extra : list string) (col : string) :
  has_column (cols ++ extra) col = has_column cols col || has_column extra col.
Proof. unfold has_column. apply existsb_app. Qed.

(** The factor synthesizer adds no date column. *)
Lemma detect_keeps_date_column (df df_enhanced : DataFrame)
    (product_name : string) (info : VolatilityInfo) :
  detect_and_create_factors df product_name = Return (df_enhanced, info) ->
  has_column (columns df_enhanced) col_date = has_column (columns df) col_date.
Proof.
  unfold detect_and_create_factors. intros H.
  destruct (require_column (columns df) col_item); [|discriminate].
  cbn [bind] in H.
  destruct (_analyze_volatility _); [|discriminate]. cbn [bind] in H.
  destruct (mapM _ calendar_columns); [|discriminate]. cbn [bind] in H.
  injection H as <- _. cbn [columns].
  rewrite has_column_app.
  replace (has_column derived_columns col_date) with false by reflexivity.
  apply orb_false_r.
Qed.

(** Without the quantity column the factor synthesizer raises. *)
Lemma detect_requires_quantity (df : DataFrame) (product_name : string) :
  has_column (columns df) col_quantity = false ->
  exists e, detect_and_create_factors df product_name = Raise e.
Proof.
  intros Hq. unfold detect_and_create_factors, _analyze_volatility,
    require_column.
  destruct (has_column (columns df) col_item); cbn [bind columns].
  - rewrite Hq. cbn [bind]. eexists. reflexivity.
  - eexists. reflexivity.
Qed.

(** The detector's own check: without one of the three required columns
    [process] raises before it looks at any row. *)
Lemma process_requires_columns (self : SmartDemandPreprocessor)
    (df : DataFrame) :
  has_column (columns df) col_date = false \/
  has_column (columns df) col_item = false \/
  has_column (columns df) col_quantity = false ->
  exists msg, process self df = Raise (ValueError msg).
Proof.
  intros H. unfold process. cbn [forallb].
  destruct H as [-> | [-> | ->]]; rewrite ?andb_false_r; cbn [andb negb];
    eexists; reflexivity.
Qed.

(** Without the date or the quantity column, the [try] block of an item
    raises in its first two steps. *)
Lemma process_product_try_missing_column (product_name : string)
    (df : DataFrame) :
  has_column (columns df) col_date = false \/
  has_column (columns df) col_quantity = false ->
  exists e, process_product_try lib product_name df = Raise e.
Proof.
  intros H. unfold process_product_try.
  destruct (detect_and_create_factors df product_name)
    as [[df_enhanced info]|e] eqn:Hdet; [|eexists; reflexivity].
  cbn [bind].
  destruct H as [Hd|Hq].
  - pose proof (detect_keeps_date_column _ _ _ _ Hdet) as Hk.
    rewrite Hd in Hk.
    destruct (process_requires_columns (SmartDemandPreprocessor_init 2.5)
                df_enhanced (or_introl Hk)) as [msg ->].
    eexists. reflexivity.
  - destruct (detect_requires_quantity df product_name Hq) as [e He].
    congruence.
Qed.

Lemma process_product_missing_column (product_name : string)
    (df : DataFrame) :
  has_column (columns df) col_date = false \/
  has_column (columns df) col_quantity = false ->
  process_product lib (product_name, df) = (product_name, None).
Proof.
  intros H. unfold process_product.
  destruct (process_product_try_missing_column product_name df H) as [e ->].
  reflexivity.
Qed.

Lemma collect_all_empty (tasks : list (string * DataFrame)) :
  (forall task, In task tasks ->
     process_product lib task = (fst task, None)) ->
  collect lib tasks = ([], []).
Proof.
  unfold collect.
  generalize (@nil (string * ProductResult), @nil (list LogRow)).
  induction tasks as [|task tasks IH]; intros acc H; cbn [fold_left].
  - reflexivity.
  - destruct acc as [models logs].
    rewrite (H task (or_introl eq_refl)).
    apply IH. intros t Ht. apply H. right. exact Ht.
Qed.

Lemma run_without_item_column (_df : DataFrame) :
  has_column (columns _df) col_item = false ->
  run_parallel_processing lib _df = ([], Raise (KeyError col_item)).
Proof.
  intros H. unfold run_parallel_processing, require_column. rewrite H.
  reflexivity.
Qed.

Lemma run_without_date_or_quantity (_df : DataFrame) :
  has_column (columns _df) col_item = true ->
  has_column (columns _df) col_date = false \/
  has_column (columns _df) col_quantity = false ->
  run_parallel_processing lib _df
  = (item_names (rows _df),
     Return {| models_data := []; total_anomaly_log := [] |}).
Proof.
  intros Hi H. unfold run_parallel_processing, require_column. rewrite Hi.
  rewrite collect_all_empty.
  - f_equal. unfold groupby_item. rewrite !map_map. cbn [fst].
    apply map_id.
  - intros [name df] Hin. apply in_map_iff in Hin.
    destruct Hin as [[n g] [E _]]. cbn [fst snd] in E.
    injection E as <- <-. cbn [fst].
    apply process_product_missing_column. exact H.
Qed.

Lemma ensemble_predict_state (self ensemble : advanced_models.VolatilityAwareEnsemble)
    (predictions : dict (list R)) (volatility_score : R)
    (model_performances : dict R) (ensemble_pred : list R) :
  advanced_models.ensemble_predict self predictions volatility_score
    model_performances = Return (ensemble_pred, ensemble) ->
  ensemble = snd (advanced_models.calculate_dynamic_weights self
                    volatility_score model_performances).
Proof.
  unfold advanced_models.ensemble_predict.
  destruct (advanced_models.calculate_dynamic_weights self volatility_score
              model_performances) as [w self'].
  destruct predictions as [|[m first] rest]; [discriminate|].
  destruct (fold_left _ _ _); [|discriminate].
  intros H. injection H as _ <-. reflexivity.
Qed.

(** The volatility score the combiner works with is the coefficient of
    variation the factor synthesizer returned for the item: whenever the
    [try] block of [process_product] returns, the weights it reports were
    computed by [calculate_dynamic_weights] at that score. *)
Lemma ensemble_receives_cv (product_name : string) (df : DataFrame)
    (result : ProductResult) :
  process_product_try lib product_name df = Return result ->
  exists df_enhanced volatility_info performance_for_ensemble,
    detect_and_create_factors df product_name
      = Return (df_enhanced, volatility_info) /\
    ensemble_weights (ensemble_performance result)
    = advanced_models.weights
        (snd (advanced_models.calculate_dynamic_weights
                advanced_models.VolatilityAwareEnsemble_init
                (cv volatility_info) performance_for_ensemble)).
Proof.
  unfold process_product_try. intros H.
  destruct (detect_and_create_factors df product_name)
    as [[df_enhanced info]|e]; [|discriminate]. cbn [bind] in H.
  destruct (process _ df_enhanced) as [[[df_processed log] s]|e];
    [|discriminate]. cbn [bind] in H.
  destruct (feature_engineer.create_xgboost_features _ _ df_processed _)
    as [[features target]|e]; [|discriminate]. cbn [bind] in H.
  destruct (model_trainer.train_prophet_model _ _ _ _ _)
    as [[[[pm pfc] ptp] pperf]|e]; [|discriminate]. cbn [bind] in H.
  destruct (model_trainer.train_xgboost_model _ _ _ _ features target)
    as [[xm xtp] xperf].
  destruct (advanced_models.LSTMPredictor_train _ _ _ _ _ _)
    as [[lstm_result ls]|e]; [|discriminate]. cbn [bind] in H.
  destruct (advanced_models.LightGBMPredictor_train _ _ _ _ _ features target)
    as [[lgbm_result lg]|e]; [|discriminate]. cbn [bind] in H.
  match type of H with
  | match filter ?f ?l with _ => _ end = _ =>
      destruct (filter f l) as [|[m first] others]; [discriminate|]
  end.
  match type of H with
  | bind (advanced_models.ensemble_predict ?s ?p ?v ?perf) _ = _ =>
      destruct (advanced_models.ensemble_predict s p v perf)
        as [[pred ensemble]|e] eqn:Hens; [|discriminate];
      apply ensemble_predict_state in Hens; exists df_enhanced, info, perf
  end.
  cbn [bind] in H.
  destruct (sklearn.evaluate _ _) as [ens|e]; [|discriminate].
  cbn [bind] in H.
  match type of H with
  | bind ?c _ = _ => destruct c as [fc|e]; [|discriminate]
  end.
  cbn [bind] in H. injection H as <-.
  split; [reflexivity|]. cbn [ensemble_performance ensemble_weights].
  rewrite Hens. reflexivity.
Qed.

(** The dashboard refuses a table without a required column before the
    run is started. *)
Lemma main_refuses_missing_column (mapped_df : DataFrame) :
  has_column (columns mapped_df) col_date = false \/
  has_column (columns mapped_df) col_item = false \/
  has_column (columns mapped_df) col_quantity = false ->
  app.main lib mapped_df = None.
Proof.
  intros H. unfold app.main, app.get_data.
  destruct H as [-> | [-> | ->]]; cbn [negb orb]; rewrite ?orb_true_r;
    reflexivity.
Qed.

(** What the dashboard hands to the orchestrator has the three required
    columns and the calendar columns. *)
Lemma get_data_columns (mapped_df df : DataFrame) :
  app.get_data mapped_df = Some df ->
  forallb (has_column (columns df))
    ([col_date; col_item; col_quantity] ++ calendar_columns) = true.
Proof.
  unfold app.get_data. intros H.
  destruct (has_column (columns mapped_df) col_date) eqn:Hd;
    [|discriminate].
  destruct (has_column (columns mapped_df) col_item) eqn:Hi;
    [|discriminate].
  destruct (has_column (columns mapped_df) col_quantity) eqn:Hq;
    [|discriminate].
  injection H as <-. cbn [columns].
  apply forallb_forall. intros col Hcol. rewrite has_column_app.
  cbn [app] in Hcol.
  destruct Hcol as [<-|[<-|[<-|Hcal]]]; rewrite ?Hd, ?Hi, ?Hq;
    try reflexivity.
  apply orb_true_iff. right.
  unfold calendar_columns in Hcal. cbn [In] in Hcal.
  destruct Hcal as [<-|[<-|[<-|[<-|[]]]]]; reflexivity.
Qed.

(** C4, as the code has it. Without the item column the batch run fails
    at once: grouping raises before any item's pipeline is entered. With
    the item column but without the date or the quantity column nothing
    fails at the entry of the run: the pipeline of every item is entered,
    the violation is raised inside it, caught there and turned into an
    empty per-item result, and the run returns normally with no item result
    and an empty anomaly log. The anomaly detector's own [process] does
    check the three columns once, before it touches any row; and the
    dashboard refuses such a table before it starts the run. *)
Theorem missing_required_column (_df : DataFrame) :
  (has_column (columns _df) col_item = false ->
   run_parallel_processing lib _df = ([], Raise (KeyError col_item)))
  /\
  (has_column (columns _df) col_item = true ->
   has_column (columns _df) col_date = false \/
   has_column (columns _df) col_quantity = false ->
   run_parallel_processing lib _df
   = (item_names (rows _df),
      Return {| models_data := []; total_anomaly_log := [] |})
   /\
   forall product_name df_product_orig,
     columns df_product_orig = columns _df ->
     process_product lib (product_name, df_product_orig)
     = (product_name, None))
  /\
  (has_column (columns _df) col_date = false \/
   has_column (columns _df) col_item = false \/
   has_column (columns _df) col_quantity = false ->
   (forall self, exists msg, process self _df = Raise (ValueError msg)) /\
   app.main lib _df = None).
Proof.
  split; [|split].
  - apply run_without_item_column.
  - intros Hi H. split.
    + apply run_without_date_or_quantity; assumption.
    + intros name df Hc. apply process_product_missing_column.
      rewrite Hc. exact H.
  - intros H. split.
    + intros self. apply process_requires_columns. exact H.
    + apply main_refuses_missing_column. exact H.
Qed.

End PipelineFacts.

Section PipelineRuns.

Import pandas anomaly_analyzer external_factor_detector parallel_processor.
Local Open Scope string_scope.
Local Open Scope list_scope.

(** A run of the amended C4 on a table without the item column and on a
    table without the date column. *)
Lemma missing_required_column_witness :
  run_parallel_processing sample_data.failing_libraries
    sample_data.no_item_column
  = ([], Raise (KeyError col_item))
  /\
  run_parallel_processing sample_data.failing_libraries
    sample_data.no_date_column
  = (["A"], Return {| models_data := []; total_anomaly_log := [] |})
  /\
  (exists msg,
     process (SmartDemandPreprocessor_init 2.5) sample_data.no_date_column
     = Raise (ValueError msg))
  /\
  app.main sample_data.failing_libraries sample_data.no_date_column = None.
Proof.
  split; [|split; [|split]].
  - apply (missing_required_column sample_data.failing_libraries
             sample_data.no_item_column).
    reflexivity.
  - apply (missing_required_column sample_data.failing_libraries
             sample_data.no_date_column).
    + reflexivity.
    + left. reflexivity.
  - apply (missing_required_column sample_data.failing_libraries
             sample_data.no_date_column).
    left. reflexivity.
  - apply (missing_required_column sample_data.failing_libraries
             sample_data.no_date_column).
    left. reflexivity.
Defined.

(** C4 as stated fails on a table that lacks the date column: the batch
    run does not fail but returns; the pipeline of item "A" is entered;
    and the violation ends as the empty result of that item. *)
Lemma missing_date_column_counterexample :
  has_column (columns sample_data.no_date_column) col_date = false /\
  (exists started result,
     run_parallel_processing sample_data.failing_libraries
       sample_data.no_date_column
     = (started, Return result) /\
     started = ["A"] /\
     models_data result = []) /\
  process_product sample_data.failing_libraries
    ("A", sample_data.no_date_column)
  = ("A", None).
Proof.
  split; [reflexivity|]. split.
  - do 2 eexists. split; [|split].
    + apply run_without_date_or_quantity; [reflexivity|left; reflexivity].
    + reflexivity.
    + reflexivity.
  - apply process_product_missing_column. left. reflexivity.
Qed.

End PipelineRuns.

(** ** A run of the whole pipeline

    The item of [sample_data.single_spike] passes the history gate of all
    four trainers. With libraries that answer every call, the [try] block
    of [process_product] returns, and the combiner is called with the
    item's coefficient of variation. *)

Section SpikeRun.

Import pandas anomaly_analyzer external_factor_detector model_trainer
  advanced_models parallel_processor.
Local Open Scope R_scope.
Local Open Scope string_scope.

Lemma single_spike_keys : NoDup (map row_key (rows sample_data.single_spike)).
Proof.
  change (map row_key (rows sample_data.single_spike))
    with (map (fun d => (Some (Z.of_nat d), Some "A")) (seq 1 65)).
  apply Finite.Injective_map_NoDup; [|apply seq_NoDup].
  intros x y H. injection H as H. apply Nat2Z.inj. exact H.
Qed.

Lemma single_spike_typed :
  Forall input_contract.typed_covariates (rows sample_data.single_spike).
Proof.
  apply Forall_forall. intros r Hr.
  unfold sample_data.single_spike in Hr. cbn [rows] in Hr.
  apply in_app_or in Hr. destruct Hr as [Hr|[<-|[]]].
  - apply in_map_iff in Hr. destruct Hr as [d [<- _]]. split; exact I.
  - split; exact I.
Qed.

(** The decomposition trainer: thirteen held-out days. *)
Lemma prophet_stage (cols : list string) :
  has_column cols col_item = true ->
  has_column cols col_date = true ->
  has_column cols col_quantity = true ->
  exists fc v a m,
    train_prophet_model unit (Prophet_fit sample_data.answering_libraries)
      (Prophet_predict sample_data.answering_libraries)
      {| columns := cols; rows := rows sample_data.single_spike |} "A"
    = Return (Some tt, Some fc, Some (repeat v 13),
              sklearn.performance_record a m).
Proof.
  intros H1 H2 H3. unfold train_prophet_model, require_column.
  cbn [columns]. rewrite H1, H2, H3. cbn [bind].
  unfold prophet_try. cbn [columns].
  destruct (has_column cols col_event); py_eval;
    do 4 eexists; reflexivity.
Qed.

(** The primary tree trainer: thirty held-out days. *)
Lemma xgboost_stage :
  exists v a m,
    train_xgboost_model unit unit
      (XGBRegressor_fit sample_data.answering_libraries)
      (XGBRegressor_predict sample_data.answering_libraries)
      (map (fun _ => tt) (seq 0 65))
      (map quantity (rows sample_data.single_spike))
    = (Some tt, Some (repeat v 30), sklearn.performance_record a m).
Proof. py_eval. do 3 eexists. reflexivity. Qed.

(** The fast tree trainer: thirteen held-out days. *)
Lemma lightgbm_stage :
  exists v a m self',
    LightGBMPredictor_train unit unit
      (lgb_train sample_data.answering_libraries)
      (Booster_predict sample_data.answering_libraries)
      (LightGBMPredictor_init unit)
      (map (fun _ => tt) (seq 0 65))
      (map quantity (rows sample_data.single_spike))
    = Return ({| trained := true; message := None;
                 performance := Some (sklearn.performance_record a m);
                 predictions := Some (repeat v 13) |}, self').
Proof. py_eval. do 4 eexists. reflexivity. Qed.

Lemma MinMaxScaler_fit_some (x : R) (data : list (option R)) :
  exists scale min_,
    sklearn.MinMaxScaler_fit (Some x :: data) = Some (scale, min_).
Proof.
  unfold sklearn.MinMaxScaler_fit. cbn [dropna]. do 2 eexists. reflexivity.
Qed.

(** The sequence trainer: nine held-out sequences of seven days. *)
Lemma lstm_stage (cols : list string) :
  has_column cols col_item = true ->
  has_column cols col_quantity = true ->
  exists v a m self',
    LSTMPredictor_train unit
      (Sequential_fit sample_data.answering_libraries)
      (Sequential_predict sample_data.answering_libraries)
      (LSTMPredictor_init unit 14 7)
      {| columns := cols; rows := rows sample_data.single_spike |} "A"
    = Return ({| trained := true; message := None;
                 performance := Some (sklearn.performance_record a m);
                 predictions := Some (repeat v 63) |}, self').
Proof.
  intros H1 H2. unfold LSTMPredictor_train, require_column.
  cbn [columns]. rewrite H1, H2. cbn [bind rows].
  change (select_item "A" (rows sample_data.single_spike))
    with (rows sample_data.single_spike).
  destruct (MinMaxScaler_fit_some 0
              (tl (map quantity (rows sample_data.single_spike))))
    as [scale [min_ Hfit]].
  change (Some 0 :: tl (map quantity (rows sample_data.single_spike)))
    with (map quantity (rows sample_data.single_spike)) in Hfit.
  rewrite Hfit.
  py_eval. do 4 eexists. reflexivity.
Qed.

(** The feature builder on the augmented table of the item. *)
Lemma features_stage (cols : list string) (ars : list AugRow) :
  map base ars = rows sample_data.single_spike ->
  has_column cols col_item = true ->
  has_column cols col_quantity = true ->
  has_column cols "요일" = true ->
  feature_engineer.create_xgboost_features unit (fun _ _ => tt)
    {| aug_columns := cols; aug_rows := ars |} "A"
  = Return (map (fun _ => tt) (seq 0 65),
            map quantity (rows sample_data.single_spike)).
Proof.
  intros Hbase H1 H2 H3.
  unfold feature_engineer.create_xgboost_features, require_column.
  cbn [aug_columns aug_rows]. rewrite H1, H2, H3. cbn [bind].
  rewrite filter_forallb.
  - replace (length ars) with 65%nat
      by (rewrite <- (length_map base), Hbase; reflexivity).
    rewrite <- Hbase, map_map. reflexivity.
  - rewrite (forallb_comp _ _ base
               (fun r => option_eqb String.eqb (item r) (Some "A"))).
    rewrite Hbase. reflexivity.
Qed.

(** The [try] block of [process_product] returns for the item, all four
    models enter the ensemble, and the weights it reports are those of
    [calculate_dynamic_weights] at the score 8. *)
Lemma single_spike_run :
  exists result performance_for_ensemble,
    process_product_try sample_data.answering_libraries "A"
      sample_data.single_spike
    = Return result /\
    keys performance_for_ensemble
    = ["prophet"; "xgboost"; "lstm"; "lightgbm"] /\
    ensemble_weights (ensemble_performance result)
    = weights (snd (calculate_dynamic_weights VolatilityAwareEnsemble_init 8
                      performance_for_ensemble)).
Proof.
  unfold process_product_try. rewrite single_spike_factors. cbn [bind].
  destruct (process_total (SmartDemandPreprocessor_init 2.5)
              {| columns := (columns sample_data.single_spike
                             ++ derived_columns)%list;
                 rows := rows sample_data.single_spike |})
    as [P [log [s Hproc]]]; [reflexivity|exact single_spike_typed|].
  rewrite Hproc. cbn [bind].
  pose proof (process_keeps_rows _ _ _ _ _ Hproc) as Hrows.
  pose proof (process_columns _ _ _ _ _ Hproc) as Hcols.
  cbn [rows columns] in Hrows, Hcols.
  assert (Hbase : map base (aug_rows P) = rows sample_data.single_spike).
  { rewrite Hrows; [reflexivity|exact single_spike_keys]. }
  clear Hrows Hproc. destruct P as [C ars]. cbn [aug_rows aug_columns] in *.
  unfold base_frame. cbn [aug_rows aug_columns]. rewrite Hbase.
  change (F sample_data.answering_libraries) with unit.
  change (feature_row sample_data.answering_libraries)
    with (fun (_ : list AugRow) (_ : nat) => tt).
  change (Prophet sample_data.answering_libraries) with unit.
  change (XGBRegressor sample_data.answering_libraries) with unit.
  change (Sequential sample_data.answering_libraries) with unit.
  change (Booster sample_data.answering_libraries) with unit.
  assert (Hc : has_column C col_item = true /\
               has_column C col_date = true /\
               has_column C col_quantity = true /\
               has_column C "요일" = true).
  { destruct Hcols as [-> | ->]; repeat split; reflexivity. }
  clear Hcols. destruct Hc as [Hi [Hd [Hq Hw]]].
  rewrite (features_stage C ars Hbase Hi Hq Hw). cbn [bind].
  destruct (prophet_stage C Hi Hd Hq) as [fc [v1 [a1 [m1 ->]]]]. cbn [bind].
  destruct xgboost_stage as [v2 [a2 [m2 ->]]].
  destruct (lstm_stage C Hi Hq) as [v3 [a3 [m3 [s3 ->]]]]. cbn [bind].
  destruct lightgbm_stage as [v4 [a4 [m4 [s4 ->]]]]. cbn [bind].
  py_eval.
  unfold ensemble_predict, calculate_dynamic_weights.
  py_eval.
  repeat match goal with
         | |- context [Req_dec_T ?a ?b] => destruct (Req_dec_T a b)
         end;
    (eexists;
     exists [("prophet", a1); ("xgboost", a2); ("lstm", a3); ("lightgbm", a4)];
     split; [reflexivity|]; split; [reflexivity|];
     unfold calculate_dynamic_weights; py_eval;
     repeat match goal with
            | |- context [Req_dec_T ?a ?b] =>
                destruct (Req_dec_T a b); try contradiction
            end;
     reflexivity).
Qed.

(** C9 at the failing input. For an item that sold nothing on sixty-four
    days and sixty-five units on the next, the factor synthesizer returns
    the coefficient of variation 8, in the top volatility level; the run of
    [process_product] on the item returns, and the weights it reports are
    those the combiner computed at that score. The score the combiner
    receives lies outside [0,1]. *)
Theorem volatility_score_exceeds_one :
  exists df_enhanced volatility_info result performance_for_ensemble,
    detect_and_create_factors sample_data.single_spike "A"
      = Return (df_enhanced, volatility_info) /\
    cv volatility_info = 8 /\
    level volatility_info = "매우 변동적" /\
    ~ (0 <= cv volatility_info <= 1) /\
    process_product_try sample_data.answering_libraries "A"
      sample_data.single_spike
      = Return result /\
    keys performance_for_ensemble
      = ["prophet"; "xgboost"; "lstm"; "lightgbm"] /\
    ensemble_weights (ensemble_performance result)
      = weights (snd (calculate_dynamic_weights VolatilityAwareEnsemble_init
                        (cv volatility_info) performance_for_ensemble)).
Proof.
  destruct single_spike_run as [result [perf [Hrun [Hkeys Hw]]]].
  do 2 eexists. exists result, perf.
  split; [exact single_spike_factors|]. cbn [cv level].
  repeat split; try assumption. lra.
Qed.

End SpikeRun.

(* ===================================================================== *)
(** * Part III: further properties of the code *)
(* ===================================================================== *)

(** ** The anomaly detector: the log and the augmented table *)

Section AnomalyLog.

Import pandas anomaly_analyzer.
Local Open Scope R_scope.
Local Open Scope string_scope.

(** X1. Every row of the log [_detect_anomalies_and_missing] returns for
    an item is of kind "결측", "급등" or "급감", never "정상": either its
    quantity is missing and its kind is "결측", or it has a quantity and a
    z-score, and the kind is "급등" with the z-score above the threshold or
    "급감" with the z-score below minus the threshold. *)
Theorem anomaly_log_kinds (self : SmartDemandPreprocessor) (cols : list string)
    (group_df : list Row) (lg : list LogRow) (l : LogRow) :
  _detect_anomalies_and_missing self cols group_df = Return lg ->
  In l lg ->
  (log_type l = MISSING /\ log_quantity l = None)
  \/
  (exists z, z_score l = Some z /\ log_quantity l <> None /\
     ((log_type l = SURGE /\ z > z_score_threshold self)
      \/ (log_type l = DROP /\ z < - z_score_threshold self))).
Proof.
  intros H Hl.
  destruct (detect_log_row _ _ _ _ _ H Hl) as [r [z [Hin [_ E]]]].
  rewrite E. cbn [log_type log_quantity z_score].
  unfold anomalies_df in Hin. apply filter_In in Hin.
  destruct Hin as [_ Hmask]. cbn [fst snd] in Hmask.
  unfold anomaly_mask in Hmask.
  unfold _define_anomaly_type, quantity_isna in *.
  destruct (quantity r) as [q|]; [|left; split; reflexivity].
  right. rewrite orb_false_r in Hmask. unfold exceeds_threshold in Hmask.
  destruct z as [z|]; [|discriminate].
  destruct (Rgt_dec (Rabs z) (z_score_threshold self)) as [Habs|];
    [|discriminate].
  exists z. split; [reflexivity|]. split; [discriminate|].
  destruct (Rgt_dec z (z_score_threshold self)) as [Hgt|Hngt];
    [left; split; [reflexivity|exact Hgt]|].
  destruct (Rlt_dec z (- z_score_threshold self)) as [Hlt|Hnlt];
    [right; split; [reflexivity|exact Hlt]|].
  exfalso. unfold Rabs in Habs. destruct (Rcase_abs z); lra.
Qed.

(** A run of X1: the log of an item whose only day has no count. *)
Lemma anomaly_log_kinds_witness :
  let self := SmartDemandPreprocessor_init 2.5 in
  let l := {| log_date := Some 1%Z; log_item := Some "A";
              log_quantity := None; log_type := MISSING;
              log_event := Str NO_EVENT; log_reason := REASON_MISSING;
              z_score := None |} in
  (log_type l = MISSING /\ log_quantity l = None)
  \/
  (exists z, z_score l = Some z /\ log_quantity l <> None /\
     ((log_type l = SURGE /\ z > z_score_threshold self)
      \/ (log_type l = DROP /\ z < - z_score_threshold self))).
Proof.
  intros self l.
  apply (anomaly_log_kinds self sample_data.required_columns
           [sample_data.plain_row 1 "A" None] [l] l).
  - reflexivity.
  - left. reflexivity.
Defined.

(** X2. An item with at most one counted day has no z-score at all (the
    sample standard deviation is NaN, so every z-score is NaN): no row
    passes the z-score test, and only rows without quantity are flagged. *)
Theorem single_value_series_not_flagged (self : SmartDemandPreprocessor)
    (group_df : list Row) :
  (length (dropna (map quantity group_df)) <= 1)%nat ->
  _calculate_z_score (map quantity group_df) = map (fun _ => None) group_df /\
  Forall (fun rz => quantity (fst rz) = None /\ snd rz = None)
         (anomalies_df self group_df).
Proof.
  intros Hn.
  assert (Hz : _calculate_z_score (map quantity group_df)
               = map (fun _ => None) group_df).
  { unfold _calculate_z_score, series_std.
    destruct (Nat.leb_spec (length (dropna (map quantity group_df))) 1)
      as [_|Hgt]; [|lia].
    rewrite map_map. apply map_ext. intros r. unfold fdiv.
    destruct (fsub (quantity r) (series_mean (map quantity group_df)));
      reflexivity. }
  split; [exact Hz|].
  apply Forall_forall. intros [r z] Hin. cbn [fst snd].
  unfold anomalies_df in Hin. apply filter_In in Hin.
  destruct Hin as [Hin Hmask]. rewrite Hz in Hin.
  apply (in_combine_map _ _ (fun _ : Row => @None R)) in Hin. subst z.
  cbn [fst snd] in Hmask. unfold anomaly_mask, exceeds_threshold in Hmask.
  cbn [orb] in Hmask. unfold quantity_isna in Hmask.
  destruct (quantity r); [discriminate|]. split; reflexivity.
Qed.

(** A run of X2: one counted day and one gap. *)
Lemma single_value_series_not_flagged_witness :
  _calculate_z_score (map quantity (rows sample_data.one_gap))
    = [None; None] /\
  Forall (fun rz => quantity (fst rz) = None /\ snd rz = None)
         (anomalies_df (SmartDemandPreprocessor_init 2.5)
            (rows sample_data.one_gap)).
Proof.
  apply (single_value_series_not_flagged (SmartDemandPreprocessor_init 2.5)
           (rows sample_data.one_gap)).
  cbn. lia.
Defined.

(** X3. Whenever [process] returns, every row of the augmented table
    either matches a row of the log on date and item, and then has
    [is_anomaly = True] and carries that log row's kind, cause and z-score
    (0.0 for a NaN z-score); or matches no row of the log, and then has
    [is_anomaly = False], kind and cause "정상" and score 0.0. *)
Theorem augmented_rows_follow_log (self self' : SmartDemandPreprocessor)
    (df : DataFrame) (processed_df : AugFrame) (log : list LogRow) :
  process self df = Return (processed_df, log, self') ->
  Forall (fun a =>
     (is_anomaly a = Some true /\
      exists l, In l log /\ log_key l = row_key (base a) /\
                anomaly_type a = Some (log_type l) /\
                anomaly_reason a = Some (log_reason l) /\
                anomaly_score a = fillna 0 (z_score l))
     \/
     (is_anomaly a = Some false /\ anomaly_type a = Some NORMAL /\
      anomaly_reason a = Some NORMAL /\ anomaly_score a = Some 0 /\
      forall l, In l log -> log_key l <> row_key (base a)))
    (aug_rows processed_df).
Proof.
  unfold process. intros H.
  destruct (negb _); [discriminate|]. cbn [columns rows] in H.
  destruct (mapM _ _) as [all|e]; [|discriminate].
  injection H as <- <- <-.
  unfold _create_features_from_log. cbn [anomaly_log columns rows].
  remember (concat all) as full_log.
  apply Forall_forall. intros a Ha.
  destruct full_log as [|l0 ls]; cbn [aug_rows] in Ha; apply in_map_iff in Ha.
  - destruct Ha as [r [<- _]]. right. cbn. repeat split. intros l [].
  - destruct Ha as [m [<- Hm]]. apply in_flat_map in Hm.
    destruct Hm as [r [_ Hm]]. apply merge_left_row_cases in Hm.
    destruct Hm as [[Hnone ->]|[l [Hl [Hk ->]]]].
    + right. cbn. repeat split. intros l Hl Hkey.
      assert (Hin : In l (filter (same_key r) (l0 :: ls))).
      { apply filter_In. split; [exact Hl|].
        unfold log_key, row_key in Hkey. injection Hkey as Hd Hi.
        apply same_key_refl; assumption. }
      rewrite Hnone in Hin. contradiction.
    + left. cbn. split; [reflexivity|]. exists l.
      split; [exact Hl|]. split; [apply same_key_log_key; exact Hk|].
      repeat split.
Qed.

(** A run of X3 on a table with one counted day and one gap. *)
Lemma augmented_rows_follow_log_witness :
  exists processed_df log,
    Forall (fun a =>
       (is_anomaly a = Some true /\
        exists l, In l log /\ log_key l = row_key (base a) /\
                  anomaly_type a = Some (log_type l) /\
                  anomaly_reason a = Some (log_reason l) /\
                  anomaly_score a = fillna 0 (z_score l))
       \/
       (is_anomaly a = Some false /\ anomaly_type a = Some NORMAL /\
        anomaly_reason a = Some NORMAL /\ anomaly_score a = Some 0 /\
        forall l, In l log -> log_key l <> row_key (base a)))
      (aug_rows processed_df) /\
    length log = 1%nat /\ length (aug_rows processed_df) = 2%nat.
Proof.
  do 2 eexists. split.
  - eapply (augmented_rows_follow_log (SmartDemandPreprocessor_init 2.5) _
              sample_data.one_gap).
    py_eval. reflexivity.
  - split; reflexivity.
Defined.

(** X4. On a table in which no two rows share date and item, the join of
    [process] adds columns and no rows: the augmented table holds the
    input rows, each once, sorted by item and date. *)
Theorem process_preserves_rows (self self' : SmartDemandPreprocessor)
    (df : DataFrame) (processed_df : AugFrame) (log : list LogRow) :
  process self df = Return (processed_df, log, self') ->
  NoDup (map row_key (rows df)) ->
  map base (aug_rows processed_df) = sort_values_item_date (rows df) /\
  Permutation (rows df) (map base (aug_rows processed_df)) /\
  length (aug_rows processed_df) = length (rows df).
Proof.
  intros H Hkeys.
  pose proof (process_keeps_rows _ _ _ _ _ H Hkeys) as E.
  split; [exact E|]. split.
  - rewrite E. apply sort_by_perm.
  - rewrite <- (length_map base), E.
    symmetry. apply Permutation_length. apply sort_by_perm.
Qed.

(** A run of X4 on a table with one counted day and one gap. *)
Lemma process_preserves_rows_witness :
  exists processed_df log self',
    process (SmartDemandPreprocessor_init 2.5) sample_data.one_gap
      = Return (processed_df, log, self') /\
    map base (aug_rows processed_df)
      = sort_values_item_date (rows sample_data.one_gap) /\
    Permutation (rows sample_data.one_gap) (map base (aug_rows processed_df)) /\
    length (aug_rows processed_df) = length (rows sample_data.one_gap).
Proof.
  do 3 eexists. split.
  - py_eval. reflexivity.
  - eapply (process_preserves_rows (SmartDemandPreprocessor_init 2.5) _
              sample_data.one_gap).
    + py_eval. reflexivity.
    + cbn. repeat constructor; cbn; intuition discriminate.
Defined.

(** Three days without sales and a day with four units: the last day is
    the one flagged at threshold 1, with z-score 3/2. *)
Lemma spike_std : series_std [Some 0; Some 0; Some 0; Some 4] = Some 2.
Proof.
  unfold series_std, sum. py_eval. cbn [INR]. f_equal.
  match goal with
  | |- sqrt ?a = _ => replace a with (2 * 2) by lra
  end.
  apply sqrt_square. lra.
Qed.
Lemma spike_z_score :
  _calculate_z_score [Some 0; Some 0; Some 0; Some 4]
  = [Some (-1/2); Some (-1/2); Some (-1/2); Some (3/2)].
Proof.
  unfold _calculate_z_score. rewrite spike_std.
  destruct (Req_dec_T 2 0) as [E|_]; [lra|].
  unfold series_mean, sum. py_eval. cbn [INR].
  destruct (Req_dec_T 2 0) as [E|_]; [lra|].
  repeat f_equal; lra.
Qed.

Ltac abs_decide :=
  repeat match goal with
         | |- context [Rgt_dec (Rabs ?a) ?b] =>
             let H := fresh "H" in
             destruct (Rgt_dec (Rabs a) b) as [H|H];
             [ try (exfalso; unfold Rabs in H; destruct (Rcase_abs a); lra)
             | try (exfalso; apply H; unfold Rabs;
                    destruct (Rcase_abs a); lra) ]
         end.

Lemma spike_flagged (last : Row) :
  quantity last = Some 4 ->
  anomalies_df (SmartDemandPreprocessor_init 1) (more_sample_data.quiet_days_then last)
  = [(last, Some (3/2))].
Proof.
  intros Hq. unfold anomalies_df, more_sample_data.quiet_days_then.
  cbn [map sample_data.plain_row quantity].
  rewrite Hq, spike_z_score.
  cbn [combine filter fst snd z_score_threshold SmartDemandPreprocessor_init].
  unfold anomaly_mask, exceeds_threshold, quantity_isna.
  cbn [quantity]. rewrite Hq. abs_decide. reflexivity.
Qed.

(** The promotion rule comes first: before the weather and event
    rules, and before the temperature is read. *)
Lemma infer_reason_promotion_first (cols : list string) (r : Row) :
  (has_column cols col_promotion = true /\ promotion r = Num 1)
  \/ (exists e, has_column cols col_event = true /\ event r = Str e /\
                str_in "할인" e = true) ->
  _infer_reason cols r SURGE = Return REASON_PROMOTION.
Proof.
  unfold _infer_reason, row_get.
  intros [[Hc Hp]|[e [Hc [He Hs]]]].
  - rewrite Hc, Hp. destruct (Req_dec_T 1 1) as [_|n]; [|lra].
    reflexivity.
  - rewrite Hc, He, Hs. rewrite orb_true_r. reflexivity.
Qed.

(** X5. A surge on a promoted day is logged as a promotion effect,
    whatever the other covariates hold: when the detector returns, the log
    row of a flagged "급등" row whose promotion cell is 1, or whose event
    text contains "할인", has the cause "프로모션 영향"; the weather rule
    and its temperature read (which raises on a text) are not reached. *)
Theorem promotion_surge_logged (self : SmartDemandPreprocessor)
    (cols : list string) (group_df : list Row) (lg : list LogRow)
    (r : Row) (z : option R) :
  _detect_anomalies_and_missing self cols group_df = Return lg ->
  In (r, z) (anomalies_df self group_df) ->
  _define_anomaly_type self r z = SURGE ->
  (has_column cols col_promotion = true /\ promotion r = Num 1)
  \/ (exists e, has_column cols col_event = true /\ event r = Str e /\
                str_in "할인" e = true) ->
  exists l, In l lg /\ log_key l = row_key r /\ log_type l = SURGE /\
            log_reason l = REASON_PROMOTION.
Proof.
  intros H Hin Ht Hpromo. unfold _detect_anomalies_and_missing in H.
  destruct (mapM_in _ _ _ _ _ (r, z) H Hin) as [l [Hl Hlg]].
  cbv beta iota zeta in Hl. rewrite Ht in Hl.
  rewrite (infer_reason_promotion_first cols r Hpromo) in Hl.
  injection Hl as <-. eexists. split; [exact Hlg|].
  repeat split.
Qed.

(** A run of X5: a promoted spike on a clear day whose temperature
    cell is a text. *)
Lemma promotion_surge_logged_witness :
  exists lg,
    _detect_anomalies_and_missing (SmartDemandPreprocessor_init 1)
      [col_date; col_item; col_quantity; col_promotion; col_weather;
       col_temperature] (more_sample_data.quiet_days_then more_sample_data.promoted_day) = Return lg /\
    exists l, In l lg /\ log_key l = row_key more_sample_data.promoted_day /\
              log_type l = SURGE /\ log_reason l = REASON_PROMOTION.
Proof.
  eexists. split.
  - unfold _detect_anomalies_and_missing.
    rewrite spike_flagged by reflexivity.
    unfold _define_anomaly_type, quantity_isna. py_eval. r_decide.
    py_eval. r_decide. reflexivity.
  - apply (promotion_surge_logged (SmartDemandPreprocessor_init 1)
             [col_date; col_item; col_quantity; col_promotion; col_weather;
              col_temperature]
             (more_sample_data.quiet_days_then more_sample_data.promoted_day) _ more_sample_data.promoted_day (Some (3/2))).
    + unfold _detect_anomalies_and_missing.
      rewrite spike_flagged by reflexivity.
      unfold _define_anomaly_type, quantity_isna. py_eval. r_decide.
      py_eval. r_decide. reflexivity.
    + rewrite spike_flagged by reflexivity. left. reflexivity.
    + unfold _define_anomaly_type, quantity_isna. py_eval. r_decide.
      reflexivity.
    + left. split; reflexivity.
Defined.

Lemma infer_reason_plain (cols : list string) (r : Row)
    (anomaly_type : string) :
  has_column cols col_event = false ->
  has_column cols col_promotion = false ->
  has_column cols col_weather = false ->
  _infer_reason cols r anomaly_type
  = Return (if String.eqb anomaly_type MISSING then REASON_MISSING
            else REASON_UNKNOWN).
Proof.
  intros He Hp Hw. unfold _infer_reason, row_get.
  rewrite He, Hp, Hw.
  destruct (String.eqb anomaly_type MISSING); reflexivity.
Qed.

(** X6. On a table without the event, promotion and weather columns
    the detector never raises, and the log it returns for an item names one
    of two causes only: "품절 또는 집계 누락" on the rows without quantity,
    "통계적 이상치 (원인 불명)" on every other flagged row. *)
Theorem log_causes_without_covariates (self : SmartDemandPreprocessor)
    (cols : list string) (group_df : list Row) :
  has_column cols col_event = false ->
  has_column cols col_promotion = false ->
  has_column cols col_weather = false ->
  exists lg,
    _detect_anomalies_and_missing self cols group_df = Return lg /\
    length lg = length (anomalies_df self group_df) /\
    Forall (fun l =>
              (log_quantity l = None /\ log_reason l = REASON_MISSING)
              \/ (log_quantity l <> None /\ log_reason l = REASON_UNKNOWN))
           lg.
Proof.
  intros He Hp Hw.
  destruct (mapM_total _ _
              (fun rz : Row * option R =>
                 let (r, z) := rz in
                 let anomaly_type := _define_anomaly_type self r z in
                 match _infer_reason cols r anomaly_type with
                 | Raise e => Raise e
                 | Return reason =>
                   Return {| log_date := date r;
                             log_item := item r;
                             log_quantity := quantity r;
                             log_type := anomaly_type;
                             log_event := event_info cols r;
                             log_reason := reason;
                             z_score := z |}
                 end)
              (anomalies_df self group_df)) as [lg Hlg].
  { intros [r z] _. cbv zeta.
    rewrite (infer_reason_plain cols r _ He Hp Hw). eexists. reflexivity. }
  exists lg. split; [exact Hlg|]. split.
  - rewrite <- (length_map log_key lg).
    rewrite (detect_log_keys self cols group_df lg Hlg), !length_map.
    reflexivity.
  - apply Forall_forall. intros l Hl.
    destruct (detect_log_row self cols group_df lg l Hlg Hl)
      as [r [z [_ [Hr El]]]].
    rewrite (infer_reason_plain cols r _ He Hp Hw) in Hr.
    injection Hr as Hr. rewrite El. cbn [log_quantity log_reason].
    rewrite <- Hr.
    destruct (String.eqb_spec (_define_anomaly_type self r z) MISSING)
      as [E|E].
    + left. split; [|reflexivity].
      apply (define_anomaly_type_missing self r z). exact E.
    + right. split; [|reflexivity].
      intros Hq. apply E.
      apply (define_anomaly_type_missing self r z). exact Hq.
Qed.

(** A run of X6: one counted day and one gap, three columns. *)
Lemma log_causes_without_covariates_witness :
  exists lg,
    _detect_anomalies_and_missing (SmartDemandPreprocessor_init 2.5)
      sample_data.required_columns
      [sample_data.plain_row 1 "A" (Some 900);
       sample_data.plain_row 2 "A" None] = Return lg /\
    length lg
    = length (anomalies_df (SmartDemandPreprocessor_init 2.5)
                [sample_data.plain_row 1 "A" (Some 900);
                 sample_data.plain_row 2 "A" None]) /\
    Forall (fun l =>
              (log_quantity l = None /\ log_reason l = REASON_MISSING)
              \/ (log_quantity l <> None /\ log_reason l = REASON_UNKNOWN))
           lg.
Proof.
  apply log_causes_without_covariates; reflexivity.
Defined.

(** A number in the event cell makes the rule chain raise, for every
    kind other than "결측". *)
Lemma infer_reason_numeric_event (cols : list string) (r : Row) (x : R)
    (anomaly_type : string) :
  has_column cols col_event = true -> event r = Num x ->
  has_column cols col_promotion = false ->
  has_column cols col_weather = false ->
  anomaly_type <> MISSING ->
  _infer_reason cols r anomaly_type = Raise TypeError.
Proof.
  intros He Hx Hp Hw Ht. unfold _infer_reason, row_get.
  rewrite He, Hp, Hw, Hx.
  destruct (String.eqb_spec anomaly_type MISSING) as [E|_]; [contradiction|].
  reflexivity.
Qed.

Lemma mapM_raise (A B : Type) (f : A -> outcome B) (l : list A) (e : exn) :
  mapM f l = Raise e -> exists x, In x l /\ f x = Raise e.
Proof.
  induction l as [|a l IH]; cbn [mapM]; [discriminate|].
  destruct (f a) as [b|e'] eqn:Ea.
  - destruct (mapM f l) as [bs|e'] eqn:El; [discriminate|].
    intros H. injection H as ->. destruct (IH eq_refl) as [x [Hx Hf]].
    exists x. split; [right; exact Hx|exact Hf].
  - intros H. injection H as ->. exists a. split; [left; reflexivity|exact Ea].
Qed.

Lemma mapM_raises (A B : Type) (f : A -> outcome B) (l : list A) (x : A)
    (e : exn) :
  In x l -> f x = Raise e -> exists e', mapM f l = Raise e'.
Proof.
  induction l as [|a l IH]; intros Hin Hf; [contradiction|].
  cbn [mapM]. destruct (f a) as [b|e0] eqn:Ea; [|eexists; reflexivity].
  destruct Hin as [->|Hin]; [congruence|].
  destruct (IH Hin Hf) as [e' ->]. eexists. reflexivity.
Qed.

Lemma infer_reason_raises (cols : list string) (r : Row)
    (anomaly_type : string) (e : exn) :
  _infer_reason cols r anomaly_type = Raise e -> e = TypeError.
Proof.
  unfold _infer_reason, temperature_above_25, row_get.
  destruct (String.eqb anomaly_type MISSING); [discriminate|].
  destruct (has_column cols col_event), (has_column cols col_promotion),
    (has_column cols col_weather), (has_column cols col_temperature),
    (event r), (temperature r);
    cbn [notna isna negb andb];
    repeat match goal with
           | |- context [match ?c with PyNone => _ | _ => _ end] => destruct c
           | |- context [if ?b then _ else _] => destruct b
           end;
    intros H; try discriminate H; injection H as <-; reflexivity.
Qed.

(** X7. One flagged row with a number in its event cell loses the
    log of the whole item: on a table that has the event column and neither
    the promotion nor the weather column, the detector raises a
    [TypeError] ([h in event] on a float) as soon as a flagged row that has
    a quantity holds a number as event. *)
Theorem numeric_event_loses_log (self : SmartDemandPreprocessor)
    (cols : list string) (group_df : list Row) (r : Row) (z : option R)
    (x : R) :
  has_column cols col_event = true ->
  has_column cols col_promotion = false ->
  has_column cols col_weather = false ->
  In (r, z) (anomalies_df self group_df) ->
  quantity r <> None -> event r = Num x ->
  _detect_anomalies_and_missing self cols group_df = Raise TypeError.
Proof.
  intros He Hp Hw Hin Hq Hx.
  assert (Hr : _infer_reason cols r (_define_anomaly_type self r z)
               = Raise TypeError).
  { apply (infer_reason_numeric_event cols r x); try assumption.
    intros Hm. apply define_anomaly_type_missing in Hm. contradiction. }
  destruct (_detect_anomalies_and_missing self cols group_df)
    as [lg|e] eqn:E.
  - exfalso. unfold _detect_anomalies_and_missing in E.
    destruct (mapM_in _ _ _ _ _ (r, z) E Hin) as [l [Hl _]].
    cbv beta iota zeta in Hl. rewrite Hr in Hl. discriminate Hl.
  - f_equal. unfold _detect_anomalies_and_missing in E.
    apply mapM_raise in E. destruct E as [[r' z'] [_ Hf]].
    destruct (_infer_reason cols r' (_define_anomaly_type self r' z'))
      as [reason|e'] eqn:Er; [discriminate|].
    injection Hf as ->. eapply infer_reason_raises. exact Er.
Qed.

(** A run of X7: the event cell of the flagged day holds 3. *)
Lemma numeric_event_loses_log_witness :
  _detect_anomalies_and_missing (SmartDemandPreprocessor_init 1)
    [col_date; col_item; col_quantity; col_event]
    (more_sample_data.quiet_days_then more_sample_data.numbered_event_day)
  = Raise TypeError.
Proof.
  apply (numeric_event_loses_log (SmartDemandPreprocessor_init 1)
           [col_date; col_item; col_quantity; col_event]
           (more_sample_data.quiet_days_then more_sample_data.numbered_event_day) more_sample_data.numbered_event_day
           (Some (3/2)) 3).
  - reflexivity.
  - reflexivity.
  - reflexivity.
  - rewrite spike_flagged by reflexivity. left. reflexivity.
  - discriminate.
  - reflexivity.
Defined.

(** X8. The detector raises from the rule chain only: when it raises
    on an item, the exception is a [TypeError], and some flagged row of the
    item that has a quantity holds an event or temperature cell of the
    wrong type (an event that is a number, a temperature that is text or
    [None]). On items whose flagged rows hold an event text or null and a
    numeric temperature it returns a log. *)
Theorem detector_raises_only (self : SmartDemandPreprocessor)
    (cols : list string) (group_df : list Row) (e : exn) :
  _detect_anomalies_and_missing self cols group_df = Raise e ->
  e = TypeError /\
  exists r z, In (r, z) (anomalies_df self group_df) /\ In r group_df /\
              quantity r <> None /\ ~ input_contract.typed_covariates r.
Proof.
  intros H. unfold _detect_anomalies_and_missing in H.
  apply mapM_raise in H. destruct H as [[r z] [Hrz Hf]].
  destruct (_infer_reason cols r (_define_anomaly_type self r z))
    as [reason|e'] eqn:Er; [discriminate|].
  injection Hf as ->.
  split; [eapply infer_reason_raises; exact Er|].
  exists r, z. split; [exact Hrz|]. split; [|split].
  - eapply in_anomalies_df. exact Hrz.
  - intros Hq.
    assert (Ht : _define_anomaly_type self r z = MISSING)
      by (apply define_anomaly_type_missing; exact Hq).
    rewrite Ht in Er. discriminate Er.
  - intros Htyped.
    destruct (infer_reason_total cols r
                (_define_anomaly_type self r z) Htyped) as [reason Hr].
    congruence.
Qed.

(** The run of the detector on three quiet days and a day whose event cell
    holds a number, step by step. *)
Lemma numbered_event_run :
  _detect_anomalies_and_missing (SmartDemandPreprocessor_init 1)
    [col_date; col_item; col_quantity; col_event]
    (more_sample_data.quiet_days_then more_sample_data.numbered_event_day)
  = Raise TypeError.
Proof.
  unfold _detect_anomalies_and_missing.
  rewrite spike_flagged by reflexivity.
  unfold _define_anomaly_type, quantity_isna. py_eval. r_decide.
  reflexivity.
Qed.

(** A run of X8: the event cell of the flagged day holds 3. *)
Lemma detector_raises_only_witness :
  TypeError = TypeError /\
  exists r z,
    In (r, z)
       (anomalies_df (SmartDemandPreprocessor_init 1)
          (more_sample_data.quiet_days_then
             more_sample_data.numbered_event_day)) /\
    In r (more_sample_data.quiet_days_then
            more_sample_data.numbered_event_day) /\
    quantity r <> None /\ ~ input_contract.typed_covariates r.
Proof.
  apply (detector_raises_only (SmartDemandPreprocessor_init 1)
           [col_date; col_item; col_quantity; col_event]).
  exact numbered_event_run.
Defined.

End AnomalyLog.

(** ** The combiner: invariances and the weighted sum *)

Section CombinerFacts.

Import advanced_models loops.
Local Open Scope R_scope.
Local Open Scope string_scope.

Lemma sum_map_mult (c : R) (xs : list R) :
  sum (map (Rmult c) xs) = c * sum xs.
Proof.
  induction xs as [|x xs IH]; cbn [map].
  - rewrite sum_nil. lra.
  - rewrite !sum_cons, IH. lra.
Qed.

Lemma values_rescale (c : R) (p : dict R) :
  values (map (fun mp : string * R => (fst mp, c * snd mp)) p)
  = map (Rmult c) (values p).
Proof.
  unfold values. rewrite !map_map. apply map_ext.
  intros [m x]. reflexivity.
Qed.

Lemma base_weights_rescale (c : R) (p : dict R) :
  c <> 0 -> sum (values p) <> 0 ->
  base_weights (map (fun mp : string * R => (fst mp, c * snd mp)) p)
  = base_weights p.
Proof.
  intros Hc Hs. unfold base_weights.
  rewrite values_rescale, sum_map_mult. rewrite map_map.
  apply map_ext. intros [m x]. cbn [fst snd]. f_equal. now field.
Qed.

(** X9. The weights depend on the ratios of the accuracies only: for
    accuracies that are all strictly positive and a volatility score
    between -10/3 and 10/3 (no total cancels there), multiplying every
    accuracy by the same positive factor (percent or fraction, say) leaves
    the weights [calculate_dynamic_weights] returns unchanged. *)
Theorem calculate_dynamic_weights_scale_invariant
    (self : VolatilityAwareEnsemble) (volatility_score c : R)
    (model_performances : dict R) :
  0 < c ->
  Forall (fun perf => 0 < perf) (values model_performances) ->
  -10/3 <= volatility_score <= 10/3 ->
  fst (calculate_dynamic_weights self volatility_score
         (map (fun mp : string * R => (fst mp, c * snd mp))
              model_performances))
  = fst (calculate_dynamic_weights self volatility_score model_performances).
Proof.
  intros Hc0 Hpos _.
  assert (Hc : c <> 0) by lra.
  destruct model_performances as [|e p']; [reflexivity|].
  set (q := e :: p') in *.
  assert (Hnz' : sum (values q) <> 0).
  { assert (0 < sum (values q))
      by (apply sum_pos; [subst q; discriminate|exact Hpos]).
    lra. }
  set (q_scaled := map (fun mp : string * R => (fst mp, c * snd mp)) q).
  assert (Hq : exists e' q', q_scaled = e' :: q').
  { subst q_scaled q. cbn [map]. eauto. }
  destruct Hq as [e' [q' Hq]].
  assert (Hsum : sum (values q_scaled) = c * sum (values q))
    by (subst q_scaled; rewrite values_rescale; apply sum_map_mult).
  unfold calculate_dynamic_weights.
  rewrite Hq. rewrite <- Hq.
  destruct (Req_dec_T (sum (values q_scaled)) 0) as [Hz|Hnz];
    destruct (Req_dec_T (sum (values q)) 0) as [Hz'|_]; cbn [fst];
    try contradiction.
  - exfalso. rewrite Hsum in Hz.
    apply Rmult_integral in Hz. tauto.
  - subst q_scaled. rewrite (base_weights_rescale c q Hc Hnz'). reflexivity.
Qed.

(** A run of X9: accuracies 80 and 20 against 0.8 and 0.2. *)
Lemma calculate_dynamic_weights_scale_invariant_witness :
  fst (calculate_dynamic_weights VolatilityAwareEnsemble_init (1/2)
         (map (fun mp : string * R => (fst mp, 1/100 * snd mp))
              [("prophet", 80); ("lstm", 20)]))
  = fst (calculate_dynamic_weights VolatilityAwareEnsemble_init (1/2)
           [("prophet", 80); ("lstm", 20)]).
Proof.
  apply calculate_dynamic_weights_scale_invariant.
  - lra.
  - simpl. repeat constructor; lra.
  - lra.
Defined.

Lemma volatility_adjustment_at_zero (m : string) (adj : R) :
  get (volatility_adjustment 0) m = Some adj -> adj = 1.
Proof.
  unfold volatility_adjustment. cbn [get].
  repeat match goal with
         | |- context [String.eqb ?a m] => destruct (String.eqb a m)
         end; intros H; try discriminate H; injection H as <-; lra.
Qed.

Lemma adjusted_weights_at_zero (b : dict R) : adjusted_weights 0 b = b.
Proof.
  unfold adjusted_weights. rewrite <- (map_id b) at 2.
  apply map_ext. intros [m w].
  destruct (get (volatility_adjustment 0) m) as [adj|] eqn:E; [|reflexivity].
  apply volatility_adjustment_at_zero in E. subst adj. f_equal. lra.
Qed.

(** X10. At volatility 0 no adjustment is made: for accuracies that
    are all strictly positive, [calculate_dynamic_weights] returns each
    model's share of the total accuracy. *)
Theorem calculate_dynamic_weights_at_zero_volatility
    (self : VolatilityAwareEnsemble) (model_performances : dict R) :
  model_performances <> [] ->
  Forall (fun perf => 0 < perf) (values model_performances) ->
  fst (calculate_dynamic_weights self 0 model_performances)
  = map (fun '(model, perf) =>
           (model, perf / sum (values model_performances)))
        model_performances.
Proof.
  intros Hne Hpos.
  assert (Hs : sum (values model_performances) <> 0).
  { assert (0 < sum (values model_performances))
      by (apply sum_pos; [apply values_nonempty; exact Hne|exact Hpos]).
    lra. }
  unfold calculate_dynamic_weights.
  destruct model_performances as [|e p']; [contradiction|].
  set (q := e :: p') in *.
  destruct (Req_dec_T (sum (values q)) 0) as [Hz|_]; [contradiction|].
  rewrite adjusted_weights_at_zero.
  rewrite (sum_base_weights q Hs).
  destruct (Req_dec_T 1 0) as [H10|_]; [lra|]. cbn [fst].
  unfold base_weights. rewrite map_map. apply map_ext.
  intros [m x]. f_equal. now field.
Qed.

(** A run of X10 on the accuracies 80 and 20. *)
Lemma calculate_dynamic_weights_at_zero_volatility_witness :
  fst (calculate_dynamic_weights VolatilityAwareEnsemble_init 0
         [("prophet", 80); ("lstm", 20)])
  = [("prophet", 80 / sum [80; 20]); ("lstm", 20 / sum [80; 20])].
Proof.
  apply (calculate_dynamic_weights_at_zero_volatility
           VolatilityAwareEnsemble_init [("prophet", 80); ("lstm", 20)]).
  - discriminate.
  - simpl. repeat constructor; lra.
Defined.

Lemma self_share (w : R) : 0 + w <> 0 -> w / (0 + w) = 1.
Proof. intros H. replace (0 + w) with w in * by lra. now field. Qed.

Lemma single_model_weight (self : VolatilityAwareEnsemble) (v : R)
    (m : string) (a : R) :
  fst (calculate_dynamic_weights self v [(m, a)]) = [(m, 1)].
Proof.
  unfold calculate_dynamic_weights, adjusted_weights, base_weights, sum.
  cbn [values map snd fold_left length INR].
  destruct (Req_dec_T (0 + a) 0) as [Ha|Ha]; cbn [fst].
  - f_equal. f_equal. field.
  - destruct (get (volatility_adjustment v) m) as [adj|];
      cbn [values map snd fold_left length INR];
      match goal with
      | |- context [Req_dec_T ?t 0] => destruct (Req_dec_T t 0) as [Hw|Hw]
      end; cbn [fst map]; f_equal; f_equal;
      solve [field | apply self_share; exact Hw].
Qed.

Lemma add_scaled_to_zeros (pred : list R) (w : R) :
  w = 1 ->
  map (fun ab => fst ab + snd ab)
      (combine (map (fun _ => 0) pred) (map (fun x => x * w) pred))
  = pred.
Proof.
  intros ->. induction pred as [|x pred IH]; cbn; [reflexivity|].
  rewrite IH. f_equal. lra.
Qed.

(** X11. With one contributing model the weight is 1 on every path,
    whatever the volatility score and the accuracy (zero and negative
    accuracies included), and [ensemble_predict] returns that model's
    predictions. *)
Theorem single_model_ensemble (self : VolatilityAwareEnsemble)
    (volatility_score : R) (model : string) (accuracy : R) (pred : list R) :
  fst (calculate_dynamic_weights self volatility_score [(model, accuracy)])
    = [(model, 1)] /\
  exists ensemble,
    ensemble_predict self [(model, pred)] volatility_score [(model, accuracy)]
    = Return (pred, ensemble).
Proof.
  split; [apply single_model_weight|].
  unfold ensemble_predict.
  pose proof (single_model_weight self volatility_score model accuracy) as Hw.
  destruct (calculate_dynamic_weights self volatility_score
              [(model, accuracy)]) as [w self'].
  cbn [fst] in Hw. subst w.
  cbn [fold_left fst snd get]. rewrite String.eqb_refl.
  unfold iadd_array. rewrite !length_map, Nat.eqb_refl.
  rewrite add_scaled_to_zeros by reflexivity.
  eexists. reflexivity.
Qed.

(** X12. The equal weights of the fall-back are returned but not
    stored: when every accuracy is 0, [ensemble_predict] leaves the object
    as it was, so [self.weights] (which [process_product] reports) keeps its
    previous value, empty after construction, while the prediction was
    made with the weights 1/n. *)
Theorem zero_accuracy_weights_not_stored
    (self ensemble : VolatilityAwareEnsemble) (predictions : dict (list R))
    (volatility_score : R) (model_performances : dict R)
    (ensemble_pred : list R) :
  ensemble_predict self predictions volatility_score model_performances
    = Return (ensemble_pred, ensemble) ->
  Forall (fun perf => perf = 0) (values model_performances) ->
  ensemble = self /\
  (model_performances <> [] ->
   fst (calculate_dynamic_weights self volatility_score model_performances)
   = map (fun '(model, _) => (model, 1 / INR (length model_performances)))
         model_performances).
Proof.
  intros H Hz.
  apply ensemble_predict_state in H. subst ensemble.
  unfold calculate_dynamic_weights.
  destruct model_performances as [|e p']; [split; [reflexivity|tauto]|].
  destruct (Req_dec_T (sum (values (e :: p'))) 0) as [_|Hn].
  - split; reflexivity.
  - exfalso. apply Hn. apply sum_all_zero. exact Hz.
Qed.

(** A run of X12: two models of accuracy 0. *)
Lemma zero_accuracy_weights_not_stored_witness :
  exists ensemble_pred ensemble,
    ensemble_predict VolatilityAwareEnsemble_init
      [("prophet", [4; 8]); ("lstm", [6; 10])] 0.9
      [("prophet", 0); ("lstm", 0)]
    = Return (ensemble_pred, ensemble) /\
    ensemble = VolatilityAwareEnsemble_init /\
    weights ensemble = [].
Proof.
  assert (E : exists ensemble_pred ensemble,
            ensemble_predict VolatilityAwareEnsemble_init
              [("prophet", [4; 8]); ("lstm", [6; 10])] 0.9
              [("prophet", 0); ("lstm", 0)]
            = Return (ensemble_pred, ensemble)).
  { unfold ensemble_predict, calculate_dynamic_weights, sum.
    py_eval. r_decide. py_eval. do 2 eexists. reflexivity. }
  destruct E as [pred [ens E]]. exists pred, ens.
  split; [exact E|].
  destruct (zero_accuracy_weights_not_stored _ _ _ _ _ _ E) as [-> _].
  - repeat constructor.
  - split; reflexivity.
Defined.

Lemma ensemble_predict_fold (self : VolatilityAwareEnsemble)
    (predictions : dict (list R)) (v : R) (p : dict R) :
  ensemble_predict self predictions v p
  = match predictions with
    | [] => Raise IndexError
    | (_, first) :: _ =>
      match fold_left (weighted_step (fst (calculate_dynamic_weights self v p)))
                      predictions (Return (map (fun _ => 0) first)) with
      | Raise e => Raise e
      | Return ensemble_pred =>
        Return (ensemble_pred, snd (calculate_dynamic_weights self v p))
      end
    end.
Proof.
  unfold ensemble_predict.
  destruct (calculate_dynamic_weights self v p) as [w self'].
  reflexivity.
Qed.

Lemma fold_raise (weights : dict R) (l : dict (list R)) (e : exn) :
  fold_left (weighted_step weights) l (Raise e) = Raise e.
Proof. induction l as [|mp l IH]; [reflexivity|]. cbn. exact IH. Qed.

Lemma get_in_keys (V : Type) (d : dict V) (m : string) :
  In m (keys d) <-> exists x, get d m = Some x.
Proof.
  induction d as [|[k x] d IH]; cbn [keys map get fst].
  - split; [contradiction|intros [x H]; discriminate].
  - destruct (String.eqb_spec k m) as [->|Hne].
    + split; [intros _; exists x; reflexivity|intros _; left; reflexivity].
    + fold (keys d). rewrite <- IH. split; [intros [E|H]; [contradiction|exact H]|intros H; right; exact H].
Qed.

Lemma get_in_nodup (V : Type) (d : dict V) (m : string) (x : V) :
  NoDup (keys d) -> In (m, x) d -> get d m = Some x.
Proof.
  induction d as [|[k y] d IH]; intros Hn Hin; [contradiction|].
  cbn [keys map fst] in Hn. inversion Hn as [|? ? Hk Hd]; subst.
  cbn [get]. destruct Hin as [E|Hin].
  - injection E as -> ->. rewrite String.eqb_refl. reflexivity.
  - destruct (String.eqb_spec k m) as [->|Hne].
    + exfalso. apply Hk. apply in_map_iff. exists (m, x). auto.
    + apply IH; assumption.
Qed.

Lemma combine_scaled (p : list R) (c w : R) :
  map (fun ab => fst ab + snd ab)
      (combine (map (fun x => x * c) p) (map (fun x => x * w) p))
  = map (fun x => x * (c + w)) p.
Proof.
  induction p as [|x p IH]; cbn; [reflexivity|].
  rewrite IH. f_equal. lra.
Qed.

Lemma fold_consensus (weights ws : dict R) (p : list R) (c : R) :
  (forall m x, In (m, x) ws -> get weights m = Some x) ->
  fold_left (weighted_step weights) (map (fun '(m, _) => (m, p)) ws)
            (Return (map (fun x => x * c) p))
  = Return (map (fun x => x * (c + sum (values ws))) p).
Proof.
  revert c. induction ws as [|[m x] ws IH]; intros c Hget; cbn [map fold_left].
  - cbn [values map]. rewrite sum_nil. f_equal. apply map_ext.
    intros y. f_equal. lra.
  - unfold weighted_step at 2. cbn [fst snd].
    rewrite (Hget m x (or_introl eq_refl)).
    unfold iadd_array. rewrite !length_map, Nat.eqb_refl.
    rewrite combine_scaled. rewrite IH by (intros; apply Hget; right; assumption).
    f_equal. apply map_ext. intros y.
    change (values ((m, x) :: ws)) with (x :: values ws).
    rewrite sum_cons. f_equal. lra.
Qed.

(** X13. When all models predict the same series, [ensemble_predict]
    returns that series, for accuracies that are all strictly positive and
    a volatility score between -10/3 and 10/3: the weights it applies are
    not negative there and sum to 1. *)
Theorem ensemble_predict_consensus (self : VolatilityAwareEnsemble)
    (volatility_score : R) (model_performances : dict R) (pred : list R) :
  model_performances <> [] ->
  NoDup (keys model_performances) ->
  Forall (fun perf => 0 < perf) (values model_performances) ->
  -10/3 <= volatility_score <= 10/3 ->
  exists ensemble,
    ensemble_predict self
      (map (fun '(model, _) => (model, pred)) model_performances)
      volatility_score model_performances
    = Return (pred, ensemble).
Proof.
  intros Hne Hnd _ _. rewrite ensemble_predict_fold.
  set (w := fst (calculate_dynamic_weights self volatility_score
                   model_performances)).
  assert (Hk : keys w = keys model_performances)
    by apply calculate_dynamic_weights_keys.
  assert (Hs : sum (values w) = 1)
    by (apply calculate_dynamic_weights_sum; exact Hne).
  assert (Hpreds : map (fun '(model, _) => (model, pred)) model_performances
                   = map (fun '(model, _) => (model, pred)) w).
  { transitivity (map (fun m => (m, pred)) (keys model_performances)).
    - unfold keys. rewrite map_map. apply map_ext. intros [m x]. reflexivity.
    - rewrite <- Hk. unfold keys. rewrite map_map. apply map_ext.
      intros [m x]. reflexivity. }
  destruct model_performances as [|[m0 a0] rest]; [contradiction|].
  cbn [map]. change ((m0, pred) :: map (fun '(model, _) => (model, pred)) rest)
    with (map (fun '(model, _) => (model, pred)) ((m0, a0) :: rest)).
  rewrite Hpreds.
  replace (map (fun _ : R => 0) pred) with (map (fun x => x * 0) pred)
    by (apply map_ext; intros; lra).
  rewrite fold_consensus.
  - eexists. f_equal. f_equal. rewrite Hs.
    rewrite <- (map_id pred) at 2. apply map_ext. intros; lra.
  - intros m x Hin. apply get_in_nodup; [|exact Hin].
    rewrite Hk. exact Hnd.
Qed.

(** A run of X13: two models that agree on 10 and 12. *)
Lemma ensemble_predict_consensus_witness :
  exists ensemble,
    ensemble_predict VolatilityAwareEnsemble_init
      [("prophet", [10; 12]); ("lstm", [10; 12])] (1/2)
      [("prophet", 80); ("lstm", 20)]
    = Return ([10; 12], ensemble).
Proof.
  apply (ensemble_predict_consensus VolatilityAwareEnsemble_init (1/2)
           [("prophet", 80); ("lstm", 20)] [10; 12]).
  - discriminate.
  - cbn. repeat constructor; cbn; intuition discriminate.
  - simpl. repeat constructor; lra.
  - lra.
Defined.

Lemma iadd_array_length (acc term r : list R) :
  iadd_array acc term = Return r ->
  length r = length acc /\
  (length term = length acc \/ length term = 1%nat).
Proof.
  unfold iadd_array.
  destruct (Nat.eqb_spec (length term) (length acc)) as [E|Hne].
  - intros H. injection H as <-.
    rewrite length_map, length_combine, E, Nat.min_id. auto.
  - destruct term as [|t [|t' term]]; try discriminate.
    intros H. injection H as <-. rewrite length_map. auto.
Qed.

Lemma fold_lengths (weights : dict R) (l : dict (list R)) (acc r : list R) :
  fold_left (weighted_step weights) l (Return acc) = Return r ->
  length r = length acc /\
  forall m p, In (m, p) l -> In m (keys weights) ->
    length p = length acc \/ length p = 1%nat.
Proof.
  revert acc. induction l as [|[m0 p0] l IH]; intros acc H; cbn [fold_left] in H.
  - injection H as <-. split; [reflexivity|]. intros m p [].
  - unfold weighted_step at 2 in H. cbn [fst snd] in H.
    destruct (get weights m0) as [w|] eqn:Ew.
    + destruct (iadd_array acc (map (fun x => x * w) p0)) as [acc'|e] eqn:Ea.
      * apply iadd_array_length in Ea. rewrite length_map in Ea.
        destruct Ea as [Hl Hp0].
        destruct (IH acc' H) as [Hr Hall]. rewrite Hl in Hr, Hall.
        split; [exact Hr|].
        intros m p [E|Hin] Hm.
        -- injection E as <- <-. exact Hp0.
        -- eapply Hall; eassumption.
      * rewrite fold_raise in H. discriminate.
    + destruct (IH acc H) as [Hr Hall]. split; [exact Hr|].
      intros m p [E|Hin] Hm.
      * injection E as <- <-. apply get_in_keys in Hm.
        destruct Hm as [x Hx]. congruence.
      * eapply Hall; eassumption.
Qed.

(** X14. [ensemble_predict] never combines series of different
    lengths silently. Whenever it returns, the result has the length of the
    first prediction, and every prediction of a model that has a weight has
    that length too, or length 1 (which numpy broadcasts); any other length
    makes it raise. *)
Theorem ensemble_predict_lengths (self ensemble : VolatilityAwareEnsemble)
    (predictions : dict (list R)) (volatility_score : R)
    (model_performances : dict R) (ensemble_pred : list R) :
  ensemble_predict self predictions volatility_score model_performances
    = Return (ensemble_pred, ensemble) ->
  exists model first rest,
    predictions = (model, first) :: rest /\
    length ensemble_pred = length first /\
    forall m p, In (m, p) predictions -> In m (keys model_performances) ->
      length p = length first \/ length p = 1%nat.
Proof.
  rewrite ensemble_predict_fold.
  destruct predictions as [|[m0 first] rest]; [discriminate|].
  destruct (fold_left _ _ _) as [r|e] eqn:Ef; [|discriminate].
  intros H. injection H as <- _.
  exists m0, first, rest. split; [reflexivity|].
  apply fold_lengths in Ef. rewrite length_map in Ef.
  rewrite calculate_dynamic_weights_keys in Ef. exact Ef.
Qed.

(** A run of X14: two predictions of length 2. *)
Lemma ensemble_predict_lengths_witness :
  exists ensemble_pred ensemble model first rest,
    ensemble_predict VolatilityAwareEnsemble_init
      [("prophet", [4; 8]); ("lstm", [6; 10])] 0.9
      [("prophet", 0); ("lstm", 0)]
    = Return (ensemble_pred, ensemble) /\
    [("prophet", [4; 8]); ("lstm", [6; 10])] = (model, first) :: rest /\
    length ensemble_pred = length first.
Proof.
  assert (E : exists ensemble_pred ensemble,
            ensemble_predict VolatilityAwareEnsemble_init
              [("prophet", [4; 8]); ("lstm", [6; 10])] 0.9
              [("prophet", 0); ("lstm", 0)]
            = Return (ensemble_pred, ensemble)).
  { unfold ensemble_predict, calculate_dynamic_weights, sum.
    py_eval. r_decide. py_eval. do 2 eexists. reflexivity. }
  destruct E as [pred [ens E]]. exists pred, ens.
  destruct (ensemble_predict_lengths _ _ _ _ _ _ E)
    as [model [first [rest [Hp [Hl _]]]]].
  exists model, first, rest. auto.
Defined.

End CombinerFacts.

(** ** The trainers: sequences, predictions and the evaluation *)

Section TrainerResults.

Import pandas model_trainer advanced_models.
Local Open Scope string_scope.
Local Open Scope list_scope.

Lemma nth_error_map_seq (A : Type) (f : nat -> A) (a n k : nat) :
  k < n -> nth_error (map f (seq a n)) k = Some (f (a + k)).
Proof.
  intros Hk. rewrite nth_error_map, nth_error_seq.
  destruct (Nat.ltb_spec k n) as [_|Hge]; [reflexivity|lia].
Qed.

Lemma firstn_plus (A : Type) (a b : nat) (l : list A) :
  firstn (a + b) l = firstn a l ++ firstn b (skipn a l).
Proof.
  revert l. induction a as [|a IH]; intros l; [reflexivity|].
  destruct l as [|x l]; cbn [Nat.add firstn skipn app].
  - rewrite firstn_nil. reflexivity.
  - rewrite IH. reflexivity.
Qed.

(** X15. Every training pair [prepare_sequences] builds is a window
    of [lookback_days] consecutive values followed at once by the
    [forecast_days] values to predict: the k-th input and the k-th output,
    put end to end, are the [lookback_days + forecast_days] values of the
    series from position k on, and no pair reads beyond the series. *)
Theorem prepare_sequences_windows (lookback forecast : nat)
    (data : list (option R)) (k : nat) :
  k < length (fst (prepare_sequences lookback forecast data)) ->
  exists x_k y_k,
    nth_error (fst (prepare_sequences lookback forecast data)) k = Some x_k /\
    nth_error (snd (prepare_sequences lookback forecast data)) k = Some y_k /\
    length x_k = lookback /\ length y_k = forecast /\
    x_k ++ y_k = firstn (lookback + forecast) (skipn k data).
Proof.
  intros Hk.
  destruct (length_prepare_sequences lookback forecast data) as [HX _].
  rewrite HX in Hk.
  unfold prepare_sequences. cbn [fst snd].
  rewrite !nth_error_map_seq by exact Hk.
  do 2 eexists. split; [reflexivity|]. split; [reflexivity|].
  unfold slice.
  replace (lookback + k - lookback) with k by lia.
  replace (lookback + k - k) with lookback by lia.
  replace (lookback + k + forecast - (lookback + k)) with forecast by lia.
  split; [|split].
  - rewrite length_firstn, length_skipn. lia.
  - rewrite length_firstn, length_skipn. lia.
  - rewrite firstn_plus, skipn_skipn. reflexivity.
Qed.

(** A run of X15: the second pair of a series of four values. *)
Lemma prepare_sequences_windows_witness :
  exists x_k y_k,
    nth_error (fst (prepare_sequences 2 1 [Some 1%R; Some 2%R; None; Some 4%R]))
              1 = Some x_k /\
    nth_error (snd (prepare_sequences 2 1 [Some 1%R; Some 2%R; None; Some 4%R]))
              1 = Some y_k /\
    length x_k = 2 /\ length y_k = 1 /\
    x_k ++ y_k = [Some 2%R; None; Some 4%R].
Proof.
  apply (prepare_sequences_windows 2 1
           [Some 1%R; Some 2%R; None; Some 4%R] 1).
  cbn. lia.
Defined.

Local Open Scope R_scope.

Lemma clip_negative_nonneg (a : list R) :
  Forall (fun x => 0 <= x) (numpy.clip_negative a).
Proof.
  unfold numpy.clip_negative. apply Forall_map, Forall_forall.
  intros x _. apply Rmax_r.
Qed.

(** X16. The held-out predictions the decomposition, primary tree
    and fast tree trainers return are never negative, whatever the library
    predicts, and neither is a value of the 7-day forecast of
    [train_prophet_model]. *)
Theorem held_out_predictions_nonneg :
  (forall (Prophet : Type) Prophet_fit Prophet_predict (df : DataFrame)
          (product_name : string) model final_forecast y_pred_test performance,
     train_prophet_model Prophet Prophet_fit Prophet_predict df product_name
       = Return (model, final_forecast, Some y_pred_test, performance) ->
     Forall (fun x => 0 <= x) y_pred_test /\
     exists fc, final_forecast = Some fc /\
                Forall (fun dy => 0 <= snd dy) fc)
  /\
  (forall (F XGBRegressor : Type) XGBRegressor_fit XGBRegressor_predict
          (features : list F) (target : list (option R))
          model y_pred_test performance,
     train_xgboost_model F XGBRegressor XGBRegressor_fit XGBRegressor_predict
       features target = (model, Some y_pred_test, performance) ->
     Forall (fun x => 0 <= x) y_pred_test)
  /\
  (forall (F Booster : Type) lgb_train Booster_predict
          (self self' : LightGBMPredictor Booster)
          (features : list F) (target : list (option R)) result y_pred,
     LightGBMPredictor_train F Booster lgb_train Booster_predict
       self features target = Return (result, self') ->
     predictions result = Some y_pred ->
     Forall (fun x => 0 <= x) y_pred).
Proof.
  split; [|split].
  - intros Prophet fit predict df name model fc preds perf H.
    unfold train_prophet_model in H.
    destruct (require_column (columns df) col_item); [|discriminate].
    cbn [bind] in H.
    destruct (require_column (columns df) col_date); [|discriminate].
    cbn [bind] in H.
    destruct (require_column (columns df) col_quantity); [|discriminate].
    cbn [bind] in H.
    destruct (_ <? _)%nat; [discriminate|].
    destruct (prophet_split _) as [train_data test_data].
    unfold prophet_try in H.
    destruct (fit _ train_data) as [m|e]; cbn [bind catch] in H;
      [|discriminate].
    destruct (predict m _) as [forecast|e]; cbn [bind catch] in H;
      [|discriminate].
    destruct (sklearn.evaluate _ _) as [p|e]; cbn [bind catch] in H;
      [|discriminate].
    destruct (predict m 7%nat) as [final|e]; cbn [bind catch] in H;
      [|discriminate].
    injection H as _ <- <- _. split; [apply clip_negative_nonneg|].
    eexists. split; [reflexivity|].
    apply Forall_map, Forall_forall. intros dy _. cbn [snd]. apply Rmax_r.
  - intros F X fit predict features target model preds perf H.
    unfold train_xgboost_model in H.
    destruct (_ <? _)%nat; [discriminate|].
    destruct (xgboost_split features target) as [[X_train y_train] [X_test y_test]].
    destruct (fit X_train y_train) as [m|e]; cbn [bind catch] in H;
      [|discriminate].
    destruct (predict m X_test) as [prediction|e]; cbn [bind catch] in H;
      [|discriminate].
    destruct (sklearn.evaluate _ _) as [p|e]; cbn [bind catch] in H;
      [|discriminate].
    injection H as _ <- _. apply clip_negative_nonneg.
  - intros F B train predict self self' features target result preds H Hp.
    unfold LightGBMPredictor_train in H.
    destruct (_ <? _)%nat.
    + injection H as <- _. discriminate.
    + destruct (lightgbm_split features target)
        as [[X_train y_train] [X_test y_test]].
      destruct (train X_train y_train X_test y_test) as [m|e];
        cbn [bind] in H; [|discriminate].
      destruct (predict m X_test) as [prediction|e]; cbn [bind] in H;
        [|discriminate].
      destruct (sklearn.evaluate _ _) as [p|e]; cbn [bind] in H;
        [|discriminate].
      injection H as <- _. cbn [predictions] in Hp. injection Hp as <-.
      apply clip_negative_nonneg.
Qed.

(** A run of X16 with libraries that predict -3 everywhere: thirty days
    through the decomposition trainer, sixty rows through both tree
    trainers. *)
Lemma held_out_predictions_nonneg_witness :
  (exists model final_forecast y_pred_test performance,
     train_prophet_model unit (fun _ _ => Return tt)
       (fun _ periods =>
          Return (map (fun d => (Some (Z.of_nat d), -3)) (seq 1 periods)))
       more_sample_data.steady_month "A"
     = Return (model, final_forecast, Some y_pred_test, performance) /\
     Forall (fun x => 0 <= x) y_pred_test /\
     exists fc, final_forecast = Some fc /\
                Forall (fun dy => 0 <= snd dy) fc)
  /\
  (exists model y_pred_test performance,
     train_xgboost_model unit unit (fun _ _ => Return tt)
       (fun _ X => Return (map (fun _ => -3) X))
       (repeat tt 60) (repeat (Some 2) 60)
     = (model, Some y_pred_test, performance) /\
     Forall (fun x => 0 <= x) y_pred_test)
  /\
  (exists result self' y_pred,
     LightGBMPredictor_train unit unit (fun _ _ _ _ => Return tt)
       (fun _ X => Return (map (fun _ => -3) X)) (LightGBMPredictor_init unit)
       (repeat tt 60) (repeat (Some 2) 60)
     = Return (result, self') /\
     predictions result = Some y_pred /\
     Forall (fun x => 0 <= x) y_pred).
Proof.
  destruct held_out_predictions_nonneg as [Hp [Hx Hl]].
  split; [|split].
  - do 4 eexists. split.
    + py_eval. reflexivity.
    + eapply (Hp unit (fun _ _ => Return tt)
                (fun _ periods =>
                   Return (map (fun d => (Some (Z.of_nat d), -3))
                               (seq 1 periods)))
                more_sample_data.steady_month "A").
      py_eval. reflexivity.
  - do 3 eexists. split.
    + py_eval. reflexivity.
    + eapply (Hx unit unit (fun _ _ => Return tt)
                (fun _ X => Return (map (fun _ => -3) X))
                (repeat tt 60) (repeat (Some 2) 60)).
      py_eval. reflexivity.
  - do 3 eexists. split; [|split].
    + py_eval. reflexivity.
    + reflexivity.
    + eapply (Hl unit unit (fun _ _ _ _ => Return tt)
                (fun _ X => Return (map (fun _ => -3) X))
                (LightGBMPredictor_init unit) _
                (repeat tt 60) (repeat (Some 2) 60)).
      * py_eval. reflexivity.
      * reflexivity.
Defined.

Lemma all_values_none (a : list (option R)) :
  In None a -> numpy.all_values a = None.
Proof.
  induction a as [|[x|] a IH]; intros H; cbn [numpy.all_values].
  - contradiction.
  - destruct H as [H|H]; [discriminate|]. rewrite (IH H). reflexivity.
  - reflexivity.
Qed.

Lemma evaluate_nan (y_true y_pred : list (option R)) :
  In None y_true -> exists e, sklearn.evaluate y_true y_pred = Raise e.
Proof.
  intros H. unfold sklearn.evaluate, sklearn.mean_absolute_error.
  rewrite (all_values_none _ H).
  destruct (negb _); eexists; reflexivity.
Qed.

(** X17. A missing quantity in the hold-out window makes the
    decomposition and primary tree trainers report the sentinel (no model,
    no predictions, accuracy -1, MAE -1) whatever the library does: the
    evaluation raises on the NaN and the trainer's own [except] turns that
    into the sentinel. *)
Theorem nan_holdout_reports_sentinel :
  (forall (Prophet : Type) Prophet_fit Prophet_predict (df : DataFrame)
          (product_name : string),
     has_column (columns df) col_item = true ->
     has_column (columns df) col_date = true ->
     has_column (columns df) col_quantity = true ->
     In None (map snd (snd (prophet_split
                (map (fun r => (date r, quantity r))
                     (select_item product_name (rows df)))))) ->
     train_prophet_model Prophet Prophet_fit Prophet_predict df product_name
     = Return (None, None, None, sklearn.performance_record (-1) (-1)))
  /\
  (forall (F XGBRegressor : Type) XGBRegressor_fit XGBRegressor_predict
          (features : list F) (target : list (option R)),
     In None (slice_from_neg 30 target) ->
     train_xgboost_model F XGBRegressor XGBRegressor_fit XGBRegressor_predict
       features target
     = (None, None, sklearn.performance_record (-1) (-1))).
Proof.
  split.
  - intros Prophet fit predict df name Hi Hd Hq Hnan.
    unfold train_prophet_model, require_column. rewrite Hi, Hd, Hq.
    cbn [bind].
    destruct (_ <? _)%nat; [reflexivity|].
    destruct (prophet_split _) as [train_data test_data]. cbn [snd] in Hnan.
    unfold prophet_try.
    destruct (fit _ train_data) as [m|e]; cbn [bind catch]; [|reflexivity].
    destruct (predict m _) as [forecast|e]; cbn [bind catch]; [|reflexivity].
    destruct (evaluate_nan (map snd test_data)
                (map Some (numpy.clip_negative
                   (map snd (numpy.tail
                      (Nat.min 30 (int_mul_02
                         (length (map (fun r => (date r, quantity r))
                                      (select_item name (rows df))))))
                      forecast)))) Hnan) as [e ->].
    reflexivity.
  - intros F X fit predict features target Hnan.
    unfold train_xgboost_model.
    destruct (_ <? _)%nat; [reflexivity|].
    unfold xgboost_split.
    destruct (fit _ _) as [m|e]; cbn [bind catch]; [|reflexivity].
    destruct (predict m _) as [prediction|e]; cbn [bind catch];
      [|reflexivity].
    destruct (evaluate_nan (slice_from_neg 30 target)
                (map Some (numpy.clip_negative prediction)) Hnan) as [e ->].
    reflexivity.
Qed.

(** A run of X17: a month and sixty rows whose last day has no
    count. *)
Lemma nan_holdout_reports_sentinel_witness :
  train_prophet_model unit (fun _ _ => Return tt)
    (fun _ periods =>
       Return (map (fun d => (Some (Z.of_nat d), 1)) (seq 1 periods)))
    more_sample_data.month_with_gap "A"
  = Return (None, None, None, sklearn.performance_record (-1) (-1))
  /\
  train_xgboost_model unit unit (fun _ _ => Return tt)
    (fun _ X => Return (map (fun _ => 1) X))
    (repeat tt 60) (repeat (Some 2) 59 ++ [None])
  = (None, None, sklearn.performance_record (-1) (-1)).
Proof.
  destruct nan_holdout_reports_sentinel as [Hp Hx].
  split.
  - apply Hp; try reflexivity.
    cbn. do 5 right. left. reflexivity.
  - apply Hx. cbn. do 29 right. left. reflexivity.
Defined.

Lemma abs_sum_nonneg (A : Type) (f : A -> R) (l : list A) :
  0 <= sum (map (fun x => Rabs (f x)) l).
Proof.
  apply sum_nonneg, Forall_map, Forall_forall. intros x _. apply Rabs_pos.
Qed.

Lemma evaluate_bounds (y_true y_pred : list (option R)) (perf : dict R) :
  sklearn.evaluate y_true y_pred = Return perf ->
  exists accuracy mae,
    perf = sklearn.performance_record accuracy mae /\
    accuracy <= 100 /\ 0 <= mae.
Proof.
  unfold sklearn.evaluate, sklearn.mean_absolute_error. intros H.
  destruct (negb _); [discriminate|].
  destruct (numpy.all_values y_true) as [t|]; [|discriminate].
  destruct (numpy.all_values y_pred) as [p|];
    [|destruct t; discriminate].
  destruct t as [|t0 t]; [discriminate|].
  injection H as <-. do 2 eexists. split; [reflexivity|].
  assert (Hn : 0 < INR (length (t0 :: t))) by (apply lt_0_INR; cbn; lia).
  split.
  - unfold numpy.mape.
    pose proof (abs_sum_nonneg _ (fun yp : R * R =>
                  (fst yp - snd yp) / Rmax (fst yp) 1)
                  (combine (t0 :: t) p)) as Hs.
    assert (0 <= sum (map (fun yp : R * R =>
                  Rabs ((fst yp - snd yp) / Rmax (fst yp) 1))
                  (combine (t0 :: t) p)) / INR (length (t0 :: t)))
      by (apply Rle_mult_inv_pos; assumption).
    lra.
  - apply Rle_mult_inv_pos; [|assumption].
    apply (abs_sum_nonneg _ (fun yp : R * R => fst yp - snd yp)).
Qed.

(** X18. [train_xgboost_model] never raises and returns one of two
    things: the sentinel (no model, no predictions, accuracy -1, MAE -1),
    or, for at least 60 rows, a model with as many predictions as there are
    held-out targets, an accuracy of at most 100 and a MAE that is not
    negative. A negative MAE therefore identifies the sentinel. *)
Theorem train_xgboost_model_result (F XGBRegressor : Type)
    XGBRegressor_fit XGBRegressor_predict
    (features : list F) (target : list (option R)) :
  let '(model, y_pred_test, performance) :=
    train_xgboost_model F XGBRegressor XGBRegressor_fit XGBRegressor_predict
      features target in
  (model = None /\ y_pred_test = None /\
   performance = sklearn.performance_record (-1) (-1))
  \/
  (exists m p accuracy mae,
     model = Some m /\ y_pred_test = Some p /\
     performance = sklearn.performance_record accuracy mae /\
     accuracy <= 100 /\ 0 <= mae /\
     (MIN_DATA_DAYS + 30 <= length features)%nat /\
     length p = length (slice_from_neg 30 target)).
Proof.
  unfold train_xgboost_model.
  destruct (Nat.ltb_spec (length features) (MIN_DATA_DAYS + 30)) as [|Hge];
    [left; auto|].
  unfold xgboost_split.
  destruct (XGBRegressor_fit _ _) as [m|e]; cbn [bind catch]; [|left; auto].
  destruct (XGBRegressor_predict m _) as [prediction|e] eqn:Ep;
    cbn [bind catch]; [|left; auto].
  destruct (sklearn.evaluate _ _) as [perf|e] eqn:Ee; cbn [bind catch];
    [|left; auto].
  right. destruct (evaluate_bounds _ _ _ Ee) as [a [mae [-> [Ha Hm]]]].
  exists m, (numpy.clip_negative prediction), a, mae.
  repeat split; try assumption.
  unfold sklearn.evaluate, sklearn.mean_absolute_error in Ee.
  destruct (Nat.eqb_spec (length (slice_from_neg 30 target))
              (length (map Some (numpy.clip_negative prediction))))
    as [El|Hne]; cbn [negb] in Ee; [|discriminate].
  rewrite length_map in El. symmetry. exact El.
Qed.

Lemma all_values_some (v : list R) : numpy.all_values (map Some v) = Some v.
Proof.
  induction v as [|x v IH]; cbn [map numpy.all_values]; [reflexivity|].
  rewrite IH. reflexivity.
Qed.

Lemma sum_zeros (A : Type) (f : A -> R) (l : list A) :
  (forall x, In x l -> f x = 0) -> sum (map f l) = 0.
Proof.
  intros H. apply sum_all_zero, Forall_map, Forall_forall. exact H.
Qed.

Lemma in_combine_same (A : Type) (l : list A) (x y : A) :
  In (x, y) (combine l l) -> x = y.
Proof.
  induction l as [|a l IH]; cbn; [contradiction|].
  intros [E|H]; [congruence|auto].
Qed.

(** X19. The evaluation every trainer and the orchestrator repeat
    ([mean_absolute_error], then [100 - mape] with [np.maximum(y_true, 1)]
    as denominator) scores predictions equal to the truth with accuracy
    100 and MAE 0, days without sales included. *)
Theorem evaluate_perfect (y : list R) :
  y <> [] ->
  sklearn.evaluate (map Some y) (map Some y)
  = Return (sklearn.performance_record 100 0).
Proof.
  intros Hne. unfold sklearn.evaluate, sklearn.mean_absolute_error.
  rewrite Nat.eqb_refl. cbn [negb]. rewrite all_values_some.
  destruct y as [|y0 y]; [contradiction|].
  set (w := y0 :: y).
  assert (Hn : 0 < INR (length w)) by (apply lt_0_INR; cbn; lia).
  f_equal. unfold sklearn.performance_record, numpy.mape.
  rewrite (sum_zeros _ (fun yp : R * R =>
             Rabs ((fst yp - snd yp) / Rmax (fst yp) 1))).
  - rewrite (sum_zeros _ (fun yp : R * R => Rabs (fst yp - snd yp))).
    + repeat f_equal; field; lra.
    + intros [a b] Hab. apply in_combine_same in Hab. subst b. cbn [fst snd].
      replace (a - a) with 0 by lra. apply Rabs_R0.
  - intros [a b] Hab. apply in_combine_same in Hab. subst b. cbn [fst snd].
    replace ((a - a) / Rmax a 1) with 0; [apply Rabs_R0|].
    unfold Rdiv. replace (a - a) with 0 by lra. lra.
Qed.

(** A run of X19 on the quantities 3, 0 and 7. *)
Lemma evaluate_perfect_witness :
  sklearn.evaluate (map Some [3; 0; 7]) (map Some [3; 0; 7])
  = Return (sklearn.performance_record 100 0).
Proof.
  apply evaluate_perfect. discriminate.
Defined.

End TrainerResults.

(** ** The orchestrator: which items get a result *)

Section ItemResults.

Import pandas anomaly_analyzer external_factor_detector feature_engineer
  model_trainer advanced_models parallel_processor loops.
Local Open Scope string_scope.
Local Open Scope list_scope.

Variable lib : Libraries.

Lemma detect_rows (df df_enhanced : DataFrame) (product_name : string)
    (info : VolatilityInfo) :
  detect_and_create_factors df product_name = Return (df_enhanced, info) ->
  rows df_enhanced = select_item product_name (rows df).
Proof.
  unfold detect_and_create_factors. intros H.
  destruct (require_column (columns df) col_item); [|discriminate].
  cbn [bind] in H.
  destruct (_analyze_volatility _); [|discriminate]. cbn [bind] in H.
  destruct (mapM _ calendar_columns); [|discriminate]. cbn [bind] in H.
  injection H as <- _. reflexivity.
Qed.

Lemma sorted_item_rows (name : string) (rs : list Row) (r : Row) :
  In r (sort_values_item_date (select_item name rs)) -> item r = Some name.
Proof.
  unfold sort_values_item_date. rewrite in_sort_by. apply select_item_item.
Qed.

Lemma select_item_all (name : string) (l : list Row) :
  (forall r, In r l -> item r = Some name) -> select_item name l = l.
Proof.
  intros H. unfold select_item. apply filter_forallb.
  apply forallb_forall. intros r Hr. rewrite (H r Hr). cbn.
  apply String.eqb_refl.
Qed.

Lemma length_sort_values (rs : list Row) :
  length (sort_values_item_date rs) = length rs.
Proof.
  symmetry. apply Permutation_length. apply sort_by_perm.
Qed.

(** What the [try] block of [process_product] went through when it
    returned, on a table with distinct keys. *)
Lemma process_product_try_stages (product_name : string) (df : DataFrame)
    (result : ProductResult) :
  process_product_try lib product_name df = Return result ->
  NoDup (map row_key (rows df)) ->
  exists df_processed features target
         prophet_model prophet_fc prophet_test_pred prophet_perf
         xgb_model xgb_test_pred xgb_perf lstm_result lstm_model
         lgbm_result lgbm_model,
    map base (aug_rows df_processed)
      = sort_values_item_date (select_item product_name (rows df)) /\
    length features = length (select_item product_name (rows df)) /\
    target = map quantity
               (sort_values_item_date (select_item product_name (rows df))) /\
    train_prophet_model (Prophet lib) (Prophet_fit lib) (Prophet_predict lib)
      (base_frame df_processed) product_name
      = Return (prophet_model, prophet_fc, prophet_test_pred, prophet_perf) /\
    train_xgboost_model (F lib) (XGBRegressor lib) (XGBRegressor_fit lib)
      (XGBRegressor_predict lib) features target
      = (xgb_model, xgb_test_pred, xgb_perf) /\
    LSTMPredictor_train (Sequential lib) (Sequential_fit lib)
      (Sequential_predict lib) (LSTMPredictor_init (Sequential lib) 14 7)
      (base_frame df_processed) product_name
      = Return (lstm_result, lstm_model) /\
    LightGBMPredictor_train (F lib) (Booster lib) (lgb_train lib)
      (Booster_predict lib) (LightGBMPredictor_init (Booster lib))
      features target
      = Return (lgbm_result, lgbm_model) /\
    filter (fun np : string * list R => (0 <? length (snd np))%nat)
      [ ("prophet", predictions_or_empty prophet_test_pred);
        ("xgboost", predictions_or_empty xgb_test_pred);
        ("lstm", predictions_or_empty (predictions lstm_result));
        ("lightgbm", predictions_or_empty (predictions lgbm_result)) ]
      <> [] /\
    (ensemble_forecast result <> None ->
     predict_xgboost_future lib df_processed product_name xgb_model <> []).
Proof.
  unfold process_product_try. intros H Hkeys.
  destruct (detect_and_create_factors df product_name)
    as [[df_enhanced info]|e] eqn:Hdet; [|discriminate]. cbn [bind] in H.
  destruct (process _ df_enhanced) as [[[df_processed log] s]|e] eqn:Hproc;
    [|discriminate]. cbn [bind] in H.
  destruct (create_xgboost_features _ _ df_processed _)
    as [[features target]|e] eqn:Hfeat; [|discriminate]. cbn [bind] in H.
  destruct (train_prophet_model _ _ _ _ _)
    as [[[[pm pfc] ptp] pperf]|e] eqn:Hp; [|discriminate]. cbn [bind] in H.
  destruct (train_xgboost_model _ _ _ _ features target)
    as [[xm xtp] xperf] eqn:Hx.
  destruct (LSTMPredictor_train _ _ _ _ _ _)
    as [[lstm_result ls]|e] eqn:Hl; [|discriminate]. cbn [bind] in H.
  destruct (LightGBMPredictor_train _ _ _ _ _ features target)
    as [[lgbm_result lg]|e] eqn:Hg; [|discriminate]. cbn [bind] in H.
  exists df_processed, features, target, pm, pfc, ptp, pperf, xm, xtp, xperf,
    lstm_result, ls, lgbm_result, lg.
  (* the rows of the processed table *)
  pose proof (detect_rows _ _ _ _ Hdet) as Hrows.
  assert (Hbase : map base (aug_rows df_processed)
                  = sort_values_item_date (select_item product_name (rows df))).
  { rewrite <- Hrows. eapply process_keeps_rows; [exact Hproc|].
    rewrite Hrows. apply select_item_keys. exact Hkeys. }
  assert (Hall : filter (fun a => option_eqb String.eqb (item (base a))
                                    (Some product_name))
                        (aug_rows df_processed)
                 = aug_rows df_processed).
  { apply filter_forallb.
    rewrite (forallb_comp _ _ base
               (fun r => option_eqb String.eqb (item r) (Some product_name))).
    rewrite Hbase. apply forallb_forall. intros r Hr.
    rewrite (sorted_item_rows _ _ _ Hr). cbn. apply String.eqb_refl. }
  split; [exact Hbase|].
  unfold create_xgboost_features in Hfeat.
  destruct (require_column (aug_columns df_processed) col_item);
    [|discriminate]. cbn [bind] in Hfeat.
  destruct (require_column (aug_columns df_processed) col_quantity);
    [|discriminate]. cbn [bind] in Hfeat.
  destruct (require_column (aug_columns df_processed) "요일");
    [|discriminate]. cbn [bind] in Hfeat.
  rewrite Hall in Hfeat. injection Hfeat as <- <-.
  split.
  { rewrite length_map, length_seq, <- (length_map base), Hbase.
    apply length_sort_values. }
  split.
  { rewrite <- Hbase, map_map. reflexivity. }
  split; [exact Hp|]. split; [exact Hx|]. split; [exact Hl|].
  split; [exact Hg|].
  match type of H with
  | match filter ?f ?l with _ => _ end = _ =>
      destruct (filter f l) as [|[m first] others] eqn:Hvalid;
        [discriminate|]
  end.
  split; [discriminate|].
  destruct (ensemble_predict _ _ _ _) as [[pred ensemble]|e];
    [|discriminate]. cbn [bind] in H.
  destruct (sklearn.evaluate _ _) as [ens|e]; [|discriminate].
  cbn [bind] in H.
  destruct (option_map (numpy.tail 7) pfc) as [pf|];
    destruct (predict_xgboost_future lib df_processed product_name xm)
      as [|x0 future]; cbn [bind] in H;
    try (injection H as <-; cbn [ensemble_forecast]; intros Hne;
         contradiction).
  intros _. discriminate.
Qed.

Lemma prophet_gate (df : DataFrame) (product_name : string)
    model fc pred perf :
  (length (select_item product_name (rows df)) < 30)%nat ->
  train_prophet_model (Prophet lib) (Prophet_fit lib) (Prophet_predict lib)
    df product_name = Return (model, fc, pred, perf) ->
  pred = None /\ fc = None.
Proof.
  intros Hn H. unfold train_prophet_model in H.
  destruct (require_column (columns df) col_item); [|discriminate].
  cbn [bind] in H.
  destruct (require_column (columns df) col_date); [|discriminate].
  cbn [bind] in H.
  destruct (require_column (columns df) col_quantity); [|discriminate].
  cbn [bind] in H. rewrite length_map in H.
  destruct (Nat.ltb_spec (length (select_item product_name (rows df)))
              MIN_DATA_DAYS) as [_|Hge]; [|unfold MIN_DATA_DAYS in Hge; lia].
  injection H as _ <- <- _. split; reflexivity.
Qed.

Lemma xgboost_gate (features : list (F lib)) (target : list (option R))
    model pred perf :
  (length features < 60)%nat ->
  train_xgboost_model (F lib) (XGBRegressor lib) (XGBRegressor_fit lib)
    (XGBRegressor_predict lib) features target = (model, pred, perf) ->
  model = None /\ pred = None.
Proof.
  intros Hn H. unfold train_xgboost_model in H.
  destruct (Nat.ltb_spec (length features) (MIN_DATA_DAYS + 30))
    as [_|Hge]; [|unfold MIN_DATA_DAYS in Hge; lia].
  injection H as <- <- _. split; reflexivity.
Qed.

Lemma lstm_gate (df : DataFrame) (product_name : string) result self' :
  (length (select_item product_name (rows df)) < 51)%nat ->
  LSTMPredictor_train (Sequential lib) (Sequential_fit lib)
    (Sequential_predict lib) (LSTMPredictor_init (Sequential lib) 14 7)
    df product_name = Return (result, self') ->
  predictions result = None.
Proof.
  intros Hn H. unfold LSTMPredictor_train in H.
  destruct (require_column (columns df) col_item); [|discriminate].
  cbn [bind] in H.
  cbn [lookback_days forecast_days LSTMPredictor_init] in H.
  destruct (Nat.ltb_spec (length (select_item product_name (rows df)))
              (14 + 7 + 30)) as [_|Hge]; [|lia].
  injection H as <- _. reflexivity.
Qed.

Lemma lightgbm_gate (features : list (F lib)) (target : list (option R))
    result self' :
  (length features < 60)%nat ->
  LightGBMPredictor_train (F lib) (Booster lib) (lgb_train lib)
    (Booster_predict lib) (LightGBMPredictor_init (Booster lib))
    features target = Return (result, self') ->
  predictions result = None.
Proof.
  intros Hn H. unfold LightGBMPredictor_train in H.
  destruct (Nat.ltb_spec (length features) 60) as [_|Hge]; [|lia].
  injection H as <- _. reflexivity.
Qed.

Lemma processed_item_rows (df_processed : AugFrame) (product_name : string)
    (df : DataFrame) :
  map base (aug_rows df_processed)
    = sort_values_item_date (select_item product_name (rows df)) ->
  length (select_item product_name (rows (base_frame df_processed)))
  = length (select_item product_name (rows df)).
Proof.
  intros Hbase. unfold base_frame. cbn [rows]. rewrite Hbase.
  rewrite select_item_all by apply sorted_item_rows.
  apply length_sort_values.
Qed.

(** X20. An item with fewer than 30 rows never gets a result: on a
    table with distinct (date, item) keys, [process_product] returns the
    empty result for it whatever the libraries do, because no trainer's
    history gate opens and "no model can predict" is raised and caught. *)
Theorem short_history_yields_no_result (product_name : string)
    (df : DataFrame) :
  NoDup (map row_key (rows df)) ->
  (length (select_item product_name (rows df)) < 30)%nat ->
  process_product lib (product_name, df) = (product_name, None).
Proof.
  intros Hkeys Hn. unfold process_product.
  destruct (process_product_try lib product_name df) as [result|e] eqn:E;
    [|reflexivity].
  exfalso.
  destruct (process_product_try_stages _ _ _ E Hkeys)
    as (P & features & target & pm & pfc & ptp & pperf & xm & xtp & xperf
        & lr & ls & gr & gs & Hbase & Hlen & _ & Hp & Hx & Hl & Hg & Hv & _).
  pose proof (processed_item_rows _ _ _ Hbase) as Hrows.
  destruct (prophet_gate _ _ _ _ _ _ ltac:(rewrite Hrows; exact Hn) Hp)
    as [-> _].
  destruct (xgboost_gate _ _ _ _ _ ltac:(rewrite Hlen; lia) Hx) as [_ ->].
  rewrite (lstm_gate _ _ _ _ ltac:(rewrite Hrows; lia) Hl) in Hv.
  rewrite (lightgbm_gate _ _ _ _ ltac:(rewrite Hlen; lia) Hg) in Hv.
  apply Hv. reflexivity.
Qed.

(** X21. A missing quantity among the most recent rows voids a long
    item: on a table with distinct keys, for an item with at least 60 rows
    one of whose last [min(30, n/5)] quantities (in date order) is missing,
    [process_product] returns the empty result whatever the libraries do:
    the fast tree trainer's evaluation raises on the NaN and only
    [process_product] catches it. *)
Theorem recent_gap_yields_no_result (product_name : string)
    (df : DataFrame) :
  NoDup (map row_key (rows df)) ->
  let history := sort_values_item_date (select_item product_name (rows df)) in
  (60 <= length history)%nat ->
  In None (map quantity
             (numpy.tail (Nat.min 30 (length history / 5)) history)) ->
  process_product lib (product_name, df) = (product_name, None).
Proof.
  intros Hkeys history Hn Hnan. unfold process_product.
  destruct (process_product_try lib product_name df) as [result|e] eqn:E;
    [|reflexivity].
  exfalso.
  destruct (process_product_try_stages _ _ _ E Hkeys)
    as (P & features & target & pm & pfc & ptp & pperf & xm & xtp & xperf
        & lr & ls & gr & gs & Hbase & Hlen & Ht & _ & _ & _ & Hg & _ & _).
  fold history in Ht. subst history.
  rewrite length_sort_values in Hn, Hnan. rewrite <- Hlen in Hn, Hnan.
  unfold LightGBMPredictor_train in Hg.
  destruct (Nat.ltb_spec (length features) 60) as [Hlt|_]; [lia|].
  unfold lightgbm_split, int_mul_02 in Hg.
  destruct (lgb_train lib _ _ _ _) as [m|e]; cbn [bind] in Hg;
    [|discriminate].
  destruct (Booster_predict lib m _) as [prediction|e]; cbn [bind] in Hg;
    [|discriminate].
  assert (Hk : (0 < Nat.min 30 (length features / 5))%nat).
  { assert (1 <= length features / 5)%nat
      by (apply Nat.div_le_lower_bound; lia). lia. }
  destruct (evaluate_nan
              (slice_from_neg (Nat.min 30 (length features / 5)) target)
              (map Some (numpy.clip_negative prediction))) as [e He].
  { rewrite Ht. destruct (Nat.min 30 (length features / 5)) as [|k] eqn:Ek;
      [lia|]. cbn [slice_from_neg]. rewrite length_map.
    unfold numpy.tail in Hnan. rewrite <- skipn_map in Hnan.
    rewrite length_sort_values. rewrite <- Hlen.
    rewrite length_sort_values in Hnan. rewrite <- Hlen in Hnan.
    exact Hnan. }
  rewrite He in Hg. discriminate.
Qed.

Lemma collect_from (tasks : list (string * DataFrame))
    (models : dict ProductResult) (logs : list (list LogRow)) :
  exists models' logs',
    fold_left
      (fun (acc : dict ProductResult * list (list LogRow)) task =>
         let '(models_data, all_anomaly_logs) := acc in
         match process_product lib task with
         | (name, Some data) =>
           (models_data ++ [(name, data)],
            match product_anomaly_log data with
            | [] => all_anomaly_logs
            | log => all_anomaly_logs ++ [log]
            end)
         | (_, None) => acc
         end)
      tasks (models, logs) = (models', logs') /\
    models' = models ++ flat_map (item_entry lib) tasks /\
    concat logs'
    = concat logs
      ++ flat_map (fun nd => product_anomaly_log (snd nd))
                  (flat_map (item_entry lib) tasks).
Proof.
  revert models logs.
  induction tasks as [|task tasks IH]; intros models logs; cbn [fold_left].
  - exists models, logs. cbn [flat_map]. rewrite !app_nil_r. auto.
  - cbn [flat_map]. unfold item_entry at 1 3. cbv beta iota.
    destruct (process_product lib task) as [name [data|]].
    + match goal with
      | |- context [fold_left ?f tasks (?m, ?l)] =>
          destruct (IH m l) as [models' [logs' [E [H1 H2]]]]
      end.
      exists models', logs'. split; [exact E|]. rewrite H1, H2. split.
      * rewrite <- app_assoc. reflexivity.
      * cbn [app flat_map snd].
        destruct (product_anomaly_log data) as [|l0 ls] eqn:El.
        -- reflexivity.
        -- rewrite concat_app. cbn [concat]. rewrite app_nil_r.
           rewrite <- !app_assoc. reflexivity.
    + cbn [app]. apply IH.
Qed.

(** X22. A run on a table that has the item column returns (it does
    not raise). It enters the pipeline of every item name in sorted order;
    [models_data] holds, in that order, the result of [process_product] on
    the item's own rows for exactly the items for which it is not empty; and
    the total anomaly log is the concatenation of the logs of those
    results, so the anomalies of an item whose pipeline failed are not in
    it. (No item is named "total_anomaly_log": the run stores the log
    under that key of the same dictionary.) *)
Theorem run_collects_successes (_df : DataFrame) :
  has_column (columns _df) col_item = true ->
  ~ In "total_anomaly_log" (item_names (rows _df)) ->
  exists result,
    snd (run_parallel_processing lib _df) = Return result /\
    fst (run_parallel_processing lib _df) = item_names (rows _df) /\
    models_data result
    = flat_map
        (fun name =>
           match process_product lib
                   (name, {| columns := columns _df;
                             rows := select_item name (rows _df) |}) with
           | (n, Some data) => [(n, data)]
           | (_, None) => []
           end)
        (item_names (rows _df)) /\
    total_anomaly_log result
    = flat_map (fun nd => product_anomaly_log (snd nd)) (models_data result).
Proof.
  intros Hi _. unfold run_parallel_processing, require_column. rewrite Hi.
  unfold collect. cbv zeta.
  match goal with
  | |- context [fold_left ?f ?tasks ?init] =>
      destruct (collect_from tasks [] []) as [models [logs [E [Hm Hl]]]];
      replace (fold_left f tasks init) with (models, logs)
        by (symmetry; exact E)
  end.
  cbn [app concat] in Hm, Hl.
  eexists. cbn [fst snd]. split; [reflexivity|].
  cbn [models_data total_anomaly_log].
  split; [|split].
  - unfold groupby_item. rewrite !map_map. cbn [fst]. apply map_id.
  - rewrite Hm. unfold groupby_item. rewrite map_map. cbn [fst snd].
    rewrite flat_map_concat_map, map_map. rewrite <- flat_map_concat_map.
    reflexivity.
  - rewrite Hl, Hm. reflexivity.
Qed.

End ItemResults.

Section ItemResultRuns.

Import pandas anomaly_analyzer parallel_processor.
Local Open Scope string_scope.
Local Open Scope list_scope.

(** A run of X20: an item with two rows. *)
Lemma short_history_yields_no_result_witness :
  process_product sample_data.failing_libraries ("A", sample_data.one_gap)
  = ("A", None).
Proof.
  apply short_history_yields_no_result.
  - cbn. repeat constructor; cbn; intuition discriminate.
  - cbn. lia.
Defined.

Lemma recent_gap_keys :
  NoDup (map row_key (rows more_sample_data.recent_gap)).
Proof.
  change (map row_key (rows more_sample_data.recent_gap))
    with (map (fun d => (Some (Z.of_nat d), Some "A")) (seq 1 60)).
  apply Finite.Injective_map_NoDup; [|apply seq_NoDup].
  intros x y H. injection H as H. apply Nat2Z.inj. exact H.
Qed.

Lemma recent_gap_history :
  sort_values_item_date (select_item "A" (rows more_sample_data.recent_gap))
  = rows more_sample_data.recent_gap.
Proof. reflexivity. Qed.

(** A run of X21: sixty days, the last without a count. *)
Lemma recent_gap_yields_no_result_witness :
  process_product sample_data.failing_libraries
    ("A", more_sample_data.recent_gap)
  = ("A", None).
Proof.
  apply recent_gap_yields_no_result.
  - exact recent_gap_keys.
  - rewrite recent_gap_history. cbn. lia.
  - rewrite recent_gap_history. cbn. do 11 right. left. reflexivity.
Defined.

(** A run of X22 on a table with one item. *)
Lemma run_collects_successes_witness :
  exists result,
    snd (run_parallel_processing sample_data.failing_libraries
           sample_data.one_gap) = Return result /\
    fst (run_parallel_processing sample_data.failing_libraries
           sample_data.one_gap) = item_names (rows sample_data.one_gap) /\
    models_data result
    = flat_map
        (fun name =>
           match process_product sample_data.failing_libraries
                   (name, {| columns := columns sample_data.one_gap;
                             rows := select_item name
                                       (rows sample_data.one_gap) |}) with
           | (n, Some data) => [(n, data)]
           | (_, None) => []
           end)
        (item_names (rows sample_data.one_gap)) /\
    total_anomaly_log result
    = flat_map (fun nd => product_anomaly_log (snd nd)) (models_data result).
Proof.
  apply run_collects_successes.
  - reflexivity.
  - cbn. intros [H|[]]. discriminate H.
Defined.

End ItemResultRuns.

(** ** The volatility score and the confidence columns *)

Section VolatilityScore.

Import pandas external_factor_detector volatility_weights.
Local Open Scope R_scope.
Local Open Scope string_scope.

(** X23. One missing quantity makes the volatility score 0: [np.mean]
    of the item's sales is then NaN, the guard [np.mean(sales) > 0] fails,
    and [_analyze_volatility] returns cv 0 and the level "매우 안정",
    whatever the other quantities are. *)
Theorem missing_quantity_zero_volatility (df : DataFrame) :
  has_column (columns df) col_quantity = true ->
  In None (map quantity (rows df)) ->
  _analyze_volatility df = Return {| cv := 0; level := "매우 안정" |}.
Proof.
  intros Hq Hnan. unfold _analyze_volatility, require_column. rewrite Hq.
  cbn [bind].
  assert (E : coefficient_of_variation (map quantity (rows df)) = 0).
  { unfold coefficient_of_variation, numpy.mean.
    rewrite (all_values_none _ Hnan). reflexivity. }
  rewrite E. destruct (Rlt_dec 0 0.2) as [_|n]; [reflexivity|lra].
Qed.

(** A run of X23 on a table with one counted day and one gap. *)
Lemma missing_quantity_zero_volatility_witness :
  _analyze_volatility sample_data.one_gap
  = Return {| cv := 0; level := "매우 안정" |}.
Proof.
  apply missing_quantity_zero_volatility.
  - reflexivity.
  - right. left. reflexivity.
Defined.

Lemma all_values_inv (a : list (option R)) (v : list R) :
  numpy.all_values a = Some v -> a = map Some v.
Proof.
  revert v. induction a as [|[x|] a IH]; intros v H; cbn in H.
  - injection H as <-. reflexivity.
  - destruct (numpy.all_values a) as [w|]; [|discriminate].
    injection H as <-. cbn. rewrite (IH w eq_refl). reflexivity.
  - discriminate.
Qed.

(** The score in terms of the values. *)
Lemma coefficient_of_variation_values (x : R) (v : list R) :
  let n := INR (length (x :: v)) in
  let m := sum (x :: v) / n in
  coefficient_of_variation (map Some (x :: v))
  = if Rgt_dec m 0
    then sqrt (sum (map (fun y => (y - m) * (y - m)) (x :: v)) / n) / m
    else 0.
Proof.
  intros n m. unfold coefficient_of_variation, numpy.mean, numpy.std.
  rewrite all_values_some. reflexivity.
Qed.

Lemma sum_map_scale (A : Type) (f : A -> R) (c : R) (xs : list A) :
  sum (map (fun x => c * f x) xs) = c * sum (map f xs).
Proof.
  induction xs as [|x xs IH]; cbn [map].
  - rewrite sum_nil. lra.
  - rewrite !sum_cons, IH. lra.
Qed.

(** X24. The volatility score does not depend on the unit of the
    quantities: multiplying every quantity by the same positive factor
    leaves the coefficient of variation unchanged. *)
Theorem coefficient_of_variation_scale_invariant (c : R)
    (sales : list (option R)) :
  0 < c ->
  coefficient_of_variation
    (map (fun q => match q with Some x => Some (c * x) | None => None end)
         sales)
  = coefficient_of_variation sales.
Proof.
  intros Hc.
  destruct (numpy.all_values sales) as [v|] eqn:Ev.
  - apply all_values_inv in Ev. subst sales. rewrite map_map.
    change (map (fun x => Some (c * x)) v)
      with (map (fun x => Some (c * x)) v).
    rewrite <- (map_map (Rmult c) Some).
    destruct v as [|x v]; [reflexivity|].
    cbn [map]. change (Some (c * x) :: map Some (map (Rmult c) v))
      with (map Some ((c * x) :: map (Rmult c) v)).
    change (Some x :: map Some v) with (map Some (x :: v)).
    rewrite !coefficient_of_variation_values.
    change ((c * x) :: map (Rmult c) v) with (map (Rmult c) (x :: v)).
    set (w := x :: v). rewrite length_map.
    assert (Hn : 0 < INR (length w)) by (apply lt_0_INR; cbn; lia).
    set (n := INR (length w)) in *.
    assert (Es : sum (map (Rmult c) w) = c * sum w).
    { rewrite <- (map_id w) at 2.
      rewrite <- (sum_map_scale _ (fun y => y)). reflexivity. }
    rewrite Es.
    replace (c * sum w / n) with (c * (sum w / n)) by (field; lra).
    set (m := sum w / n).
    rewrite map_map.
    assert (Ed : sum (map (fun y => (c * y - c * m) * (c * y - c * m)) w)
                 = (c * c) * sum (map (fun y => (y - m) * (y - m)) w)).
    { rewrite <- sum_map_scale. f_equal. apply map_ext. intros y. ring. }
    rewrite Ed.
    destruct (Rgt_dec (c * m) 0) as [Hcm|Hcm];
      destruct (Rgt_dec m 0) as [Hm|Hm]; try reflexivity.
    + replace (c * c * sum (map (fun y => (y - m) * (y - m)) w) / n)
        with ((c * c) * (sum (map (fun y => (y - m) * (y - m)) w) / n))
        by (field; lra).
      rewrite sqrt_mult_alt by nra.
      rewrite sqrt_square by lra. field. lra.
    + exfalso. apply Hm. nra.
    + exfalso. apply Hcm. nra.
  - assert (Hnone : In None sales).
    { clear -Ev. induction sales as [|[x|] sales IH]; cbn in Ev.
      - discriminate.
      - right. apply IH. destruct (numpy.all_values sales); [discriminate|].
        reflexivity.
      - left. reflexivity. }
    unfold coefficient_of_variation, numpy.mean.
    rewrite Ev.
    rewrite (all_values_none (map _ sales)); [reflexivity|].
    apply in_map_iff. exists None. auto.
Qed.

(** A run of X24: the quantities 1 and 3, and a thousand times them. *)
Lemma coefficient_of_variation_scale_invariant_witness :
  coefficient_of_variation
    (map (fun q => match q with Some x => Some (1000 * x) | None => None end)
         [Some 1; Some 3])
  = coefficient_of_variation [Some 1; Some 3].
Proof.
  apply coefficient_of_variation_scale_invariant. lra.
Defined.

Lemma sum_sq_deviation (m : R) (v : list R) :
  sum (map (fun y => (y - m) * (y - m)) v)
  = sum (map (fun y => y * y) v) - 2 * m * sum v + INR (length v) * (m * m).
Proof.
  induction v as [|x v IH].
  - cbn [map length INR]. rewrite sum_nil. lra.
  - change (map (fun y => (y - m) * (y - m)) (x :: v))
      with ((x - m) * (x - m) :: map (fun y => (y - m) * (y - m)) v).
    change (map (fun y => y * y) (x :: v))
      with (x * x :: map (fun y => y * y) v).
    change (length (x :: v)) with (S (length v)).
    rewrite !sum_cons, IH, S_INR. ring.
Qed.

Lemma sum_squares_le_square_sum (v : list R) :
  Forall (fun x => 0 <= x) v ->
  sum (map (fun y => y * y) v) <= sum v * sum v.
Proof.
  induction 1 as [|x v Hx Hv IH].
  - cbn [map]. rewrite sum_nil. lra.
  - change (map (fun y => y * y) (x :: v))
      with (x * x :: map (fun y => y * y) v).
    rewrite !sum_cons.
    pose proof (sum_nonneg v Hv) as Hs. nra.
Qed.

(** X25. For quantities that are not negative, the volatility score
    of n days lies between 0 and sqrt(n - 1); it is not bounded by 1. *)
Theorem coefficient_of_variation_bound (sales : list R) :
  Forall (fun x => 0 <= x) sales ->
  0 <= coefficient_of_variation (map Some sales)
    <= sqrt (INR (length sales - 1)).
Proof.
  intros Hpos. split; [apply coefficient_of_variation_nonneg|].
  destruct sales as [|x v].
  - cbn. rewrite sqrt_0. lra.
  - rewrite coefficient_of_variation_values.
    set (w := x :: v) in *.
    assert (Hn : 1 <= INR (length w)).
    { change 1 with (INR 1). apply le_INR. cbn. lia. }
    replace (INR (length w - 1)) with (INR (length w) - 1)
      by (rewrite minus_INR by (cbn; lia); reflexivity).
    set (n := INR (length w)) in *.
    set (m := sum w / n).
    destruct (Rgt_dec m 0) as [Hm|_]; [|apply sqrt_pos].
    assert (Hdev : sum (map (fun y => (y - m) * (y - m)) w) / n
                   <= (n - 1) * (m * m)).
    { rewrite sum_sq_deviation. fold n.
      pose proof (sum_squares_le_square_sum w Hpos) as Hq.
      assert (Hs : sum w = n * m) by (unfold m; field; lra).
      rewrite Hs in Hq |- *.
      apply (Rmult_le_reg_r n); [lra|].
      replace ((sum (map (fun y => y * y) w) - 2 * m * (n * m) + n * (m * m))
               / n * n)
        with (sum (map (fun y => y * y) w) - n * (m * m)) by (field; lra).
      nra. }
    apply (Rmult_le_reg_r m); [lra|].
    replace (sqrt (sum (map (fun y => (y - m) * (y - m)) w) / n) / m * m)
      with (sqrt (sum (map (fun y => (y - m) * (y - m)) w) / n))
      by (field; lra).
    replace (sqrt (n - 1) * m) with (sqrt ((n - 1) * (m * m))).
    + apply sqrt_le_1_alt. exact Hdev.
    + rewrite sqrt_mult_alt by lra. rewrite sqrt_square by lra. reflexivity.
Qed.

(** A run of X25 on the quantities 0, 5 and 0. *)
Lemma coefficient_of_variation_bound_witness :
  0 <= coefficient_of_variation (map Some [0; 5; 0]) <= sqrt (INR 2).
Proof.
  apply (coefficient_of_variation_bound [0; 5; 0]).
  repeat constructor; lra.
Defined.

Lemma fillna_clip_range (x : option R) : 0 <= fillna_clip x <= 1.
Proof.
  unfold fillna_clip. split.
  - apply Rmin_glb; [apply Rmax_r|lra].
  - apply Rmin_r.
Qed.

(** X26. The confidence [_create_volatility_weights] writes lies in
    [0,1] on every row, for every value of the rolling coefficient of
    variation (NaN included), and is 0 on every row once the item's
    volatility score reaches 1, because the score is clamped here with
    [min(cv, 1.0)]; the data quality score is NaN or lies in [0,1]. *)
Theorem prediction_confidence_range (df : DataFrame)
    (volatility_info : VolatilityInfo) (rolling_cv change_strength : option R) :
  _analyze_volatility df = Return volatility_info ->
  0 <= prediction_confidence volatility_info rolling_cv <= 1 /\
  (1 <= cv volatility_info ->
   prediction_confidence volatility_info rolling_cv = 0) /\
  (forall q, data_quality_score volatility_info rolling_cv change_strength
             = Some q -> 0 <= q <= 1).
Proof.
  intros H. unfold _analyze_volatility in H.
  destruct (require_column (columns df) col_quantity); [|discriminate].
  cbn [bind] in H. injection H as <-. cbn [cv].
  pose proof (coefficient_of_variation_nonneg (map quantity (rows df))) as Hcv.
  set (c := coefficient_of_variation (map quantity (rows df))) in *.
  pose proof (fillna_clip_range rolling_cv) as Hr.
  assert (Hb : 0 <= 1 - Rmin c 1 <= 1).
  { unfold Rmin. destruct (Rle_dec c 1); lra. }
  assert (Hp : 0 <= (1 - Rmin c 1) * (1 - fillna_clip rolling_cv) <= 1)
    by nra.
  unfold prediction_confidence, base_confidence. cbn [cv].
  split; [exact Hp|]. split.
  - intros Hc. unfold Rmin. destruct (Rle_dec c 1); [|lra].
    replace c with 1 by lra. lra.
  - intros q Hq. unfold data_quality_score, clip in Hq.
    destruct change_strength as [s|]; [|discriminate].
    injection Hq as <-. unfold prediction_confidence, base_confidence.
    cbn [cv].
    assert (Hs : 0 <= Rmin (Rmax s 0) 1 <= 1).
    { split; [apply Rmin_glb; [apply Rmax_r|lra]|apply Rmin_r]. }
    nra.
Qed.

(** A run of X26 for an item whose score is 0. *)
Lemma prediction_confidence_range_witness :
  0 <= prediction_confidence {| cv := 0; level := "매우 안정" |} (Some 3) <= 1 /\
  (1 <= cv {| cv := 0; level := "매우 안정" |} ->
   prediction_confidence {| cv := 0; level := "매우 안정" |} (Some 3) = 0) /\
  (forall q, data_quality_score {| cv := 0; level := "매우 안정" |}
               (Some 3) (Some 7) = Some q -> 0 <= q <= 1).
Proof.
  apply (prediction_confidence_range sample_data.one_gap).
  unfold _analyze_volatility, coefficient_of_variation. py_eval.
  r_decide. reflexivity.
Defined.

End VolatilityScore.

(** ** The column mapping: which labels change *)

Section ColumnLabels.

Import pandas column_mapper.
Local Open Scope string_scope.
Local Open Scope list_scope.

Variable lower : string -> string.

Lemma has_column_In (cols : list string) (col : string) :
  has_column cols col = true <-> In col cols.
Proof.
  unfold has_column. rewrite existsb_exists. split.
  - intros [x [Hx E]]. apply String.eqb_eq in E. subst x. exact Hx.
  - intros H. exists col. split; [exact H|apply String.eqb_refl].
Qed.

Lemma get_pair (V : Type) (d : dict V) (k : string) (v : V) :
  get d k = Some v -> In (k, v) d.
Proof.
  induction d as [|[k' v'] d IH]; cbn [get]; [discriminate|].
  destruct (String.eqb_spec k' k) as [->|_].
  - intros H. injection H as ->. left. reflexivity.
  - intros H. right. apply IH. exact H.
Qed.

Lemma contains_keys (V : Type) (d : dict V) (k : string) :
  contains d k = true <-> In k (keys d).
Proof.
  unfold contains. rewrite get_in_keys.
  destruct (get d k) as [v|]; split; try discriminate; eauto.
  intros [x H]. discriminate H.
Qed.

Lemma mapped_so_far_step (original_columns : list string)
    (done : dict (list string)) (rename_dict : dict string)
    (entry : string * list string) :
  mapped_so_far lower original_columns done rename_dict ->
  ~ In (fst entry) (keys done) ->
  mapped_so_far lower original_columns (done ++ [entry])
    (map_standard lower original_columns rename_dict entry).
Proof.
  intros [H1 H2 H3 H5 H4] Hnew. destruct entry as [standard_col keywords].
  cbn [fst] in Hnew. unfold map_standard.
  destruct (has_column original_columns standard_col) eqn:Hhas.
  - (* the standard name is a column already *)
    split; [exact H1|exact H2| | |].
    + intros col s Hin. destruct (H3 col s Hin) as [Ha [Hb Hc]].
      split; [exact Ha|]. split; [|exact Hc].
      unfold keys. rewrite map_app. apply in_or_app. left. exact Hb.
    + intros col s Hin. destruct (H5 col s Hin) as [kw [Ha Hb]].
      exists kw. split; [apply in_or_app; left; exact Ha|exact Hb].
    + intros s kw Hin. apply in_app_or in Hin. destruct Hin as [Hin|[E|[]]].
      * apply (H4 s kw Hin).
      * injection E as <- <-. left. apply has_column_In. exact Hhas.
  - destruct (first_candidate lower original_columns rename_dict keywords)
      as [col|] eqn:Hfind.
    + (* a column is renamed *)
      unfold first_candidate in Hfind. apply find_some in Hfind.
      destruct Hfind as [Hcol Hok]. apply andb_prop in Hok.
      destruct Hok as [Hfree Hann]. apply negb_true_iff in Hfree.
      assert (Hnk : ~ In col (keys rename_dict)).
      { intros Hk. apply contains_keys in Hk. congruence. }
      assert (Hns : ~ In standard_col (values rename_dict)).
      { intros Hv. unfold values in Hv. apply in_map_iff in Hv.
        destruct Hv as [[c s] [E Hin]]. cbn [snd] in E. subst s.
        destruct (H3 c standard_col Hin) as [_ [Hd _]]. contradiction. }
      assert (Hno : ~ In standard_col original_columns).
      { intros Hin. apply has_column_In in Hin. congruence. }
      split.
      * unfold keys. rewrite map_app. cbn [map fst].
        apply NoDup_app; [exact H1|repeat constructor; intros []|].
        intros x Hx [<-|[]]. contradiction.
      * unfold values. rewrite map_app. cbn [map snd].
        apply NoDup_app; [exact H2|repeat constructor; intros []|].
        intros x Hx [<-|[]]. contradiction.
      * intros c s Hin. apply in_app_or in Hin. destruct Hin as [Hin|[E|[]]].
        -- destruct (H3 c s Hin) as [Ha [Hb Hc]].
           split; [exact Ha|]. split; [|exact Hc].
           unfold keys. rewrite map_app. apply in_or_app. left. exact Hb.
        -- injection E as <- <-. split; [exact Hcol|]. split; [|exact Hno].
           unfold keys. rewrite map_app. apply in_or_app. right.
           left. reflexivity.
      * intros c s Hin. apply in_app_or in Hin. destruct Hin as [Hin|[E|[]]].
        -- destruct (H5 c s Hin) as [kw [Ha Hb]].
           exists kw. split; [apply in_or_app; left; exact Ha|exact Hb].
        -- injection E as <- <-. exists keywords.
           split; [apply in_or_app; right; left; reflexivity|exact Hann].
      * intros s kw Hin. apply in_app_or in Hin. destruct Hin as [Hin|[E|[]]].
        -- destruct (H4 s kw Hin) as [Ha|[Hb|Hc]].
           ++ left. exact Ha.
           ++ right. left. unfold values. rewrite map_app.
              apply in_or_app. left. exact Hb.
           ++ right. right. intros c Hc1 Hc2. apply Hc; [exact Hc1|].
              destruct (contains rename_dict c) eqn:Ec; [|reflexivity].
              apply contains_keys in Ec.
              assert (Hk : In c (keys (rename_dict ++ [(col, standard_col)]))).
              { unfold keys. rewrite map_app. apply in_or_app. left.
                exact Ec. }
              apply contains_keys in Hk. congruence.
        -- injection E as <- <-. right. left. unfold values.
           rewrite map_app. apply in_or_app. right. left. reflexivity.
    + (* no column announces the standard name *)
      split; [exact H1|exact H2| | |].
      * intros col s Hin. destruct (H3 col s Hin) as [Ha [Hb Hc]].
        split; [exact Ha|]. split; [|exact Hc].
        unfold keys. rewrite map_app. apply in_or_app. left. exact Hb.
      * intros col s Hin. destruct (H5 col s Hin) as [kw [Ha Hb]].
        exists kw. split; [apply in_or_app; left; exact Ha|exact Hb].
      * intros s kw Hin. apply in_app_or in Hin. destruct Hin as [Hin|[E|[]]].
        -- apply (H4 s kw Hin).
        -- injection E as <- <-. right. right. intros col Hcol Hfree.
           unfold first_candidate in Hfind.
           pose proof (find_none _ _ Hfind col Hcol) as Hn.
           cbv beta in Hn. rewrite Hfree in Hn. cbn [negb andb] in Hn.
           exact Hn.
Qed.

Lemma mapped_so_far_loop (original_columns : list string)
    (table done : dict (list string)) (rename_dict : dict string) :
  mapped_so_far lower original_columns done rename_dict ->
  NoDup (keys (done ++ table)) ->
  mapped_so_far lower original_columns (done ++ table)
    (fold_left (map_standard lower original_columns) table rename_dict).
Proof.
  revert done rename_dict.
  induction table as [|entry table IH]; intros done rename_dict H Hnd.
  - rewrite app_nil_r. exact H.
  - cbn [fold_left].
    replace (done ++ entry :: table) with ((done ++ [entry]) ++ table) in *
      by (rewrite <- app_assoc; reflexivity).
    apply IH; [|exact Hnd].
    apply mapped_so_far_step; [exact H|].
    unfold keys in Hnd. rewrite !map_app in Hnd. cbn [map] in Hnd.
    rewrite <- app_assoc in Hnd. cbn [app] in Hnd.
    apply NoDup_remove_2 in Hnd. intros Hin. apply Hnd.
    apply in_or_app. left. exact Hin.
Qed.

Lemma build_rename_dict_facts (original_columns : list string) :
  mapped_so_far lower original_columns REQUIRED_MAP
    (build_rename_dict lower REQUIRED_MAP original_columns).
Proof.
  unfold build_rename_dict.
  apply (mapped_so_far_loop original_columns REQUIRED_MAP [] []).
  - split; cbn; try constructor; intros; contradiction.
  - cbn. repeat constructor; cbn; intuition discriminate.
Qed.

Lemma auto_map_columns_rename (original_columns : list string) :
  auto_map_columns lower original_columns
  = rename (build_rename_dict lower REQUIRED_MAP original_columns)
           original_columns.
Proof.
  unfold auto_map_columns.
  destruct (build_rename_dict lower REQUIRED_MAP original_columns); [|reflexivity].
  unfold rename, get_default. cbn [get]. symmetry. apply map_id.
Qed.

(** X27. [auto_map_columns] changes labels only, position by
    position: every column keeps its label or gets one of the seven
    standard names, and only a standard name that no column of the
    uploaded table carried; the number of columns does not change. *)
Theorem auto_map_columns_labels (original_columns : list string) :
  Forall2 (fun col col' =>
             col' = col \/
             (In col' (keys REQUIRED_MAP) /\ ~ In col' original_columns))
          original_columns (auto_map_columns lower original_columns).
Proof.
  rewrite auto_map_columns_rename.
  destruct (build_rename_dict_facts original_columns) as [_ _ H3 _ _].
  set (rd := build_rename_dict lower REQUIRED_MAP original_columns) in *.
  unfold rename.
  assert (G : forall l, Forall2 (fun col col' =>
             col' = col \/
             (In col' (keys REQUIRED_MAP) /\ ~ In col' original_columns))
             l (map (fun col => get_default rd col col) l)).
  { induction l as [|c l IH]; cbn [map]; constructor; [|exact IH].
    unfold get_default. destruct (get rd c) as [s|] eqn:E.
    - right. apply get_pair in E. destruct (H3 c s E) as [_ [Ha Hb]].
      split; assumption.
    - left. reflexivity. }
  apply G.
Qed.

Lemma rename_distinct (original_columns : list string)
    (rename_dict : dict string) (done : dict (list string)) :
  mapped_so_far lower original_columns done rename_dict ->
  forall l, incl l original_columns -> NoDup l ->
            NoDup (rename rename_dict l).
Proof.
  intros [H1 H2 H3 _ _]. unfold rename.
  induction l as [|c l IH]; intros Hincl Hnd; cbn [map]; [constructor|].
  inversion Hnd as [|? ? Hc Hl]; subst.
  constructor.
  - intros Hin. apply in_map_iff in Hin. destruct Hin as [c' [E Hc']].
    unfold get_default in E.
    destruct (get rename_dict c) as [s|] eqn:Ec;
      destruct (get rename_dict c') as [s'|] eqn:Ec'.
    + subst s'. apply get_pair in Ec. apply get_pair in Ec'.
      assert (c' = c).
      { clear - H2 Ec Ec'. induction rename_dict as [|[k v] d IHd];
          [contradiction|].
        cbn [values map snd] in H2. inversion H2 as [|? ? Hv Hd]; subst.
        destruct Ec as [E1|E1]; destruct Ec' as [E2|E2].
        - congruence.
        - injection E1 as -> ->. exfalso. apply Hv.
          apply in_map_iff. exists (c', s). auto.
        - injection E2 as -> ->. exfalso. apply Hv.
          apply in_map_iff. exists (c, s). auto.
        - apply IHd; assumption. }
      subst c'. contradiction.
    + subst c'. apply get_pair in Ec. destruct (H3 c s Ec) as [_ [_ Hn]].
      apply Hn. apply Hincl. right. exact Hc'.
    + subst s'. apply get_pair in Ec'. destruct (H3 c' c Ec') as [_ [_ Hn]].
      apply Hn. apply Hincl. left. reflexivity.
    + subst c'. contradiction.
  - apply IH; [|exact Hl]. intros x Hx. apply Hincl. right. exact Hx.
Qed.

(** X28. The mapping creates no duplicate label: when the labels of
    the uploaded table are distinct, so are the labels after
    [auto_map_columns] (each standard name is given to one column at
    most, and never to a second column beside one that carries it). *)
Theorem auto_map_columns_distinct (original_columns : list string) :
  NoDup original_columns ->
  NoDup (auto_map_columns lower original_columns).
Proof.
  intros Hnd. rewrite auto_map_columns_rename.
  eapply rename_distinct.
  - apply build_rename_dict_facts.
  - apply incl_refl.
  - exact Hnd.
Qed.

(** X29. The mapping misses no candidate: when a standard name is
    absent from the table before and after [auto_map_columns], no column
    that kept its label contains one of that name's keywords (in lower
    case); columns renamed to another standard name may. *)
Theorem unmapped_standard_has_no_candidate (original_columns : list string)
    (standard_col : string) (keywords : list string) :
  In (standard_col, keywords) REQUIRED_MAP ->
  has_column original_columns standard_col = false ->
  has_column (auto_map_columns lower original_columns) standard_col = false ->
  forall i col,
    nth_error original_columns i = Some col ->
    nth_error (auto_map_columns lower original_columns) i = Some col ->
    announces lower keywords col = false.
Proof.
  intros Hin Hbefore Hafter i col Hi Hi'.
  rewrite auto_map_columns_rename in *.
  destruct (build_rename_dict_facts original_columns) as [H1 _ H3 _ H4].
  set (rd := build_rename_dict lower REQUIRED_MAP original_columns) in *.
  assert (Hcol : In col original_columns) by (eapply nth_error_In; exact Hi).
  destruct (H4 standard_col keywords Hin) as [Ha|[Hb|Hc]].
  - apply has_column_In in Ha. congruence.
  - exfalso. unfold values in Hb. apply in_map_iff in Hb.
    destruct Hb as [[c s] [E Hcs]]. cbn [snd] in E. subst s.
    destruct (H3 c standard_col Hcs) as [Hc _].
    assert (Hres : In standard_col (rename rd original_columns)).
    { unfold rename. apply in_map_iff. exists c. split; [|exact Hc].
      unfold get_default. rewrite (get_in_nodup _ rd c standard_col H1 Hcs).
      reflexivity. }
    apply has_column_In in Hres. congruence.
  - apply Hc; [exact Hcol|].
    unfold rename in Hi'. rewrite nth_error_map, Hi in Hi'.
    cbn [option_map] in Hi'. injection Hi' as Hi'.
    unfold get_default in Hi'. unfold contains.
    destruct (get rd col) as [s|] eqn:E; [|reflexivity].
    exfalso. subst s. apply get_pair in E.
    destruct (H3 col col E) as [_ [_ Hn]]. contradiction.
Qed.

(** X30. Columns that already carry a standard name keep it, when
    lower-casing leaves the seven standard names as they are (they are
    Hangul): no standard name contains a keyword of another one. *)
Theorem standard_labels_kept (original_columns : list string) :
  Forall (fun standard_col => lower standard_col = standard_col)
         (keys REQUIRED_MAP) ->
  Forall2 (fun col col' => In col (keys REQUIRED_MAP) -> col' = col)
          original_columns (auto_map_columns lower original_columns).
Proof.
  intros Hlower. rewrite auto_map_columns_rename.
  destruct (build_rename_dict_facts original_columns) as [_ _ H3 H5 _].
  set (rd := build_rename_dict lower REQUIRED_MAP original_columns) in *.
  unfold rename.
  assert (G : forall l, incl l original_columns ->
            Forall2 (fun col col' => In col (keys REQUIRED_MAP) -> col' = col)
              l (map (fun col => get_default rd col col) l)).
  { induction l as [|c l IH]; intros Hincl; cbn [map]; constructor.
    - intros Hstd. unfold get_default.
      destruct (get rd c) as [s|] eqn:E; [|reflexivity].
      exfalso. apply get_pair in E.
      destruct (H3 c s E) as [_ [_ Habsent]].
      destruct (H5 c s E) as [kw [Hkw Hann]].
      assert (Hc : In c original_columns) by (apply Hincl; left; reflexivity).
      assert (Hl : lower c = c).
      { rewrite Forall_forall in Hlower. apply Hlower. exact Hstd. }
      unfold announces in Hann. rewrite Hl in Hann.
      cbn [keys map fst REQUIRED_MAP] in Hstd.
      cbn [REQUIRED_MAP] in Hkw.
      repeat (destruct Hstd as [Hstd|Hstd]; [subst c|]); try contradiction;
        repeat (destruct Hkw as [Hkw|Hkw];
                [injection Hkw as <- <-|]); try contradiction;
        try (vm_compute in Hann; discriminate Hann);
        contradiction.
    - apply IH. intros x Hx. apply Hincl. right. exact Hx. }
  apply G. apply incl_refl.
Qed.

End ColumnLabels.

Section ColumnLabelRuns.

Import pandas column_mapper.
Local Open Scope string_scope.
Local Open Scope list_scope.

(** A run of X28 on the labels date, product and qty. *)
Lemma auto_map_columns_distinct_witness :
  NoDup (auto_map_columns (fun s => s) ["date"; "product"; "qty"]).
Proof.
  apply auto_map_columns_distinct.
  repeat constructor; cbn; intuition discriminate.
Defined.

(** A run of X29: the column memo of a table without weather
    column. *)
Lemma unmapped_standard_has_no_candidate_witness :
  announces (fun s => s) ["weather"; "날씨"] "memo" = false.
Proof.
  apply (unmapped_standard_has_no_candidate (fun s => s) ["date"; "memo"]
           "날씨" ["weather"; "날씨"]) with (i := 1%nat).
  - do 6 right. left. reflexivity.
  - reflexivity.
  - reflexivity.
  - reflexivity.
  - reflexivity.
Defined.

(** A run of X30: a table that has the standard date column. *)
Lemma standard_labels_kept_witness :
  Forall2 (fun col col' => In col (keys REQUIRED_MAP) -> col' = col)
          ["날짜"; "item"] (auto_map_columns (fun s => s) ["날짜"; "item"]).
Proof.
  apply standard_labels_kept. repeat constructor.
Defined.

End ColumnLabelRuns.
